(** * Offer reader: response parsing, field normalisation, aggregation

    A shallow embedding of [src/app.py]: the functions
    [extract_products_from_image], [build_dataframe] and the batch loop of
    [main], together with the parts of the Python runtime they call
    ([json.loads], [float], [str], [str.replace], [str.strip], [str.find],
    [str.rfind], slicing, [dict.get], truthiness and [or]); then
    [encode_image_to_data_url] with [base64.b64encode],
    [list_sample_images] with [os.path.join], [os.path.basename] and
    [list.sort], [get_openai_client], and the run of [main] from the
    button to the table.

    Conventions.
    - A Python [str] is a [string]: the bytes of its UTF-8 encoding.  ASCII
      characters are treated exactly.  Of the characters outside ASCII the
      whitespace ones are known to [str.strip] and to [float], and the
      decimal digits to [float], and the ones that are not printable to
      [repr].  An index into a [str] counts bytes; the program only takes
      the indices of braces and slices between them, which gives the same
      text as counting characters.
    - A Python exception is a value of [exn]; code that may raise returns a
      [result], and [try ... except] is a [match] on it.  Every exception
      of [exn] is an [Exception]; [JSONDecodeError] is the only one that
      [except json.JSONDecodeError] catches.
    - A Python [float] is a [pyfloat]: an IEEE-754 binary64 value, obtained
      from decimals and integers by round-half-even.
    - [json.loads] is the default decoder.  The interpreter's recursion
      limit is not modelled: however deep a text nests, it is parsed.
    - What the program reads from its host is a parameter: the registry of
      [mimetypes], the content of a directory, the images that can be
      opened, the environment variable, the answers of the model.  So are
      pandas and Streamlit in the run of [main]: what they make of the
      records, and whether they raise.  Paths are POSIX paths.  [bytes] are
      a [string] too, one character for each byte. *)

From Stdlib Require Import ZArith Bool List Ascii String Lia ZifyNat.
From Stdlib Require Import DecimalString Sorted Permutation.
Import ListNotations.

Local Open Scope string_scope.
Local Open Scope Z_scope.

(* ===================================================================== *)
(** * Exceptions and results *)
(* ===================================================================== *)

Inductive exn : Type :=
| JSONDecodeError
| ValueError
| TypeError
| AttributeError
| OverflowError
| IndexError
| RecursionError
| APIError (msg : string).

Inductive result (A : Type) : Type :=
| Ok (a : A)
| Raise (e : exn).

Arguments Ok {A} a.
Arguments Raise {A} e.

Definition bind {A B : Type} (r : result A) (k : A -> result B) : result B :=
  match r with
  | Ok a => k a
  | Raise e => Raise e
  end.

Notation "x <- c ;; k" := (bind c (fun x => k))
  (at level 61, c at next level, right associativity).

Definition is_ok {A : Type} (r : result A) : bool :=
  match r with Ok _ => true | Raise _ => false end.

(* ===================================================================== *)
(** * Strings *)
(* ===================================================================== *)

Module Str.

Definition bytes (l : list nat) : string :=
  fold_right (fun n s => String (ascii_of_nat n) s) EmptyString l.

Definition code (c : ascii) : Z := Z.of_nat (nat_of_ascii c).

(** The double-quote character, and a text in which each apostrophe stands
    for a double quote (used to write JSON texts). *)
Definition dquote : ascii := Eval cbv in ascii_of_nat 34.

Fixpoint dq (s : string) : string :=
  match s with
  | EmptyString => EmptyString
  | String c s' => String (if Ascii.eqb c "'" then dquote else c) (dq s')
  end.

Definition len (s : string) : Z := Z.of_nat (String.length s).

Fixpoint drop (n : nat) (s : string) : string :=
  match n, s with
  | O, _ => s
  | S n', String _ s' => drop n' s'
  | S _, EmptyString => EmptyString
  end.

Fixpoint rev_app (s acc : string) : string :=
  match s with
  | EmptyString => acc
  | String c s' => rev_app s' (String c acc)
  end.

Definition rev (s : string) : string := rev_app s EmptyString.

(** [c in s] for a character [c]. *)
Fixpoint contains (s : string) (c : ascii) : bool :=
  match s with
  | EmptyString => false
  | String c' s' => Ascii.eqb c c' || contains s' c
  end.

(** [s] without its first character, when that is [c]. *)
Definition eat (c : ascii) (s : string) : option string :=
  match s with
  | String x s' => if Ascii.eqb x c then Some s' else None
  | EmptyString => None
  end.

(** [s.find(sub)], counting from index [i]: lowest index of an occurrence,
    or [-1]. *)
Fixpoint find_from (sub s : string) (i : Z) : Z :=
  if prefix sub s then i
  else match s with
       | EmptyString => -1
       | String _ s' => find_from sub s' (i + 1)
       end.

Definition find (s sub : string) : Z := find_from sub s 0.

(** [s.rfind(sub)]: highest index of an occurrence, or [-1]. *)
Fixpoint rfind_from (sub s : string) (i : Z) : Z :=
  match s with
  | EmptyString => if prefix sub s then i else -1
  | String _ s' =>
      let r := rfind_from sub s' (i + 1) in
      if r =? -1 then (if prefix sub s then i else -1) else r
  end.

Definition rfind (s sub : string) : Z := rfind_from sub s 0.

(** [s[start:stop]] with Python's clamping of the two bounds. *)
Definition clamp (n i : Z) : Z :=
  if i <? 0 then Z.max 0 (i + n) else Z.min i n.

Definition slice (s : string) (start stop : Z) : string :=
  let a := clamp (len s) start in
  let b := clamp (len s) stop in
  substring (Z.to_nat a) (Z.to_nat (b - a)) s.

(** [s.replace(old, new)] for a non-empty [old]: occurrences are replaced
    left to right without overlap.  [skip] counts the characters of an
    occurrence still to be passed over. *)
Fixpoint replace_aux (old new s : string) (skip : nat) : string :=
  match s with
  | EmptyString => EmptyString
  | String c s' =>
      match skip with
      | S k => replace_aux old new s' k
      | O =>
          if prefix old s
          then new ++ replace_aux old new s' (Nat.pred (String.length old))
          else String c (replace_aux old new s' O)
      end
  end.

Definition replace (s old new : string) : string := replace_aux old new s O.

(** The characters for which [str.isspace] holds, UTF-8 encoded:
    U+0009..U+000D, U+001C..U+0020, U+0085, U+00A0, U+1680,
    U+2000..U+200A, U+2028, U+2029, U+202F, U+205F, U+3000. *)
Definition py_whitespace : list string :=
  map bytes
    [ [9]; [10]; [11]; [12]; [13]; [28]; [29]; [30]; [31]; [32];
      [194; 133]; [194; 160]; [225; 154; 128];
      [226; 128; 128]; [226; 128; 129]; [226; 128; 130]; [226; 128; 131];
      [226; 128; 132]; [226; 128; 133]; [226; 128; 134]; [226; 128; 135];
      [226; 128; 136]; [226; 128; 137]; [226; 128; 138];
      [226; 128; 168]; [226; 128; 169]; [226; 128; 175];
      [226; 129; 159]; [227; 128; 128] ]%nat.

(** Length of the first entry of [tbl] that starts [s]; [0] if none does. *)
Fixpoint head_len (tbl : list string) (s : string) : nat :=
  match tbl with
  | [] => O
  | w :: tbl' => if prefix w s then String.length w else head_len tbl' s
  end.

Fixpoint lstrip_with (tbl : list string) (fuel : nat) (s : string) : string :=
  match fuel with
  | O => s
  | S fuel' =>
      match head_len tbl s with
      | O => s
      | n => lstrip_with tbl fuel' (drop n s)
      end
  end.

Definition lstrip (s : string) : string :=
  lstrip_with py_whitespace (String.length s) s.

Definition rstrip (s : string) : string :=
  rev (lstrip_with (map rev py_whitespace) (String.length s) (rev s)).

(** [s.strip()] *)
Definition strip (s : string) : string := rstrip (lstrip s).

(** No entry of [tbl] holds the character [c]. *)
Definition free_of (c : ascii) (tbl : list string) : bool :=
  forallb (fun w => negb (contains w c)) tbl.

(** [sep.join(parts)] *)
Fixpoint join (sep : string) (parts : list string) : string :=
  match parts with
  | [] => ""
  | [p] => p
  | p :: rest => p ++ sep ++ join sep rest
  end.

Definition lower_ascii (c : ascii) : ascii :=
  let n := nat_of_ascii c in
  if ((65 <=? n) && (n <=? 90))%nat then ascii_of_nat (n + 32) else c.

Fixpoint lower (s : string) : string :=
  match s with
  | EmptyString => EmptyString
  | String c s' => String (lower_ascii c) (lower s')
  end.

Definition is_digit (c : ascii) : bool :=
  let n := nat_of_ascii c in ((48 <=? n) && (n <=? 57))%nat.

Definition digit_val (c : ascii) : Z := code c - 48.

(** The characters of [s], one string each: a byte that continues a
    UTF-8 sequence stays with the bytes before it. *)
Fixpoint chars (s : string) : list string :=
  match s with
  | EmptyString => []
  | String c s' =>
      match chars s' with
      | next :: rest =>
          match next with
          | String x _ =>
              let k := nat_of_ascii x in
              if ((128 <=? k) && (k <? 192))%nat
              then String c next :: rest
              else String c "" :: next :: rest
          | EmptyString => String c "" :: rest
          end
      | [] => [String c ""]
      end
  end.

(** Decimal rendering of an integer, as [str(int)] gives it. *)
Definition of_Z (z : Z) : string := NilZero.string_of_int (Z.to_int z).

End Str.


(* ===================================================================== *)
(** * Floating-point numbers *)
(* ===================================================================== *)

Module Float.

(** A binary64 value.  [FFin neg m e] is [(-1)^neg * m * 2^e] with either
    [2^52 <= m < 2^53] and [-1074 <= e <= 971] (normal), or [m < 2^52] and
    [e = -1074] (subnormal), or [m = 0] and [e = 0] (a signed zero). *)
Inductive pyfloat : Type :=
| FFin (neg : bool) (m e : Z)
| FInf (neg : bool)
| FNan.

Definition is_finite (f : pyfloat) : bool :=
  match f with FFin _ _ _ => true | _ => false end.

Definition is_zero (f : pyfloat) : bool :=
  match f with FFin _ m _ => m =? 0 | _ => false end.

(** [n / (d * 2^e)] as a fraction of integers. *)
Definition scaled (n d e : Z) : Z * Z :=
  if 0 <=? e then (n, d * 2 ^ e) else (n * 2 ^ (- e), d).

(** Round-half-even of the positive rational [n / d] to 53 significant
    bits: mantissa and exponent, or [None] when the result exceeds the
    largest finite value. *)
Definition round_pos (n d : Z) : option (Z * Z) :=
  let l := Z.log2 n - Z.log2 d in
  let e1 := l - 52 in
  let q1 := (let '(a, b) := scaled n d e1 in a / b) in
  let e2 := if q1 <? 2 ^ 52 then e1 - 1
            else if 2 ^ 53 <=? q1 then e1 + 1 else e1 in
  let e := Z.max e2 (-1074) in
  let '(num, den) := scaled n d e in
  let q := num / den in
  let r := num mod den in
  let m := if 2 * r <? den then q
           else if den <? 2 * r then q + 1
           else if Z.even q then q else q + 1 in
  let '(m', e') := if m =? 2 ^ 53 then (2 ^ 52, e + 1) else (m, e) in
  if 971 <? e' then None else Some (m', e').

(** The binary64 value nearest to [(-1)^neg * n / d], for [0 <= n], [0 < d];
    an infinity when out of range. *)
Definition of_ratio (neg : bool) (n d : Z) : pyfloat :=
  if n =? 0 then FFin neg 0 0
  else match round_pos n d with
       | Some (m, e) => if m =? 0 then FFin neg 0 0 else FFin neg m e
       | None => FInf neg
       end.

(** The binary64 value nearest to [(-1)^neg * M * 10^E]. *)
Definition of_decimal (neg : bool) (M E : Z) : pyfloat :=
  if 0 <=? E then of_ratio neg (M * 10 ^ E) 1
  else of_ratio neg M (10 ^ (- E)).

(** [float(n)] for an [int]: raises [OverflowError] when out of range. *)
Definition of_int (z : Z) : result pyfloat :=
  match of_ratio (z <? 0) (Z.abs z) 1 with
  | FInf _ => Raise OverflowError
  | f => Ok f
  end.

(** ** Parsing: [float(s)] for a [str] *)

(** Underscores may only stand between two digits; they are removed. *)
Fixpoint strip_underscores (prev : ascii) (s : string) : option string :=
  match s with
  | EmptyString => if Ascii.eqb prev "_" then None else Some EmptyString
  | String c s' =>
      if Ascii.eqb c "_"
      then (if Str.is_digit prev then strip_underscores c s' else None)
      else if Ascii.eqb prev "_" && negb (Str.is_digit c) then None
      else option_map (String c) (strip_underscores c s')
  end.

(** [Py_ISSPACE]: tab, newline, vertical tab, form feed, return, space. *)
Definition c_isspace (c : ascii) : bool :=
  let n := nat_of_ascii c in ((9 <=? n) && (n <=? 13) || (n =? 32))%nat.

Fixpoint c_lstrip (s : string) : string :=
  match s with
  | String c s' => if c_isspace c then c_lstrip s' else s
  | EmptyString => s
  end.

Definition c_strip (s : string) : string :=
  Str.rev (c_lstrip (Str.rev (c_lstrip s))).

(** Longest run of digits at the head of [s]: its value continuing [acc],
    the number of digits, and what follows. *)
Fixpoint take_digits (s : string) (acc : Z) (cnt : Z) : Z * Z * string :=
  match s with
  | String c s' =>
      if Str.is_digit c
      then take_digits s' (10 * acc + Str.digit_val c) (cnt + 1)
      else (acc, cnt, s)
  | EmptyString => (acc, cnt, s)
  end.

Definition take_sign (s : string) : bool * string :=
  match Str.eat "-" s with
  | Some s' => (true, s')
  | None =>
      match Str.eat "+" s with
      | Some s' => (false, s')
      | None => (false, s)
      end
  end.

(** The exponent part: absent, or [e] or [E], an optional sign and at
    least one digit, up to the end of the text. *)
Definition parse_exponent (s : string) : option Z :=
  match s with
  | EmptyString => Some 0
  | String c s' =>
      if Ascii.eqb c "e" || Ascii.eqb c "E" then
        let '(neg, s1) := take_sign s' in
        let '(x, cnt, rest) := take_digits s1 0 0 in
        if (0 <? cnt) && String.eqb rest ""
        then Some (if neg then - x else x) else None
      else None
  end.

(** [digits [. digits]] or [. digits], then the exponent part. *)
Definition parse_number (neg : bool) (s : string) : option pyfloat :=
  let '(ip, ni, r1) := take_digits s 0 0 in
  let '(M, nf, r2) :=
    match Str.eat "." r1 with
    | Some r => take_digits r ip 0
    | None => (ip, 0, r1)
    end in
  if 0 <? ni + nf then
    match parse_exponent r2 with
    | Some x => Some (of_decimal neg M (x - nf))
    | None => None
    end
  else None.

Definition parse_stripped (s : string) : option pyfloat :=
  let '(neg, body) := take_sign s in
  let low := Str.lower body in
  if String.eqb low "inf" || String.eqb low "infinity" then Some (FInf neg)
  else if String.eqb low "nan" then Some FNan
  else parse_number neg body.

(** The code points of the digit zero of each script that has decimal
    digits (Unicode 14.0); the nine code points after each are its digits
    one to nine. *)
Definition decimal_zeros : list Z :=
  [ 1632; 1776; 1984; 2406; 2534; 2662; 2790; 2918; 3046; 3174; 3302; 3430;
    3558; 3664; 3792; 3872; 4160; 4240; 6112; 6160; 6470; 6608; 6784; 6800;
    6992; 7088; 7232; 7248; 42528; 43216; 43264; 43472; 43504; 43600; 44016;
    65296; 66720; 68912; 69734; 69872; 69942; 70096; 70384; 70736; 70864;
    71248; 71360; 71472; 71904; 72016; 72784; 73040; 73120; 92768; 92864;
    93008; 120782; 120792; 120802; 120812; 120822; 123200; 123632; 125264;
    130032 ].

Fixpoint decimal_value (zeros : list Z) (cp : Z) : option Z :=
  match zeros with
  | [] => None
  | z :: zeros' =>
      if (z <=? cp) && (cp <? z + 10) then Some (cp - z)
      else decimal_value zeros' cp
  end.

(** The bits that a continuation byte of UTF-8 carries. *)
Definition continuation (c : ascii) : option Z :=
  let n := Str.code c in
  if (128 <=? n) && (n <? 192) then Some (n - 128) else None.

(** The character outside ASCII at the head of [s]: its code point and the
    number of bytes after the first. *)
Definition decode_head (s : string) : option (Z * nat) :=
  match s with
  | String b0 (String b1 rest) =>
      let n := Str.code b0 in
      match continuation b1 with
      | None => None
      | Some x1 =>
          if (192 <=? n) && (n <? 224) then Some ((n - 192) * 64 + x1, 1%nat)
          else
            match rest with
            | String b2 rest' =>
                match continuation b2 with
                | None => None
                | Some x2 =>
                    if (224 <=? n) && (n <? 240)
                    then Some (((n - 224) * 64 + x1) * 64 + x2, 2%nat)
                    else
                      match rest' with
                      | String b3 _ =>
                          match continuation b3 with
                          | Some x3 =>
                              if (240 <=? n) && (n <? 248)
                              then Some ((((n - 240) * 64 + x1) * 64 + x2) * 64
                                         + x3, 3%nat)
                              else None
                          | None => None
                          end
                      | EmptyString => None
                      end
                end
            | EmptyString => None
            end
      end
  | _ => None
  end.

(** What [float] reads of a character outside ASCII: a space for a
    whitespace character, the ASCII digit for a decimal digit; any other
    character stays, and is no part of a number.  [skip] counts the bytes
    of a character still to be passed over. *)
Fixpoint to_ascii (s : string) (skip : nat) : string :=
  match s with
  | EmptyString => EmptyString
  | String c s' =>
      match skip with
      | S k => to_ascii s' k
      | O =>
          if (nat_of_ascii c <? 128)%nat then String c (to_ascii s' O)
          else match Str.head_len Str.py_whitespace s with
               | S n => String " " (to_ascii s' n)
               | O =>
                   match decode_head s with
                   | Some (cp, n) =>
                       match decimal_value decimal_zeros cp with
                       | Some d => String (ascii_of_nat (Z.to_nat (48 + d)))
                                          (to_ascii s' n)
                       | None => String c (to_ascii s' O)
                       end
                   | None => String c (to_ascii s' O)
                   end
               end
      end
  end.

(** [float(s)]: raises [ValueError] when [s] is not a number. *)
Definition of_string (s : string) : result pyfloat :=
  match strip_underscores "000" (to_ascii s O) with
  | None => Raise ValueError
  | Some s1 =>
      match parse_stripped (c_strip s1) with
      | Some f => Ok f
      | None => Raise ValueError
      end
  end.

End Float.

(** ** Printing: [repr(x)] for a [float]

    The shortest decimal that reads back as the same binary64 value, in
    positional notation when the decimal point falls within
    [-4 < decpt <= 16] and in exponent notation otherwise. *)

Module FloatRepr.
Import Float.

(** [10^k <= n/d] *)
Definition ge_pow10 (n d k : Z) : bool :=
  if 0 <=? k then d * 10 ^ k <=? n else d <=? n * 10 ^ (- k).

(** The [k] with [10^k <= n/d < 10^(k+1)], for a positive [n/d]. *)
Definition adjust10 (n d k : Z) : Z :=
  if negb (ge_pow10 n d k) then k - 1
  else if ge_pow10 n d (k + 1) then k + 1 else k.

Definition floor_log10 (n d : Z) : Z :=
  let k0 := ((Z.log2 n - Z.log2 d) * 30103) / 100000 in
  adjust10 n d (adjust10 n d (adjust10 n d k0)).

(** The integer [c] such that [c * 10^p] is the candidate with [digits]
    significant digits that reads back as [FFin false m e] and lies nearest
    to it, if there is one. *)
Definition candidate (m e k digits : Z) : option (Z * Z) :=
  let '(vn, vd) := scaled m 1 (- e) in
  let p := k - digits + 1 in
  let '(num, den) :=
    if 0 <=? p then (vn, vd * 10 ^ p) else (vn * 10 ^ (- p), vd) in
  let lo := num / den in
  let r := num mod den in
  let back c := match of_decimal false c p with
                | FFin _ m' e' => (m' =? m) && (e' =? e)
                | _ => false
                end in
  let lo_ok := (0 <? lo) && back lo in
  let hi_ok := back (lo + 1) in
  if lo_ok && hi_ok then
    (if 2 * r <? den then Some (lo, p)
     else if den <? 2 * r then Some (lo + 1, p)
     else if Z.even lo then Some (lo, p) else Some (lo + 1, p))
  else if lo_ok then Some (lo, p)
  else if hi_ok then Some (lo + 1, p)
  else None.

Fixpoint shortest (m e k : Z) (digits : Z) (fuel : nat) : Z * Z :=
  match fuel with
  | O => (m, e)
  | S fuel' =>
      match candidate m e k digits with
      | Some cp => cp
      | None => shortest m e k (digits + 1) fuel'
      end
  end.

(** Remove the trailing zeros of [c], raising the exponent [p]. *)
Fixpoint trim_zeros (c p : Z) (fuel : nat) : Z * Z :=
  match fuel with
  | O => (c, p)
  | S fuel' =>
      if (c mod 10 =? 0) && negb (c =? 0)
      then trim_zeros (c / 10) (p + 1) fuel'
      else (c, p)
  end.

Fixpoint zeros (n : nat) : string :=
  match n with O => "" | S n' => String "0" (zeros n') end.

Definition format_exp (ds : string) (x : Z) : string :=
  let mant := match ds with
              | String c EmptyString => ds
              | String c rest => String c ("." ++ rest)
              | EmptyString => ds
              end in
  let ax := Str.of_Z (Z.abs x) in
  mant ++ "e" ++ (if x <? 0 then "-" else "+")
       ++ (if Z.abs x <? 10 then "0" ++ ax else ax).

Definition format_digits (ds : string) (decpt : Z) : string :=
  let nd := Str.len ds in
  if (decpt <=? -4) || (16 <? decpt) then format_exp ds (decpt - 1)
  else if decpt <=? 0 then "0." ++ zeros (Z.to_nat (- decpt)) ++ ds
  else if decpt <? nd then
    substring 0 (Z.to_nat decpt) ds ++ "."
      ++ substring (Z.to_nat decpt) (Z.to_nat (nd - decpt)) ds
  else ds ++ zeros (Z.to_nat (decpt - nd)) ++ ".0".

Definition repr (f : pyfloat) : string :=
  match f with
  | FNan => "nan"
  | FInf neg => if neg then "-inf" else "inf"
  | FFin neg m e =>
      (if neg then "-" else "") ++
      (if m =? 0 then "0.0"
       else
         let '(vn, vd) := scaled m 1 (- e) in
         let k := floor_log10 vn vd in
         let '(c0, p0) := shortest m e k 1 17 in
         let '(c, p) := trim_zeros c0 p0 400 in
         let ds := Str.of_Z c in
         format_digits ds (Str.len ds + p))
  end.

End FloatRepr.

(* ===================================================================== *)
(** * Python values *)
(* ===================================================================== *)

(** The values [json.loads] can produce, and the records built from them. A
    [dict] keeps its insertion order; its keys are strings and occur once. *)
#[warnings="-register-all"]
Inductive pyval : Type :=
| PNone
| PBool (b : bool)
| PInt (z : Z)
| PFloat (f : Float.pyfloat)
| PStr (s : string)
| PList (l : list pyval)
| PDict (d : list (string * pyval)).

Definition pydict : Type := list (string * pyval).

Module Py.

(** [bool(v)] *)
Definition truthy (v : pyval) : bool :=
  match v with
  | PNone => false
  | PBool b => b
  | PInt z => negb (z =? 0)
  | PFloat f => negb (Float.is_zero f)
  | PStr s => negb (String.eqb s "")
  | PList l => match l with [] => false | _ => true end
  | PDict d => match d with [] => false | _ => true end
  end.

(** [a or b] *)
Definition or (a b : pyval) : pyval := if truthy a then a else b.

Fixpoint lookup (d : pydict) (k : string) : option pyval :=
  match d with
  | [] => None
  | (k', v) :: d' => if String.eqb k' k then Some v else lookup d' k
  end.

(** [d.get(k)] *)
Definition get (d : pydict) (k : string) : pyval :=
  match lookup d k with Some v => v | None => PNone end.

(** [d.get(k, default)] *)
Definition get_default (d : pydict) (k : string) (dflt : pyval) : pyval :=
  match lookup d k with Some v => v | None => dflt end.

(** [d[k] = v]: an existing key keeps its place. *)
Fixpoint set (d : pydict) (k : string) (v : pyval) : pydict :=
  match d with
  | [] => [(k, v)]
  | (k', v') :: d' =>
      if String.eqb k' k then (k', v) :: d' else (k', v') :: set d' k v
  end.

Definition is_dict (v : pyval) : bool :=
  match v with PDict _ => true | _ => false end.

Definition is_list (v : pyval) : bool :=
  match v with PList _ => true | _ => false end.

(** ** [repr] and [str] *)

Definition hex_digit (n : Z) : ascii :=
  ascii_of_nat (Z.to_nat (if n <? 10 then 48 + n else 87 + n)).

(** The code points outside ASCII for which [str.isprintable] does not
    hold (Unicode 14.0), in ranges with both ends included: controls,
    separators other than the space, format characters, surrogates,
    private use and unassigned code points. *)
Definition nonprintable : list (Z * Z) :=
  [ (128, 160); (173, 173); (888, 889); (896, 899); (907, 907); (909, 909);
    (930, 930); (1328, 1328); (1367, 1368); (1419, 1420); (1424, 1424);
    (1480, 1487); (1515, 1518); (1525, 1541); (1564, 1564); (1757, 1757);
    (1806, 1807); (1867, 1868); (1970, 1983); (2043, 2044); (2094, 2095);
    (2111, 2111); (2140, 2141); (2143, 2143); (2155, 2159); (2191, 2199);
    (2274, 2274); (2436, 2436); (2445, 2446); (2449, 2450); (2473, 2473);
    (2481, 2481); (2483, 2485); (2490, 2491); (2501, 2502); (2505, 2506);
    (2511, 2518); (2520, 2523); (2526, 2526); (2532, 2533); (2559, 2560);
    (2564, 2564); (2571, 2574); (2577, 2578); (2601, 2601); (2609, 2609);
    (2612, 2612); (2615, 2615); (2618, 2619); (2621, 2621); (2627, 2630);
    (2633, 2634); (2638, 2640); (2642, 2648); (2653, 2653); (2655, 2661);
    (2679, 2688); (2692, 2692); (2702, 2702); (2706, 2706); (2729, 2729);
    (2737, 2737); (2740, 2740); (2746, 2747); (2758, 2758); (2762, 2762);
    (2766, 2767); (2769, 2783); (2788, 2789); (2802, 2808); (2816, 2816);
    (2820, 2820); (2829, 2830); (2833, 2834); (2857, 2857); (2865, 2865);
    (2868, 2868); (2874, 2875); (2885, 2886); (2889, 2890); (2894, 2900);
    (2904, 2907); (2910, 2910); (2916, 2917); (2936, 2945); (2948, 2948);
    (2955, 2957); (2961, 2961); (2966, 2968); (2971, 2971); (2973, 2973);
    (2976, 2978); (2981, 2983); (2987, 2989); (3002, 3005); (3011, 3013);
    (3017, 3017); (3022, 3023); (3025, 3030); (3032, 3045); (3067, 3071);
    (3085, 3085); (3089, 3089); (3113, 3113); (3130, 3131); (3141, 3141);
    (3145, 3145); (3150, 3156); (3159, 3159); (3163, 3164); (3166, 3167);
    (3172, 3173); (3184, 3190); (3213, 3213); (3217, 3217); (3241, 3241);
    (3252, 3252); (3258, 3259); (3269, 3269); (3273, 3273); (3278, 3284);
    (3287, 3292); (3295, 3295); (3300, 3301); (3312, 3312); (3315, 3327);
    (3341, 3341); (3345, 3345); (3397, 3397); (3401, 3401); (3408, 3411);
    (3428, 3429); (3456, 3456); (3460, 3460); (3479, 3481); (3506, 3506);
    (3516, 3516); (3518, 3519); (3527, 3529); (3531, 3534); (3541, 3541);
    (3543, 3543); (3552, 3557); (3568, 3569); (3573, 3584); (3643, 3646);
    (3676, 3712); (3715, 3715); (3717, 3717); (3723, 3723); (3748, 3748);
    (3750, 3750); (3774, 3775); (3781, 3781); (3783, 3783); (3790, 3791);
    (3802, 3803); (3808, 3839); (3912, 3912); (3949, 3952); (3992, 3992);
    (4029, 4029); (4045, 4045); (4059, 4095); (4294, 4294); (4296, 4300);
    (4302, 4303); (4681, 4681); (4686, 4687); (4695, 4695); (4697, 4697);
    (4702, 4703); (4745, 4745); (4750, 4751); (4785, 4785); (4790, 4791);
    (4799, 4799); (4801, 4801); (4806, 4807); (4823, 4823); (4881, 4881);
    (4886, 4887); (4955, 4956); (4989, 4991); (5018, 5023); (5110, 5111);
    (5118, 5119); (5760, 5760); (5789, 5791); (5881, 5887); (5910, 5918);
    (5943, 5951); (5972, 5983); (5997, 5997); (6001, 6001); (6004, 6015);
    (6110, 6111); (6122, 6127); (6138, 6143); (6158, 6158); (6170, 6175);
    (6265, 6271); (6315, 6319); (6390, 6399); (6431, 6431); (6444, 6447);
    (6460, 6463); (6465, 6467); (6510, 6511); (6517, 6527); (6572, 6575);
    (6602, 6607); (6619, 6621); (6684, 6685); (6751, 6751); (6781, 6782);
    (6794, 6799); (6810, 6815); (6830, 6831); (6863, 6911); (6989, 6991);
    (7039, 7039); (7156, 7163); (7224, 7226); (7242, 7244); (7305, 7311);
    (7355, 7356); (7368, 7375); (7419, 7423); (7958, 7959); (7966, 7967);
    (8006, 8007); (8014, 8015); (8024, 8024); (8026, 8026); (8028, 8028);
    (8030, 8030); (8062, 8063); (8117, 8117); (8133, 8133); (8148, 8149);
    (8156, 8156); (8176, 8177); (8181, 8181); (8191, 8207); (8232, 8239);
    (8287, 8303); (8306, 8307); (8335, 8335); (8349, 8351); (8385, 8399);
    (8433, 8447); (8588, 8591); (9255, 9279); (9291, 9311); (11124, 11125);
    (11158, 11158); (11508, 11512); (11558, 11558); (11560, 11564);
    (11566, 11567); (11624, 11630); (11633, 11646); (11671, 11679);
    (11687, 11687); (11695, 11695); (11703, 11703); (11711, 11711);
    (11719, 11719); (11727, 11727); (11735, 11735); (11743, 11743);
    (11870, 11903); (11930, 11930); (12020, 12031); (12246, 12271);
    (12284, 12288); (12352, 12352); (12439, 12440); (12544, 12548);
    (12592, 12592); (12687, 12687); (12772, 12783); (12831, 12831);
    (42125, 42127); (42183, 42191); (42540, 42559); (42744, 42751);
    (42955, 42959); (42962, 42962); (42964, 42964); (42970, 42993);
    (43053, 43055); (43066, 43071); (43128, 43135); (43206, 43213);
    (43226, 43231); (43348, 43358); (43389, 43391); (43470, 43470);
    (43482, 43485); (43519, 43519); (43575, 43583); (43598, 43599);
    (43610, 43611); (43715, 43738); (43767, 43776); (43783, 43784);
    (43791, 43792); (43799, 43807); (43815, 43815); (43823, 43823);
    (43884, 43887); (44014, 44015); (44026, 44031); (55204, 55215);
    (55239, 55242); (55292, 63743); (64110, 64111); (64218, 64255);
    (64263, 64274); (64280, 64284); (64311, 64311); (64317, 64317);
    (64319, 64319); (64322, 64322); (64325, 64325); (64451, 64466);
    (64912, 64913); (64968, 64974); (64976, 65007); (65050, 65055);
    (65107, 65107); (65127, 65127); (65132, 65135); (65141, 65141);
    (65277, 65280); (65471, 65473); (65480, 65481); (65488, 65489);
    (65496, 65497); (65501, 65503); (65511, 65511); (65519, 65531);
    (65534, 65535); (65548, 65548); (65575, 65575); (65595, 65595);
    (65598, 65598); (65614, 65615); (65630, 65663); (65787, 65791);
    (65795, 65798); (65844, 65846); (65935, 65935); (65949, 65951);
    (65953, 65999); (66046, 66175); (66205, 66207); (66257, 66271);
    (66300, 66303); (66340, 66348); (66379, 66383); (66427, 66431);
    (66462, 66462); (66500, 66503); (66518, 66559); (66718, 66719);
    (66730, 66735); (66772, 66775); (66812, 66815); (66856, 66863);
    (66916, 66926); (66939, 66939); (66955, 66955); (66963, 66963);
    (66966, 66966); (66978, 66978); (66994, 66994); (67002, 67002);
    (67005, 67071); (67383, 67391); (67414, 67423); (67432, 67455);
    (67462, 67462); (67505, 67505); (67515, 67583); (67590, 67591);
    (67593, 67593); (67638, 67638); (67641, 67643); (67645, 67646);
    (67670, 67670); (67743, 67750); (67760, 67807); (67827, 67827);
    (67830, 67834); (67868, 67870); (67898, 67902); (67904, 67967);
    (68024, 68027); (68048, 68049); (68100, 68100); (68103, 68107);
    (68116, 68116); (68120, 68120); (68150, 68151); (68155, 68158);
    (68169, 68175); (68185, 68191); (68256, 68287); (68327, 68330);
    (68343, 68351); (68406, 68408); (68438, 68439); (68467, 68471);
    (68498, 68504); (68509, 68520); (68528, 68607); (68681, 68735);
    (68787, 68799); (68851, 68857); (68904, 68911); (68922, 69215);
    (69247, 69247); (69290, 69290); (69294, 69295); (69298, 69375);
    (69416, 69423); (69466, 69487); (69514, 69551); (69580, 69599);
    (69623, 69631); (69710, 69713); (69750, 69758); (69821, 69821);
    (69827, 69839); (69865, 69871); (69882, 69887); (69941, 69941);
    (69960, 69967); (70007, 70015); (70112, 70112); (70133, 70143);
    (70162, 70162); (70207, 70271); (70279, 70279); (70281, 70281);
    (70286, 70286); (70302, 70302); (70314, 70319); (70379, 70383);
    (70394, 70399); (70404, 70404); (70413, 70414); (70417, 70418);
    (70441, 70441); (70449, 70449); (70452, 70452); (70458, 70458);
    (70469, 70470); (70473, 70474); (70478, 70479); (70481, 70486);
    (70488, 70492); (70500, 70501); (70509, 70511); (70517, 70655);
    (70748, 70748); (70754, 70783); (70856, 70863); (70874, 71039);
    (71094, 71095); (71134, 71167); (71237, 71247); (71258, 71263);
    (71277, 71295); (71354, 71359); (71370, 71423); (71451, 71452);
    (71468, 71471); (71495, 71679); (71740, 71839); (71923, 71934);
    (71943, 71944); (71946, 71947); (71956, 71956); (71959, 71959);
    (71990, 71990); (71993, 71994); (72007, 72015); (72026, 72095);
    (72104, 72105); (72152, 72153); (72165, 72191); (72264, 72271);
    (72355, 72367); (72441, 72703); (72713, 72713); (72759, 72759);
    (72774, 72783); (72813, 72815); (72848, 72849); (72872, 72872);
    (72887, 72959); (72967, 72967); (72970, 72970); (73015, 73017);
    (73019, 73019); (73022, 73022); (73032, 73039); (73050, 73055);
    (73062, 73062); (73065, 73065); (73103, 73103); (73106, 73106);
    (73113, 73119); (73130, 73439); (73465, 73647); (73649, 73663);
    (73714, 73726); (74650, 74751); (74863, 74863); (74869, 74879);
    (75076, 77711); (77811, 77823); (78895, 82943); (83527, 92159);
    (92729, 92735); (92767, 92767); (92778, 92781); (92863, 92863);
    (92874, 92879); (92910, 92911); (92918, 92927); (92998, 93007);
    (93018, 93018); (93026, 93026); (93048, 93052); (93072, 93759);
    (93851, 93951); (94027, 94030); (94088, 94094); (94112, 94175);
    (94181, 94191); (94194, 94207); (100344, 100351); (101590, 101631);
    (101641, 110575); (110580, 110580); (110588, 110588); (110591, 110591);
    (110883, 110927); (110931, 110947); (110952, 110959); (111356, 113663);
    (113771, 113775); (113789, 113791); (113801, 113807); (113818, 113819);
    (113824, 118527); (118574, 118575); (118599, 118607); (118724, 118783);
    (119030, 119039); (119079, 119080); (119155, 119162); (119275, 119295);
    (119366, 119519); (119540, 119551); (119639, 119647); (119673, 119807);
    (119893, 119893); (119965, 119965); (119968, 119969); (119971, 119972);
    (119975, 119976); (119981, 119981); (119994, 119994); (119996, 119996);
    (120004, 120004); (120070, 120070); (120075, 120076); (120085, 120085);
    (120093, 120093); (120122, 120122); (120127, 120127); (120133, 120133);
    (120135, 120137); (120145, 120145); (120486, 120487); (120780, 120781);
    (121484, 121498); (121504, 121504); (121520, 122623); (122655, 122879);
    (122887, 122887); (122905, 122906); (122914, 122914); (122917, 122917);
    (122923, 123135); (123181, 123183); (123198, 123199); (123210, 123213);
    (123216, 123535); (123567, 123583); (123642, 123646); (123648, 124895);
    (124903, 124903); (124908, 124908); (124911, 124911); (124927, 124927);
    (125125, 125126); (125143, 125183); (125260, 125263); (125274, 125277);
    (125280, 126064); (126133, 126208); (126270, 126463); (126468, 126468);
    (126496, 126496); (126499, 126499); (126501, 126502); (126504, 126504);
    (126515, 126515); (126520, 126520); (126522, 126522); (126524, 126529);
    (126531, 126534); (126536, 126536); (126538, 126538); (126540, 126540);
    (126544, 126544); (126547, 126547); (126549, 126550); (126552, 126552);
    (126554, 126554); (126556, 126556); (126558, 126558); (126560, 126560);
    (126563, 126563); (126565, 126566); (126571, 126571); (126579, 126579);
    (126584, 126584); (126589, 126589); (126591, 126591); (126602, 126602);
    (126620, 126624); (126628, 126628); (126634, 126634); (126652, 126703);
    (126706, 126975); (127020, 127023); (127124, 127135); (127151, 127152);
    (127168, 127168); (127184, 127184); (127222, 127231); (127406, 127461);
    (127491, 127503); (127548, 127551); (127561, 127567); (127570, 127583);
    (127590, 127743); (128728, 128732); (128749, 128751); (128765, 128767);
    (128884, 128895); (128985, 128991); (129004, 129007); (129009, 129023);
    (129036, 129039); (129096, 129103); (129114, 129119); (129160, 129167);
    (129198, 129199); (129202, 129279); (129620, 129631); (129646, 129647);
    (129653, 129655); (129661, 129663); (129671, 129679); (129709, 129711);
    (129723, 129727); (129734, 129743); (129754, 129759); (129768, 129775);
    (129783, 129791); (129939, 129939); (129995, 130031); (130042, 131071);
    (173792, 173823); (177977, 177983); (178206, 178207); (183970, 183983);
    (191457, 194559); (195102, 196607); (201547, 917759); (918000, 1114111) ].

Fixpoint in_ranges (ranges : list (Z * Z)) (cp : Z) : bool :=
  match ranges with
  | [] => false
  | (lo, hi) :: ranges' =>
      ((lo <=? cp) && (cp <=? hi)) || in_ranges ranges' cp
  end.

(** The last [width] hexadecimal digits of [n]. *)
Fixpoint hex (width : nat) (n : Z) : string :=
  match width with
  | O => EmptyString
  | S w => hex w (n / 16) ++ String (hex_digit (n mod 16)) EmptyString
  end.

(** The escape of a code point that is not printable. *)
Definition escape_code (cp : Z) : string :=
  if cp <? 256 then "\x" ++ hex 2 cp
  else if cp <? 65536 then "\u" ++ hex 4 cp
  else "\U" ++ hex 8 cp.

(** The body of [repr(s)] between quotes [q].  [skip] counts the bytes of
    an escaped character still to be passed over. *)
Fixpoint escape (q : ascii) (s : string) (skip : nat) : string :=
  match s with
  | EmptyString => EmptyString
  | String c s' =>
      match skip with
      | S k => escape q s' k
      | O =>
          let n := Str.code c in
          if n <? 128 then
            (if Ascii.eqb c q || Ascii.eqb c "\" then String "\" (String c "")
             else if n =? 9 then "\t"
             else if n =? 10 then "\n"
             else if n =? 13 then "\r"
             else if (n <? 32) || (n =? 127) then escape_code n
             else String c "") ++ escape q s' O
          else
            match Float.decode_head s with
            | Some (cp, k) =>
                if in_ranges nonprintable cp
                then escape_code cp ++ escape q s' k
                else String c (escape q s' O)
            | None => String c (escape q s' O)
            end
      end
  end.

(** [repr(s)] for a [str]: single quotes, unless the text has a single
    quote and no double quote. *)
Definition repr_str (s : string) : string :=
  let q := if Str.contains s "'" && negb (Str.contains s Str.dquote) then Str.dquote
           else "'"%char in
  String q (escape q s O ++ String q "").

Fixpoint repr (v : pyval) : string :=
  match v with
  | PNone => "None"
  | PBool b => if b then "True" else "False"
  | PInt z => Str.of_Z z
  | PFloat f => FloatRepr.repr f
  | PStr s => repr_str s
  | PList l => "[" ++ Str.join ", " (map repr l) ++ "]"
  | PDict d =>
      "{" ++ Str.join ", "
               (map (fun kv => let '(k, x) := kv in
                               repr_str k ++ ": " ++ repr x) d) ++ "}"
  end.

(** [str(v)], which is also how an f-string renders [v]. *)
Definition str (v : pyval) : string :=
  match v with
  | PStr s => s
  | _ => repr v
  end.

(** [v.get(k)] where [v] is known to be a [dict]. *)
Definition field (v : pyval) (k : string) : pyval :=
  match v with PDict d => get d k | _ => PNone end.

(** [float(v)] *)
Definition float (v : pyval) : result Float.pyfloat :=
  match v with
  | PNone => Raise TypeError
  | PBool b => Float.of_int (if b then 1 else 0)
  | PInt z => Float.of_int z
  | PFloat f => Ok f
  | PStr s => Float.of_string s
  | PList _ => Raise TypeError
  | PDict _ => Raise TypeError
  end.

End Py.

(* ===================================================================== *)
(** * [json.loads] *)
(* ===================================================================== *)

Module Json.

Definition is_ws (c : ascii) : bool :=
  let n := nat_of_ascii c in
  ((n =? 32) || (n =? 9) || (n =? 10) || (n =? 13))%nat.

Fixpoint skip_ws (s : string) : string :=
  match s with
  | String c s' => if is_ws c then skip_ws s' else s
  | EmptyString => s
  end.

(** ** Strings *)

Definition hex_val (c : ascii) : option Z :=
  let n := Str.code c in
  if (48 <=? n) && (n <=? 57) then Some (n - 48)
  else if (97 <=? n) && (n <=? 102) then Some (n - 87)
  else if (65 <=? n) && (n <=? 70) then Some (n - 55)
  else None.

Definition hex4 (a b c d : ascii) : option Z :=
  match hex_val a, hex_val b, hex_val c, hex_val d with
  | Some x, Some y, Some z, Some w => Some (((x * 16 + y) * 16 + z) * 16 + w)
  | _, _, _, _ => None
  end.

Definition byte (n : Z) : ascii := ascii_of_nat (Z.to_nat n).

(** UTF-8 encoding of a code point; a lone surrogate takes three bytes. *)
Definition utf8 (cp : Z) : string :=
  if cp <? 128 then String (byte cp) ""
  else if cp <? 2048 then
    String (byte (192 + cp / 64)) (String (byte (128 + cp mod 64)) "")
  else if cp <? 65536 then
    String (byte (224 + cp / 4096))
      (String (byte (128 + (cp / 64) mod 64))
         (String (byte (128 + cp mod 64)) ""))
  else
    String (byte (240 + cp / 262144))
      (String (byte (128 + (cp / 4096) mod 64))
         (String (byte (128 + (cp / 64) mod 64))
            (String (byte (128 + cp mod 64)) ""))).

Definition simple_escape (c : ascii) : option ascii :=
  if Ascii.eqb c Str.dquote then Some Str.dquote
  else match c with
       | "\"%char => Some "\"%char
       | "/"%char => Some "/"%char
       | "b"%char => Some (ascii_of_nat 8)
       | "f"%char => Some (ascii_of_nat 12)
       | "n"%char => Some (ascii_of_nat 10)
       | "r"%char => Some (ascii_of_nat 13)
       | "t"%char => Some (ascii_of_nat 9)
       | _ => None
       end.

Definition cons_chunk (chunk : string) (r : result (string * string))
  : result (string * string) :=
  match r with
  | Ok (body, rest) => Ok (chunk ++ body, rest)
  | Raise e => Raise e
  end.

(** The text after an opening quote: the decoded string and what follows
    the closing quote.  Control characters are refused, a [\u] escape takes
    four hex digits, and a high surrogate escape followed by a low one
    makes a single character. *)
Fixpoint scanstring (s : string) : result (string * string) :=
  match s with
  | EmptyString => Raise JSONDecodeError
  | String c s1 =>
      if Ascii.eqb c Str.dquote then Ok ("", s1)
      else if Str.code c <? 32 then Raise JSONDecodeError
      else if Ascii.eqb c "\" then
        match s1 with
        | String "u" (String h1 (String h2 (String h3 (String h4 s2)))) =>
            match hex4 h1 h2 h3 h4 with
            | None => Raise JSONDecodeError
            | Some hi =>
                if (55296 <=? hi) && (hi <=? 56319) then
                  match s2 with
                  | String "\" (String "u" s3) =>
                      match s3 with
                      | String l1 (String l2 (String l3 (String l4 s4))) =>
                          match hex4 l1 l2 l3 l4 with
                          | None => Raise JSONDecodeError
                          | Some lo =>
                              if (56320 <=? lo) && (lo <=? 57343)
                              then cons_chunk
                                     (utf8 (65536 + (hi - 55296) * 1024
                                            + (lo - 56320)))
                                     (scanstring s4)
                              else cons_chunk (utf8 hi) (scanstring s2)
                          end
                      | _ => Raise JSONDecodeError
                      end
                  | _ => cons_chunk (utf8 hi) (scanstring s2)
                  end
                else cons_chunk (utf8 hi) (scanstring s2)
            end
        | String e s2 =>
            match simple_escape e with
            | Some x => cons_chunk (String x "") (scanstring s2)
            | None => Raise JSONDecodeError
            end
        | EmptyString => Raise JSONDecodeError
        end
      else cons_chunk (String c "") (scanstring s1)
  end.

(** ** Numbers *)

(** [int(text)] refuses more than this many digits. *)
Definition int_max_str_digits : Z := 4300.

(** The fraction [. digits+] at the head of [s], if there is one: the
    mantissa continued, the number of fraction digits and what follows. *)
Definition take_fraction (s : string) (ip : Z) : option (Z * Z * string) :=
  match Str.eat "." s with
  | Some s1 =>
      let '(M, nf, rest) := Float.take_digits s1 ip 0 in
      if 0 <? nf then Some (M, nf, rest) else None
  | None => None
  end.

(** The exponent [e sign? digits+] at the head of [s], if there is one. *)
Definition take_exponent (s : string) : option (Z * string) :=
  match s with
  | String c s1 =>
      if Ascii.eqb c "e" || Ascii.eqb c "E" then
        let '(neg, s2) := Float.take_sign s1 in
        let '(x, cnt, rest) := Float.take_digits s2 0 0 in
        if 0 <? cnt then Some (if neg then - x else x, rest) else None
      else None
  | EmptyString => None
  end.

(** The integer part: [0], or a digit run that does not start with [0]. *)
Definition take_int_part (s : string) : option (Z * Z * string) :=
  match s with
  | String c s1 =>
      if Ascii.eqb c "0" then Some (0, 1, s1)
      else if Str.is_digit c then Some (Float.take_digits s 0 0)
      else None
  | EmptyString => None
  end.

(** The number at the head of [s]: an optional minus, the integer part,
    then an optional fraction and exponent.  [None] when no number starts
    here.  A number with a fraction or an exponent is a float, any other
    an int. *)
Definition match_number (s : string) : option (result pyval * string) :=
  let '(neg, s0) := match Str.eat "-" s with
                    | Some s' => (true, s')
                    | None => (false, s)
                    end in
  match take_int_part s0 with
  | None => None
  | Some (ip, ni, r1) =>
      match take_fraction r1 ip with
      | Some (M, nf, r2) =>
          match take_exponent r2 with
          | Some (x, r3) =>
              Some (Ok (PFloat (Float.of_decimal neg M (x - nf))), r3)
          | None => Some (Ok (PFloat (Float.of_decimal neg M (- nf))), r2)
          end
      | None =>
          match take_exponent r1 with
          | Some (x, r3) => Some (Ok (PFloat (Float.of_decimal neg ip x)), r3)
          | None =>
              if int_max_str_digits <? ni then Some (Raise ValueError, r1)
              else Some (Ok (PInt (if neg then - ip else ip)), r1)
          end
      end
  end.

(** ** Values *)

Definition strip_prefix (p s : string) : option string :=
  if prefix p s then Some (Str.drop (String.length p) s) else None.

Definition literal (s : string) : option (pyval * string) :=
  match strip_prefix "null" s with Some r => Some (PNone, r) | None =>
  match strip_prefix "true" s with Some r => Some (PBool true, r) | None =>
  match strip_prefix "false" s with Some r => Some (PBool false, r) | None =>
  None end end end.

Definition constant (s : string) : option (pyval * string) :=
  match strip_prefix "NaN" s with Some r => Some (PFloat Float.FNan, r) | None =>
  match strip_prefix "Infinity" s with
  | Some r => Some (PFloat (Float.FInf false), r) | None =>
  match strip_prefix "-Infinity" s with
  | Some r => Some (PFloat (Float.FInf true), r) | None =>
  None end end end.

(** [scan_once] and the array and object loops.  [fuel] bounds the nesting
    of calls; [RecursionError] is the outcome when it runs out. *)
Fixpoint scan_once (fuel : nat) (s : string) : result (pyval * string) :=
  match fuel with
  | O => Raise RecursionError
  | S fuel' =>
      match s with
      | EmptyString => Raise JSONDecodeError
      | String c s1 =>
          if Ascii.eqb c Str.dquote then
            r <- scanstring s1 ;; Ok (PStr (fst r), snd r)
          else if Ascii.eqb c "{" then
            match Str.eat "}" (skip_ws s1) with
            | Some s2 => Ok (PDict [], s2)
            | None =>
                r <- parse_members fuel' (skip_ws s1) [] ;;
                Ok (PDict (fst r), snd r)
            end
          else if Ascii.eqb c "[" then
            match Str.eat "]" (skip_ws s1) with
            | Some s2 => Ok (PList [], s2)
            | None =>
                r <- parse_elements fuel' (skip_ws s1) [] ;;
                Ok (PList (fst r), snd r)
            end
          else
            match literal s with
            | Some vr => Ok vr
            | None =>
                match constant s with
                | Some vr => Ok vr
                | None =>
                    match match_number s with
                    | Some (Ok v, rest) => Ok (v, rest)
                    | Some (Raise e, _) => Raise e
                    | None => Raise JSONDecodeError
                    end
                end
            end
      end
  end

(** The elements of an array, from the first one; [acc] holds those read,
    most recent first. *)
with parse_elements (fuel : nat) (s : string) (acc : list pyval)
  : result (list pyval * string) :=
  match fuel with
  | O => Raise RecursionError
  | S fuel' =>
      r <- scan_once fuel' s ;;
      let acc' := fst r :: acc in
      match Str.eat "]" (skip_ws (snd r)) with
      | Some s2 => Ok (List.rev acc', s2)
      | None =>
          match Str.eat "," (skip_ws (snd r)) with
          | Some s2 => parse_elements fuel' (skip_ws s2) acc'
          | None => Raise JSONDecodeError
          end
      end
  end

(** The members of an object, from the first key. *)
with parse_members (fuel : nat) (s : string) (acc : pydict)
  : result (pydict * string) :=
  match fuel with
  | O => Raise RecursionError
  | S fuel' =>
      match Str.eat Str.dquote s with
      | None => Raise JSONDecodeError
      | Some s1 =>
          k <- scanstring s1 ;;
          match Str.eat ":" (skip_ws (snd k)) with
          | None => Raise JSONDecodeError
          | Some s2 =>
              r <- scan_once fuel' (skip_ws s2) ;;
              let acc' := Py.set acc (fst k) (fst r) in
              match Str.eat "}" (skip_ws (snd r)) with
              | Some s3 => Ok (acc', s3)
              | None =>
                  match Str.eat "," (skip_ws (snd r)) with
                  | Some s3 => parse_members fuel' (skip_ws s3) acc'
                  | None => Raise JSONDecodeError
                  end
              end
          end
      end
  end.

(** [json.loads(s)]: a byte-order mark is refused, whitespace around the
    value is skipped, and nothing else may follow it. *)
Definition loads (s : string) : result pyval :=
  if prefix (Str.bytes [239; 187; 191]%nat) s then Raise JSONDecodeError
  else
    r <- scan_once (2 * String.length s + 2) (skip_ws s) ;;
    match skip_ws (snd r) with
    | EmptyString => Ok (fst r)
    | _ => Raise JSONDecodeError
    end.

(** The errors of [json.loads]: a decode error, or the [ValueError] of an
    integer with too many digits. *)
Definition loads_error (e : exn) : Prop :=
  e = JSONDecodeError \/ e = ValueError.

Definition consumes {A : Type} (r : result (A * string)) (s : string) : Prop :=
  forall a rest, r = Ok (a, rest) -> (String.length rest < String.length s)%nat.

Definition fails_properly {A : Type} (r : result A) : Prop :=
  forall e, r = Raise e -> loads_error e.

End Json.

(* ===================================================================== *)
(** * The program *)
(* ===================================================================== *)

Module App.

(** ** Response parsing ([extract_products_from_image], lines 113-126) *)

(** The [try ... except json.JSONDecodeError] block: strict parsing, then
    the retry on the text between the first opening and the last closing
    brace of the stripped content.  The retry is outside any handler. *)
Definition load_payload (content : string) : result pyval :=
  match Json.loads content with
  | Ok payload => Ok payload
  | Raise JSONDecodeError =>
      let content_stripped := Str.strip content in
      let start := Str.find content_stripped "{" in
      let end_ := Str.rfind content_stripped "}" in
      if negb (start =? -1) && negb (end_ =? -1)
      then Json.loads (Str.slice content_stripped start (end_ + 1))
      else Ok (PDict [("products", PList [])])
  | Raise e => Raise e
  end.

(** [payload.get("products", []) or []]; only a [dict] has [get]. *)
Definition get_products (payload : pyval) : result pyval :=
  match payload with
  | PDict d => Ok (Py.or (Py.get_default d "products" (PList [])) (PList []))
  | _ => Raise AttributeError
  end.

(** What [for p in products] iterates over: the items of a list, the keys
    of a dict, the characters of a str; other values are not iterable. *)
Definition iterate (v : pyval) : result (list pyval) :=
  match v with
  | PList l => Ok l
  | PDict d => Ok (map (fun kv => PStr (fst kv)) d)
  | PStr s => Ok (map PStr (Str.chars s))
  | _ => Raise TypeError
  end.

(** ** Field normalisation (lines 130-161) *)

(** The two [replace] chains of lines 139 and 140. *)
Definition locale_cleanup (s : string) : string :=
  let preco_str := Str.replace (Str.replace s "R$" "") " " "" in
  Str.replace (Str.replace preco_str "." "") "," ".".

(** Line 136, the body of the [try]. *)
Definition direct_price (preco_brl_val : pyval) : result pyval :=
  match preco_brl_val with
  | PNone => Ok PNone
  | _ => f <- Py.float preco_brl_val ;; Ok (PFloat f)
  end.

(** Lines 139-144, the handler: the cleanup of the price field or of the
    textual price, and [None] when that is no number either. *)
Definition fallback_price (preco_brl_val preco_brl_texto : pyval) : pyval :=
  let preco_str :=
    locale_cleanup
      (Py.str (Py.or (Py.or preco_brl_val preco_brl_texto) (PStr ""))) in
  match Float.of_string preco_str with
  | Ok f => PFloat f
  | Raise _ => PNone
  end.

(** Lines 135-144; [except Exception] catches whatever [float] raises. *)
Definition normalize_price (preco_brl_val preco_brl_texto : pyval) : pyval :=
  match direct_price preco_brl_val with
  | Ok preco_brl => preco_brl
  | Raise _ => fallback_price preco_brl_val preco_brl_texto
  end.

(** Lines 146-150. *)
Definition normalize_condicoes (raw : pyval) : pyval :=
  let condicoes := Py.or raw (PList []) in
  let condicoes :=
    if Py.is_dict condicoes then PList [condicoes] else condicoes in
  if negb (Py.is_list condicoes) then PList [] else condicoes.

(** The body of the loop for one product [p] that is a [dict]. *)
Definition normalize_product (p : pydict) : pyval :=
  let marca_nome :=
    Py.or (Py.or (Py.or (Py.get p "marca_nome") (Py.get p "marca+nome"))
                 (Py.get p "nome")) (PStr "") in
  let marca := Py.or (Py.get p "marca") (PStr "") in
  let produto := Py.or (Py.get p "produto") (PStr "") in
  let preco_brl_val := Py.get p "preco_brl" in
  let preco_brl_texto :=
    Py.or (Py.or (Py.get p "preco_brl_texto") (Py.get p "preco_texto"))
          (PStr "") in
  let preco_brl := normalize_price preco_brl_val preco_brl_texto in
  let condicoes := normalize_condicoes (Py.get p "condicoes") in
  PDict [ ("marca_nome", marca_nome);
          ("marca", marca);
          ("produto", produto);
          ("preco_brl", preco_brl);
          ("preco_brl_texto", preco_brl_texto);
          ("condicoes", condicoes) ].

(** The loop of lines 128-161: an element without [get] raises. *)
Fixpoint normalize_all (products : list pyval) : result (list pyval) :=
  match products with
  | [] => Ok []
  | PDict p :: rest =>
      normalized <- normalize_all rest ;;
      Ok (normalize_product p :: normalized)
  | _ :: _ => Raise AttributeError
  end.

(** Lines 126-163, from the payload on. *)
Definition products_of_payload (payload : pyval) : result (list pyval) :=
  products <- get_products payload ;;
  items <- iterate products ;;
  normalize_all items.

(** Lines 114-163, from the text of the response on. *)
Definition products_of_content (content : string) : result (list pyval) :=
  payload <- load_payload content ;;
  products_of_payload payload.

(** ** The model call *)

(** What the client is asked: the messages are the fixed instructions and
    the data URL of the image, which the image bytes and the file name
    determine. *)
Record request : Type := Request {
  req_model : string;
  req_image : string;
  req_filename : string
}.

(** A completion: the [message.content] of each of its choices. *)
Record response : Type := Response {
  choices : list (option string)
}.

Section Pipeline.

(** The outside world and [client.chat.completions.create]. *)
Variable World : Type.
Variable create : request -> World -> World * result response.

Definition extract_products_from_image
    (model image_bytes filename : string) (w : World)
  : World * result (list pyval) :=
  let '(w', r) := create (Request model image_bytes filename) w in
  (w',
   resp <- r ;;
   content <- match choices resp with
              | c :: _ => Ok c
              | [] => Raise IndexError
              end ;;
   match content with
   | Some text => products_of_content text
   | None => Raise TypeError
   end).

(** ** The batch loop of [main] (lines 315-324) *)

(** The list [collected], and what [st.error] was called with: the file
    name and the exception of each image that failed. *)
Record batch : Type := Batch {
  collected : list (string * pyval);
  reported : list (string * exn)
}.

Fixpoint process_images (model : string) (images : list (string * string))
    (w : World) (acc : batch) : World * batch :=
  match images with
  | [] => (w, acc)
  | (filename, img_bytes) :: rest =>
      let '(w', r) := extract_products_from_image model img_bytes filename w in
      match r with
      | Ok products =>
          process_images model rest w'
            (Batch (collected acc ++ map (pair filename) products)
                   (reported acc))
      | Raise ex =>
          process_images model rest w'
            (Batch (collected acc) (reported acc ++ [(filename, ex)]))
      end
  end.

Definition run_batch (model : string) (images : list (string * string))
    (w : World) : World * batch :=
  process_images model images w (Batch [] []).

End Pipeline.

(** ** Result aggregation ([build_dataframe]) *)

(** The f-string of line 173 for one condition that is a [dict]. *)
Definition render_condition (c : pydict) : string :=
  Py.str (Py.or (Py.get c "tipo") (PStr "outro")) ++ ": "
    ++ Py.str (Py.or (Py.get c "valor") (PStr "")).

(** The list comprehension of lines 172-176. *)
Fixpoint render_conditions (condicoes : list pyval) : list string :=
  match condicoes with
  | [] => []
  | PDict c :: rest => render_condition c :: render_conditions rest
  | _ :: rest => render_conditions rest
  end.

(** Lines 169-179. *)
Definition condicoes_str (product : pydict) : string :=
  let condicoes := Py.or (Py.get product "condicoes") (PList []) in
  match condicoes with
  | PList l => Str.join "; " (render_conditions l)
  | _ => Py.str condicoes
  end.

Definition build_record (row : string * pydict) : pydict :=
  let '(filename, product) := row in
  [ ("arquivo", PStr filename);
    ("marca_nome", Py.get product "marca_nome");
    ("marca", Py.get product "marca");
    ("produto", Py.get product "produto");
    ("preco_brl", Py.get product "preco_brl");
    ("preco_brl_texto", Py.get product "preco_brl_texto");
    ("condicoes", PStr (condicoes_str product)) ].

Definition desired : list string :=
  [ "arquivo"; "marca_nome"; "marca"; "produto"; "preco_brl";
    "preco_brl_texto"; "condicoes" ].

(** A table: its column names in order, and the records it is made of,
    as they stand when they are handed to pandas.  How pandas stores a
    cell (None in a column of floats becomes NaN) and the errors it can
    raise are no part of this table; [Client.build_dataframe] takes
    pandas as it comes. *)
Record dataframe : Type := DataFrame {
  columns : list string;
  records : list pydict
}.

(** [pd.DataFrame.from_records]: the columns are the keys of the records. *)
Definition from_records (recs : list pydict) : dataframe :=
  DataFrame (match recs with [] => [] | r :: _ => map fst r end) recs.

Definition build_dataframe (rows : list (string * pydict)) : dataframe :=
  let df := from_records (map build_record rows) in
  let keep := filter (fun c => existsb (String.eqb c) (columns df)) desired in
  DataFrame keep
    (map (fun r => filter (fun kv => existsb (String.eqb (fst kv)) keep) r)
         (records df)).

End App.

(* ===================================================================== *)
(** * The recovery text, in the words of the specification *)
(* ===================================================================== *)

Module Recovery.

(** [s] from the first [c] on; empty when [s] has no [c]. *)
Fixpoint after_first (c : ascii) (s : string) : string :=
  match s with
  | EmptyString => EmptyString
  | String x s' => if Ascii.eqb x c then s else after_first c s'
  end.

(** [s] up to the last [c], included; empty when [s] has no [c]. *)
Fixpoint upto_last (c : ascii) (s : string) : string :=
  match s with
  | EmptyString => EmptyString
  | String x s' =>
      if Str.contains s' c then String x (upto_last c s')
      else if Ascii.eqb x c then String x EmptyString
      else EmptyString
  end.

(** The substring between the first opening and the last closing brace of
    the text, both included, when the text has both; it is empty when the
    last closing brace comes before the first opening one. *)
Definition recovery_text (content : string) : option string :=
  if Str.contains content "{" && Str.contains content "}"
  then Some (upto_last "}" (after_first "{" content))
  else None.

End Recovery.

(* ===================================================================== *)
(** * What the statements speak about *)
(* ===================================================================== *)

(** The fields of the record produced for a raw product. *)
Module Fields.

(** The raw price text of a product and its normalised price. *)
Definition price_text_of (p : pydict) : pyval :=
  Py.or (Py.or (Py.get p "preco_brl_texto") (Py.get p "preco_texto")) (PStr "").

Definition price_of (p : pydict) : pyval :=
  Py.field (App.normalize_product p) "preco_brl".

(** The conditions of the record produced for [p]. *)
Definition conditions_of (p : pydict) : pyval :=
  Py.field (App.normalize_product p) "condicoes".

(** The elements of a list that are mappings. *)
Fixpoint mappings (l : list pyval) : list pydict :=
  match l with
  | [] => []
  | PDict d :: rest => d :: mappings rest
  | _ :: rest => mappings rest
  end.

Definition all_mappings (l : list pyval) : bool := forallb Py.is_dict l.

End Fields.

(** The images of a batch, one by one. *)
Module Batch.
Import App.

Section Outcomes.

Variable World : Type.
Variable create : request -> World -> World * result response.
Variable model : string.

(** What each image of a batch comes to, in order. *)
Fixpoint outcomes (images : list (string * string)) (w : World)
  : list (string * result (list pyval)) :=
  match images with
  | [] => []
  | (filename, img_bytes) :: rest =>
      let '(w', r) :=
        extract_products_from_image World create model img_bytes filename w in
      (filename, r) :: outcomes rest w'
  end.

Definition contribution (o : string * result (list pyval))
  : list (string * pyval) :=
  match snd o with
  | Ok products => map (pair (fst o)) products
  | Raise _ => []
  end.

Definition failure (o : string * result (list pyval)) : list (string * exn) :=
  match snd o with
  | Ok _ => []
  | Raise ex => [(fst o, ex)]
  end.

End Outcomes.

(** A client that answers its first and third call and fails the second;
    the world counts the calls made. *)
Definition sample_create (req : request) (calls : nat)
  : nat * result response :=
  (S calls,
   match calls with
   | 1%nat => Raise (APIError "timeout")
   | 0%nat =>
       Ok (Response
             [Some (Str.dq "{'products': [{'nome': 'Arroz'}, {'nome': 'Feijao'}]}")])
   | _ => Ok (Response [Some (Str.dq "{'products': [{'nome': 'Cafe'}]}")])
   end).

End Batch.

(* ===================================================================== *)
(** * Images, sample files, the client and the run of [main] *)
(* ===================================================================== *)

(** Every character of [s] satisfies [ok]. *)
Fixpoint all_in (ok : ascii -> bool) (s : string) : bool :=
  match s with
  | EmptyString => true
  | String c s' => ok c && all_in ok s'
  end.

(** ** [base64.b64encode] *)

Module Base64.

Definition alphabet : string :=
  "ABCDEFGHIJKLMNOPQRSTUVWXYZabcdefghijklmnopqrstuvwxyz0123456789+/".

(** The character of a six-bit value. *)
Definition digit (n : nat) : ascii :=
  match String.get n alphabet with
  | Some c => c
  | None => "="%char
  end.

(** Three bytes give four characters; a last group of one or two bytes is
    filled up with zero bits and padded with [=]. *)
Fixpoint b64encode (s : string) : string :=
  match s with
  | EmptyString => EmptyString
  | String a EmptyString =>
      let x := nat_of_ascii a in
      String (digit (x / 4)) (String (digit (x mod 4 * 16)) "==")
  | String a (String b EmptyString) =>
      let x := nat_of_ascii a in
      let y := nat_of_ascii b in
      String (digit (x / 4))
        (String (digit (x mod 4 * 16 + y / 16))
           (String (digit (y mod 16 * 4)) "="))
  | String a (String b (String c rest)) =>
      let x := nat_of_ascii a in
      let y := nat_of_ascii b in
      let z := nat_of_ascii c in
      String (digit (x / 4))
        (String (digit (x mod 4 * 16 + y / 16))
           (String (digit (y mod 16 * 4 + z / 64))
              (String (digit (z mod 64)) (b64encode rest))))
  end%nat.

(** The characters of a base64 text. *)
Definition is_symbol (c : ascii) : bool :=
  Str.contains alphabet c || Ascii.eqb c "=".

(** The reading of a base64 text, as RFC 4648 defines it: the inverse
    table, four characters at a time, padding only in the last group. *)
Fixpoint index_from (c : ascii) (s : string) (i : nat) : option nat :=
  match s with
  | EmptyString => None
  | String x s' => if Ascii.eqb x c then Some i else index_from c s' (S i)
  end.

Definition value (c : ascii) : option nat := index_from c alphabet O.

Fixpoint b64decode (s : string) : option string :=
  match s with
  | EmptyString => Some EmptyString
  | String c0 (String c1 (String c2 (String c3 rest))) =>
      match value c0, value c1 with
      | Some v0, Some v1 =>
          let b0 := ascii_of_nat (v0 * 4 + v1 / 16) in
          match value c2 with
          | Some v2 =>
              let b1 := ascii_of_nat (v1 mod 16 * 16 + v2 / 4) in
              match value c3 with
              | Some v3 =>
                  let b2 := ascii_of_nat (v2 mod 4 * 64 + v3) in
                  option_map (fun t => String b0 (String b1 (String b2 t)))
                             (b64decode rest)
              | None =>
                  if Ascii.eqb c3 "=" && String.eqb rest ""
                  then Some (String b0 (String b1 "")) else None
              end
          | None =>
              if Ascii.eqb c2 "=" && Ascii.eqb c3 "=" && String.eqb rest ""
              then Some (String b0 "") else None
          end
      | _, _ => None
      end
  | _ => None
  end%nat.

End Base64.

(** ** [encode_image_to_data_url] (lines 63-68) *)

Module Images.

(** [not mime] for what [mimetypes.guess_type] gives: [None] or a string. *)
Definition falsy (mime : option string) : bool :=
  match mime with
  | Some m => String.eqb m ""
  | None => true
  end.

Section Mimetypes.

(** The first component of [mimetypes.guess_type(filename)]; it depends on
    the registry of types of the host. *)
Variable guess_type : string -> option string.

Definition encode_image_to_data_url (image_bytes filename : string)
  : string * string :=
  let mime := guess_type filename in
  let mime := if falsy mime then "image/jpeg"
              else match mime with Some m => m | None => "" end in
  let b64 := Base64.b64encode image_bytes in
  ("data:" ++ mime ++ ";base64," ++ b64, mime).

End Mimetypes.

(** The reading of a data URL of a known type: the bytes that its base64
    payload stands for. *)
Fixpoint after_prefix (p s : string) : option string :=
  match p, s with
  | EmptyString, _ => Some s
  | String a p', String b s' =>
      if Ascii.eqb a b then after_prefix p' s' else None
  | String _ _, EmptyString => None
  end.

Definition decode_data_url (mime url : string) : option string :=
  match after_prefix ("data:" ++ mime ++ ";base64,") url with
  | Some payload => Base64.b64decode payload
  | None => None
  end.

End Images.

(** ** [list_sample_images] (lines 217-226) *)

Module Samples.

(** [s.endswith(suffix)] *)
Definition endswith (s suffix : string) : bool :=
  prefix (Str.rev suffix) (Str.rev s).

(** Lines 222-223.  [str.lower] lowers characters outside ASCII too, but
    none of them to a character of the three suffixes (the only ones with
    an ASCII letter in their lower case are U+0130 and U+212A, for [i] and
    [k]), so that lowering the ASCII letters decides the test. *)
Definition is_image_name (name : string) : bool :=
  let lower := Str.lower name in
  endswith lower ".jpg" || endswith lower ".jpeg" || endswith lower ".png".

(** [os.path.join(path, b)] on POSIX. *)
Definition path_join (path b : string) : string :=
  if prefix "/" b then b
  else if String.eqb path "" || endswith path "/" then path ++ b
  else path ++ "/" ++ b.

(** [os.path.basename(p)] on POSIX: [p[p.rfind("/") + 1:]]. *)
Definition basename (p : string) : string :=
  let i := Str.rfind p "/" + 1 in
  Str.slice p i (Str.len p).

(** [paths.sort()]: ascending in the order of [str], which compares code
    points and so the bytes of the UTF-8 encoding.  Strings that compare
    equal are the same string, so every sorting algorithm gives the same
    list; this one inserts. *)
Fixpoint insert (x : string) (l : list string) : list string :=
  match l with
  | [] => [x]
  | y :: l' => if String.leb x y then x :: l else y :: insert x l'
  end.

Fixpoint sort (l : list string) : list string :=
  match l with
  | [] => []
  | x :: l' => insert x (sort l')
  end.

(** What the file system holds at a path: no directory, a directory that
    cannot be read ([os.listdir] raises [OSError]), or a directory and the
    names [os.listdir] gives, in its arbitrary order. *)
Inductive directory : Type :=
| NotADirectory
| Unreadable
| Entries (names : list string).

(** The loop of lines 221-224. *)
Fixpoint image_paths (sample_dir : string) (names : list string)
  : list string :=
  match names with
  | [] => []
  | name :: rest =>
      if is_image_name name
      then path_join sample_dir name :: image_paths sample_dir rest
      else image_paths sample_dir rest
  end.

(** [None] stands for the [OSError] of [os.listdir], which the function
    does not catch. *)
Definition list_sample_images (fs : string -> directory) (sample_dir : string)
  : option (list string) :=
  match fs sample_dir with
  | NotADirectory => Some []
  | Unreadable => None
  | Entries names => Some (sort (image_paths sample_dir names))
  end.

(** The loop of lines 290-299 of [main].  [load] stands for [Image.open]
    followed by [pil_image_to_bytes], and gives [None] when one of them
    raises: the sample is then passed over.  What is appended stays when
    the preview that follows it raises. *)
Fixpoint load_samples (load : string -> option string)
    (sample_paths : list string) : list (string * string) :=
  match sample_paths with
  | [] => []
  | path :: rest =>
      match load path with
      | Some img_bytes => (basename path, img_bytes) :: load_samples load rest
      | None => load_samples load rest
      end
  end.

(** Lines 270-299 of [main]: the uploaded files with their names, then the
    samples when the button asked for them. *)
Definition images_to_process (uploaded_files : list (string * string))
    (use_samples : bool) (load : string -> option string)
    (sample_paths : list string) : list (string * string) :=
  uploaded_files
    ++ (if use_samples then load_samples load sample_paths else []).

(** The path can be loaded. *)
Definition loads (load : string -> option string) (path : string) : bool :=
  match load path with
  | Some _ => true
  | None => false
  end.

(** The suffixes that make a file a sample image. *)
Definition suffixes : list string := [".jpg"; ".jpeg"; ".png"].

(** The order of [paths.sort()]. *)
Definition le (a b : string) : Prop := String.leb a b = true.

End Samples.

(** ** [get_openai_client] (lines 208-214) and the run of [main]
       (lines 304-330) *)

Module Client.
Import App.

(** The two [RuntimeError]s of [get_openai_client]. *)
Inductive config_error : Type :=
| PackageMissing
| KeyMissing.

(** [bool(key)] for an optional string. *)
Definition usable (key : option string) : bool :=
  match key with
  | Some k => negb (String.eqb k "")
  | None => false
  end.

(** [installed] tells whether [OpenAI] could be imported, [getenv] is
    [os.getenv("OPENAI_API_KEY")].  A client is given by the key it is
    made with. *)
Definition get_openai_client (installed : bool) (getenv api_key : option string)
  : config_error + string :=
  if negb installed then inl PackageMissing
  else
    let key := if usable api_key then api_key else getenv in
    match key with
    | Some k => if usable key then inr k else inl KeyMissing
    | None => inl KeyMissing
    end.

(** The rows that the loop of [build_dataframe] goes through: a product
    that is no [dict] has no [get]. *)
Fixpoint rows_of (collected : list (string * pyval))
  : result (list (string * pydict)) :=
  match collected with
  | [] => Ok []
  | (filename, PDict product) :: rest =>
      rows <- rows_of rest ;; Ok ((filename, product) :: rows)
  | _ :: _ => Raise AttributeError
  end.

(** The loop of [build_dataframe] (lines 167-191): the records that are
    handed to pandas. *)
Definition build_records (rows : list (string * pyval))
  : result (list pydict) :=
  table_rows <- rows_of rows ;; Ok (map build_record table_rows).

(** How a run ends: with the warning of line 306, the error of line 311,
    the note of line 327, the table and the download button of lines
    330-340, or an exception that escapes the aggregation or the display.
    [errors] is what the loop reported on its way. *)
Inductive outcome (Frame : Type) : Type :=
| Warned
| Refused (e : config_error)
| Nothing (errors : list (string * exn))
| Shown (df : Frame) (errors : list (string * exn))
| Crashed (e : exn) (errors : list (string * exn)).

Arguments Warned {Frame}.
Arguments Refused {Frame} e.
Arguments Nothing {Frame} errors.
Arguments Shown {Frame} df errors.
Arguments Crashed {Frame} e errors.

(** A value that the normaliser made, and a row of a batch: the file name
    of one of its images with such a value. *)
Definition normalized (v : pyval) : Prop := exists p, v = normalize_product p.

Definition row_of (images : list (string * string)) (row : string * pyval)
  : Prop :=
  In (fst row) (map fst images) /\ normalized (snd row).

Section Run.

Variable World : Type.
(** [chat.completions.create] of the client made with a key. *)
Variable connect : string -> request -> World -> World * result response.

(** pandas and Streamlit are taken as they come.  [Frame] is the type of
    the tables of pandas; [make_table] is what lines 193-204 do with the
    records, [pd.DataFrame.from_records] and the selection of the columns;
    [present] is what lines 331-340 do with the table, [st.dataframe],
    [to_csv] and the download button.  Each of the two can raise. *)
Variable Frame : Type.
Variable make_table : list pydict -> result Frame.
Variable present : Frame -> result unit.

(** [build_dataframe] with the table of pandas. *)
Definition build_dataframe (rows : list (string * pyval)) : result Frame :=
  records <- build_records rows ;; make_table records.

Definition run (installed : bool) (getenv api_key : option string)
    (model : string) (images_to_process : list (string * string)) (w : World)
  : World * outcome Frame :=
  match images_to_process with
  | [] => (w, Warned)
  | _ :: _ =>
      match get_openai_client installed getenv api_key with
      | inl e => (w, Refused e)
      | inr key =>
          let '(w', b) :=
            run_batch World (connect key) model images_to_process w in
          match collected b with
          | [] => (w', Nothing (reported b))
          | _ :: _ =>
              match build_dataframe (collected b) with
              | Raise e => (w', Crashed e (reported b))
              | Ok df =>
                  match present df with
                  | Ok _ => (w', Shown df (reported b))
                  | Raise e => (w', Crashed e (reported b))
                  end
              end
          end
      end
  end.

End Run.

End Client.

(** ** Price texts *)

Module Prices.

(** The tab character. *)
Definition tab : ascii := Eval cbv in ascii_of_nat 9.

Definition digit_or_dot (c : ascii) : bool :=
  Str.is_digit c || Ascii.eqb c ".".

(** [s] without the character [c]. *)
Fixpoint without (c : ascii) (s : string) : string :=
  match s with
  | EmptyString => EmptyString
  | String x s' => if Ascii.eqb c x then without c s' else String x (without c s')
  end.

(** The number that a text of digits writes, continuing [acc]. *)
Fixpoint number (s : string) (acc : Z) : Z :=
  match s with
  | EmptyString => acc
  | String c s' => number s' (10 * acc + Str.digit_val c)
  end.

End Prices.

(** Values and errors as text. *)
Module Text.

Definition show (r : result pyval) : string :=
  match r with
  | Ok v => Py.repr v
  | Raise JSONDecodeError => "JSONDecodeError"
  | Raise ValueError => "ValueError"
  | Raise _ => "error"
  end.

Definition loads_repr (text : string) : string := show (Json.loads (Str.dq text)).

Definition float_repr (text : string) : string :=
  show (f <- Float.of_string text ;; Ok (PFloat f)).

End Text.

(* ===================================================================== *)
(** * The runtime model on known inputs *)
(* ===================================================================== *)

Module RuntimeChecks.
Import Text.

Example loads_values :
  map loads_repr
    [ "{'a': [1, 2.5, true, null, 'x'], 'a': 3, 'b': {}}";
      " [ ] "; "-0"; "-0.0"; "1.5E+2"; "1e999"; "NaN"; "-Infinity";
      "'\u00e9\n'" ]
  = [ "{'a': 3, 'b': {}}"; "[]"; "0"; "-0.0"; "150.0"; "inf"; "nan"; "-inf";
      "'" ++ Str.bytes [195; 169]%nat ++ "\n'" ].
Proof. vm_compute. reflexivity. Qed.

Example loads_failures :
  map loads_repr
    [ ""; "{a}"; "{'a': 1,}"; "[1,]"; "[1 2]"; "01"; "1."; ".5"; "+1"; "tru";
      "'abc"; "{} x"; "{'a' 1}"; "'\x'" ]
  = repeat "JSONDecodeError" 14.
Proof. vm_compute. reflexivity. Qed.

Example float_values :
  map float_repr
    [ "29.90"; " 1_000.5e-3 "; ".5"; "5."; "-InF"; "nan"; "1e16"; "1e-5";
      "1e999"; "123456789012345678"; "0.1"; "-0" ]
  = [ "29.9"; "1.0005"; "0.5"; "5.0"; "-inf"; "nan"; "1e+16"; "1e-05";
      "inf"; "1.2345678901234568e+17"; "0.1"; "-0.0" ].
Proof. vm_compute. reflexivity. Qed.

Example float_failures :
  map float_repr [ ""; "."; "1e"; "1__0"; "_1"; "1_"; "0x10"; "R$ 29,90"; "1 2" ]
  = repeat "ValueError" 9.
Proof. vm_compute. reflexivity. Qed.

Example replace_and_strip :
  Str.chars (String "a" (Str.bytes [195; 169; 226; 130; 172]%nat) ++ "b")
  = ["a"; Str.bytes [195; 169]%nat; Str.bytes [226; 130; 172]%nat; "b"]
  /\ Str.replace "aaa" "aa" "b" = "ba"
  /\ Str.replace "RR$$" "R$" "" = "R$"
  /\ Str.strip (String (ascii_of_nat 9) "  a b " ++ Str.bytes [194; 160; 10]%nat)
     = "a b"
  /\ Str.find "ab{cd}e}" "{" = 2 /\ Str.rfind "ab{cd}e}" "}" = 7
  /\ Str.find "abc" "{" = -1
  /\ Str.slice "ab{cd}e}" 2 8 = "{cd}e}" /\ Str.slice "} {" 2 1 = "".
Proof. repeat split; vm_compute; reflexivity. Qed.

End RuntimeChecks.

(* ===================================================================== *)
(** * Facts about the string operations *)
(* ===================================================================== *)

Module StrFacts.
Import Str.

Lemma append_nil_r (s : string) : s ++ "" = s.
Proof. induction s as [|c s IH]; simpl; [reflexivity | now rewrite IH]. Qed.

Lemma append_assoc (a b c : string) : (a ++ b) ++ c = a ++ (b ++ c).
Proof. induction a as [|x a IH]; simpl; [reflexivity | now rewrite IH]. Qed.

Lemma length_append (a b : string) :
  String.length (a ++ b) = (String.length a + String.length b)%nat.
Proof. induction a as [|x a IH]; simpl; [reflexivity | now rewrite IH]. Qed.

Lemma contains_append (a b : string) (c : ascii) :
  contains (a ++ b) c = contains a c || contains b c.
Proof.
  induction a as [|x a IH]; simpl; [reflexivity|].
  now rewrite IH, orb_assoc.
Qed.

Lemma rev_app_spec (s acc : string) : rev_app s acc = rev s ++ acc.
Proof.
  unfold rev. revert acc.
  induction s as [|c s IH]; intros acc; simpl; [reflexivity|].
  rewrite (IH (String c "")), IH, append_assoc. reflexivity.
Qed.

Lemma rev_cons (c : ascii) (s : string) : rev (String c s) = rev s ++ String c "".
Proof. unfold rev at 1. simpl. apply rev_app_spec. Qed.

Lemma rev_append (a b : string) : rev (a ++ b) = rev b ++ rev a.
Proof.
  induction a as [|x a IH]; simpl.
  - now rewrite append_nil_r.
  - now rewrite !rev_cons, IH, append_assoc.
Qed.

Lemma rev_involutive (s : string) : rev (rev s) = s.
Proof.
  induction s as [|c s IH]; [reflexivity|].
  now rewrite rev_cons, rev_append, IH.
Qed.

Lemma contains_rev (s : string) (c : ascii) : contains (rev s) c = contains s c.
Proof.
  induction s as [|x s IH]; [reflexivity|].
  rewrite rev_cons, contains_append, IH. simpl.
  rewrite orb_false_r. apply orb_comm.
Qed.

Lemma length_rev (s : string) : String.length (rev s) = String.length s.
Proof.
  induction s as [|x s IH]; [reflexivity|].
  rewrite rev_cons, length_append, IH. simpl. lia.
Qed.

(** ** [find] and [rfind] of a single character *)

Lemma prefix_char (c : ascii) (s : string) :
  prefix (String c "") s = match s with
                           | String x _ => Ascii.eqb c x
                           | EmptyString => false
                           end.
Proof.
  destruct s as [|x s]; simpl; [reflexivity|].
  destruct (ascii_dec c x) as [->|H].
  - rewrite Ascii.eqb_refl. now destruct s.
  - apply Ascii.eqb_neq in H. now rewrite H.
Qed.

Lemma find_from_absent (c : ascii) (s : string) (i : Z) :
  contains s c = false -> find_from (String c "") s i = -1.
Proof.
  revert i. induction s as [|x s IH]; intros i H; [reflexivity|].
  simpl in H. apply orb_false_elim in H as [Hx Hs].
  cbn [find_from]. rewrite prefix_char, Hx. now apply IH.
Qed.

Lemma find_from_first (c : ascii) (pre rest : string) (i : Z) :
  contains pre c = false ->
  find_from (String c "") (pre ++ String c rest) i = i + len pre.
Proof.
  revert i. induction pre as [|x pre IH]; intros i H.
  - cbn [append find_from]. rewrite prefix_char, Ascii.eqb_refl.
    unfold len. simpl. lia.
  - simpl in H. apply orb_false_elim in H as [Hx Hs].
    cbn [append find_from]. rewrite prefix_char, Hx, IH by assumption.
    unfold len. cbn [String.length]. lia.
Qed.

Lemma rfind_from_absent (c : ascii) (s : string) (i : Z) :
  contains s c = false -> rfind_from (String c "") s i = -1.
Proof.
  revert i. induction s as [|x s IH]; intros i H; [reflexivity|].
  simpl in H. apply orb_false_elim in H as [Hx Hs].
  cbn [rfind_from]. rewrite IH by assumption.
  now rewrite prefix_char, Hx.
Qed.

Lemma rfind_from_last (c : ascii) (a post : string) (i : Z) :
  0 <= i -> contains post c = false ->
  rfind_from (String c "") (a ++ String c post) i = i + len a.
Proof.
  revert i. induction a as [|x a IH]; intros i Hi H.
  - cbn [append rfind_from]. rewrite rfind_from_absent by assumption.
    rewrite prefix_char, Ascii.eqb_refl. unfold len. simpl. lia.
  - cbn [append rfind_from]. rewrite IH by (assumption || lia).
    unfold len. cbn [String.length].
    destruct (Z.eqb_spec (i + 1 + Z.of_nat (String.length a)) (-1)); lia.
Qed.

(** ** Slicing *)

Lemma substring_full (s : string) : substring 0 (String.length s) s = s.
Proof. induction s as [|c s IH]; simpl; [reflexivity | now rewrite IH]. Qed.

Lemma substring_head (x post : string) :
  substring 0 (String.length x) (x ++ post) = x.
Proof.
  induction x as [|c x IH]; simpl.
  - now destruct post.
  - now rewrite IH.
Qed.

Lemma substring_middle (pre x post : string) :
  substring (String.length pre) (String.length x) (pre ++ x ++ post) = x.
Proof.
  induction pre as [|c pre IH]; simpl; [apply substring_head | exact IH].
Qed.

Lemma slice_middle (pre x post : string) :
  slice (pre ++ x ++ post) (len pre) (len pre + len x) = x.
Proof.
  unfold slice, clamp, len.
  rewrite !length_append.
  destruct (Z.ltb_spec (Z.of_nat (String.length pre)) 0); [lia|].
  destruct (Z.ltb_spec (Z.of_nat (String.length pre)
                        + Z.of_nat (String.length x)) 0); [lia|].
  rewrite !Z.min_l by lia.
  replace (Z.to_nat (Z.of_nat (String.length pre) + Z.of_nat (String.length x)
                     - Z.of_nat (String.length pre)))
    with (String.length x) by lia.
  rewrite Nat2Z.id. apply substring_middle.
Qed.

(** ** Stripping keeps what lies between two characters that are not
    whitespace *)

Lemma prefix_inside (o : ascii) (w pre rest : string) :
  contains w o = false ->
  prefix w (pre ++ String o rest) = true ->
  exists pre2, pre = w ++ pre2.
Proof.
  revert pre. induction w as [|a w IH]; intros pre Hw Hp.
  - now exists pre.
  - simpl in Hw. apply orb_false_elim in Hw as [Ha Hw].
    destruct pre as [|x pre]; simpl in Hp.
    + destruct (ascii_dec a o) as [->|]; [|discriminate].
      now rewrite Ascii.eqb_refl in Ha.
    + destruct (ascii_dec a x) as [->|]; [|discriminate].
      destruct (IH pre Hw Hp) as [pre2 ->]. now exists pre2.
Qed.

Lemma prefix_split (w s : string) :
  prefix w s = true -> exists t, s = w ++ t.
Proof.
  revert s. induction w as [|a w IH]; intros s Hp.
  - now exists s.
  - destruct s as [|x s]; simpl in Hp; [discriminate|].
    destruct (ascii_dec a x) as [->|]; [|discriminate].
    destruct (IH s Hp) as [t ->]. now exists t.
Qed.

Lemma drop_append (w t : string) : drop (String.length w) (w ++ t) = t.
Proof. induction w as [|a w IH]; simpl; [reflexivity | exact IH]. Qed.

Lemma head_len_found (tbl : list string) (s : string) :
  head_len tbl s <> O ->
  exists w, In w tbl /\ prefix w s = true /\ head_len tbl s = String.length w.
Proof.
  induction tbl as [|w tbl IH]; simpl; intros H; [easy|].
  destruct (prefix w s) eqn:Hp.
  - exists w. auto.
  - destruct (IH H) as (w' & Hin & Hp' & Hl). exists w'. auto.
Qed.

Section Strip.

Variable tbl : list string.
Variable o : ascii.
Hypothesis tbl_free : forall w, In w tbl -> contains w o = false.

(** Stripping on the left removes a part of what precedes the first [o]. *)
Lemma lstrip_with_keeps (fuel : nat) (pre rest : string) :
  contains pre o = false ->
  exists l pre',
    pre = l ++ pre'
    /\ lstrip_with tbl fuel (pre ++ String o rest) = pre' ++ String o rest.
Proof.
  revert pre. induction fuel as [|fuel IH]; intros pre Hpre.
  - now exists "", pre.
  - cbn [lstrip_with].
    destruct (head_len tbl (pre ++ String o rest)) as [|n] eqn:Hn.
    + now exists "", pre.
    + destruct (head_len_found tbl (pre ++ String o rest)) as (w & Hin & Hp & Hl);
        [now rewrite Hn|].
      destruct (prefix_inside o w pre rest (tbl_free w Hin) Hp) as [pre2 ->].
      rewrite Hn in Hl. rewrite Hl, append_assoc, drop_append.
      rewrite contains_append in Hpre. apply orb_false_elim in Hpre as [_ Hpre].
      destruct (IH pre2 Hpre) as (l & pre' & -> & E).
      exists (w ++ l), pre'. now rewrite append_assoc.
Qed.

End Strip.

Lemma contains_drop (n : nat) (s : string) (c : ascii) :
  contains s c = false -> contains (drop n s) c = false.
Proof.
  revert s. induction n as [|n IH]; intros s H; [exact H|].
  destruct s as [|x s]; [reflexivity|].
  simpl in H. apply orb_false_elim in H as [_ H]. now apply IH.
Qed.

Lemma contains_lstrip_with (tbl : list string) (fuel : nat) (s : string) (c : ascii) :
  contains s c = false -> contains (lstrip_with tbl fuel s) c = false.
Proof.
  revert s. induction fuel as [|fuel IH]; intros s H; [exact H|].
  cbn [lstrip_with]. destruct (head_len tbl s); [exact H|].
  apply IH. now apply contains_drop.
Qed.

Lemma contains_strip (s : string) (c : ascii) :
  contains s c = false -> contains (strip s) c = false.
Proof.
  intros H. unfold strip, rstrip, lstrip.
  rewrite contains_rev. apply contains_lstrip_with.
  rewrite contains_rev. now apply contains_lstrip_with.
Qed.

Lemma free_of_In (c : ascii) (tbl : list string) :
  free_of c tbl = true -> forall w, In w tbl -> contains w c = false.
Proof.
  unfold free_of. rewrite forallb_forall. intros H w Hin.
  apply negb_true_iff. now apply H.
Qed.

(** The stripped text still holds [o], [mid] and [c] in place, between
    what is left of the head and of the tail. *)
Lemma strip_keeps (o c : ascii) (pre mid post : string) :
  free_of o py_whitespace = true ->
  free_of c (map rev py_whitespace) = true ->
  contains pre o = false ->
  contains post c = false ->
  exists l pre' post' r,
    pre = l ++ pre' /\ post = post' ++ r
    /\ strip (pre ++ String o (mid ++ String c post))
       = pre' ++ String o (mid ++ String c post').
Proof.
  intros Ho Hc Hpre Hpost. unfold strip, lstrip, rstrip.
  destruct (lstrip_with_keeps py_whitespace o (free_of_In _ _ Ho)
              (String.length (pre ++ String o (mid ++ String c post)))
              pre (mid ++ String c post) Hpre) as (l & pre' & Epre & ->).
  set (x := pre' ++ String o mid).
  replace (pre' ++ String o (mid ++ String c post)) with (x ++ String c post)
    by (unfold x; now rewrite append_assoc).
  rewrite rev_append, rev_cons, append_assoc. cbn [append].
  destruct (lstrip_with_keeps (map rev py_whitespace) c (free_of_In _ _ Hc)
              (String.length (x ++ String c post))
              (rev post) (rev x)) as (r & q & Epost & ->);
    [now rewrite contains_rev|].
  exists l, pre', (rev q), (rev r). split; [exact Epre|]. split.
  - rewrite <- rev_append, <- Epost. now rewrite rev_involutive.
  - rewrite rev_append, rev_cons, rev_involutive, append_assoc. cbn [append].
    unfold x. rewrite append_assoc. reflexivity.
Qed.

Lemma contains_app_l (a b : string) (x : ascii) :
  contains (a ++ b) x = false -> contains a x = false.
Proof. rewrite contains_append. intros H. now apply orb_false_elim in H. Qed.

Lemma contains_app_r (a b : string) (x : ascii) :
  contains (a ++ b) x = false -> contains b x = false.
Proof. rewrite contains_append. intros H. now apply orb_false_elim in H. Qed.

(** The indices that [find] and [rfind] give on the stripped text, and the
    slice between them, when a closing brace follows the first opening one. *)
Lemma recovery_slice (pre mid post : string) :
  contains pre "{" = false ->
  contains post "}" = false ->
  let s := strip (pre ++ String "{" (mid ++ String "}" post)) in
  find s "{" <> -1 /\ rfind s "}" <> -1 /\
  slice s (find s "{") (rfind s "}" + 1) = String "{" (mid ++ "}").
Proof.
  intros Hpre Hpost s.
  destruct (strip_keeps "{" "}" pre mid post eq_refl eq_refl Hpre Hpost)
    as (l & pre' & post' & r & Epre & Epost & Hs).
  assert (Hpre' : contains pre' "{" = false)
    by (rewrite Epre in Hpre; now apply contains_app_r in Hpre).
  assert (Hpost' : contains post' "}" = false)
    by (rewrite Epost in Hpost; now apply contains_app_l in Hpost).
  subst s. rewrite Hs. unfold find, rfind.
  rewrite find_from_first by assumption.
  replace (pre' ++ String "{" (mid ++ String "}" post'))
    with ((pre' ++ String "{" mid) ++ String "}" post')
    by (now rewrite append_assoc).
  rewrite rfind_from_last by (assumption || lia).
  assert (Hlen : len (pre' ++ String "{" mid) = len pre' + 1 + len mid).
  { unfold len. rewrite length_append. cbn [String.length]. lia. }
  rewrite Hlen. repeat split; try (unfold len; lia).
  replace ((pre' ++ String "{" mid) ++ String "}" post')
    with (pre' ++ String "{" (mid ++ "}") ++ post').
  - assert (Hx : len (String "{" (mid ++ "}")) = len mid + 2).
    { unfold len. cbn [String.length]. rewrite length_append. simpl. lia. }
    match goal with
    | |- slice _ ?a ?b = _ =>
        replace a with (len pre') by lia;
        replace b with (len pre' + len (String "{" (mid ++ "}"))) by lia
    end.
    apply slice_middle.
  - rewrite !append_assoc. cbn [append]. now rewrite append_assoc.
Qed.

(** Without an opening or without a closing brace the search fails. *)
Lemma recovery_absent (content : string) :
  contains content "{" = false \/ contains content "}" = false ->
  negb (find (strip content) "{" =? -1)
  && negb (rfind (strip content) "}" =? -1) = false.
Proof.
  intros [H|H].
  - unfold find. rewrite find_from_absent by now apply contains_strip.
    reflexivity.
  - unfold rfind. rewrite rfind_from_absent by now apply contains_strip.
    apply andb_false_r.
Qed.

(** ** The first and the last occurrence of a character *)

Lemma first_occurrence (c : ascii) (s : string) :
  contains s c = true ->
  exists pre rest, s = pre ++ String c rest /\ contains pre c = false.
Proof.
  induction s as [|x s IH]; intros H; [discriminate|].
  simpl in H. destruct (Ascii.eqb c x) eqn:E.
  - apply Ascii.eqb_eq in E. subst. now exists "", s.
  - destruct (IH H) as (pre & rest & -> & Hp).
    exists (String x pre), rest. split; [reflexivity|].
    simpl. now rewrite E.
Qed.

Lemma last_occurrence (c : ascii) (s : string) :
  contains s c = true ->
  exists a post, s = a ++ String c post /\ contains post c = false.
Proof.
  induction s as [|x s IH]; intros H; [discriminate|].
  destruct (contains s c) eqn:Hs.
  - destruct (IH eq_refl) as (a & post & -> & Hp).
    now exists (String x a), post.
  - simpl in H. rewrite Hs, orb_false_r in H.
    apply Ascii.eqb_eq in H. subst. now exists "", s.
Qed.

Lemma substring_zero (n : nat) (s : string) : substring n 0 s = "".
Proof.
  revert s. induction n as [|n IH]; intros s; destruct s; simpl; auto.
Qed.

Lemma slice_empty (s : string) (a b : Z) :
  0 <= b <= a -> a <= len s -> slice s a b = "".
Proof.
  intros Hb Ha. unfold slice, clamp.
  destruct (Z.ltb_spec a 0); [lia|].
  destruct (Z.ltb_spec b 0); [lia|].
  replace (Z.to_nat (Z.min b (len s) - Z.min a (len s))) with O by lia.
  apply substring_zero.
Qed.

(** When every closing brace precedes the first opening one, the slice
    between the two indices is empty. *)
Lemma recovery_crossing (pre rest : string) :
  contains pre "{" = false ->
  contains pre "}" = true ->
  contains rest "}" = false ->
  let s := strip (pre ++ String "{" rest) in
  find s "{" <> -1 /\ rfind s "}" <> -1 /\
  slice s (find s "{") (rfind s "}" + 1) = "".
Proof.
  intros Hpo Hpc Hrc s.
  destruct (first_occurrence "}" pre Hpc) as (p1 & p2 & Ep & Hp1).
  destruct (last_occurrence "{" (String "{" rest)) as (r1 & q2 & Er & Hq2);
    [simpl; reflexivity|].
  assert (Es : pre ++ String "{" rest
               = p1 ++ String "}" ((p2 ++ r1) ++ String "{" q2)).
  { rewrite Er, Ep, ?append_assoc. cbn [append].
    now rewrite ?append_assoc. }
  destruct (strip_keeps "}" "{" p1 (p2 ++ r1) q2 eq_refl eq_refl Hp1 Hq2)
    as (l & p1' & q2' & r & Ep1 & Eq2 & Hs).
  subst s. rewrite Es, Hs. clear Es Hs.
  (* what stands before the first opening brace, and what follows it *)
  assert (Hy : exists y, r1 ++ String "{" q2' = String "{" y
                         /\ contains y "}" = false).
  { assert (Hall : contains (r1 ++ String "{" q2) "}" = false).
    { rewrite <- Er. simpl. exact Hrc. }
    rewrite Eq2 in Hall.
    destruct r1 as [|x r1].
    - exists q2'. split; [reflexivity|].
      simpl in Hall. now apply contains_app_l in Hall.
    - cbn [append] in Er. inversion Er; subst x.
      exists (r1 ++ String "{" q2'). split; [reflexivity|].
      cbn [append] in Hall. simpl in Hall.
      replace (r1 ++ String "{" (q2' ++ r))
        with ((r1 ++ String "{" q2') ++ r) in Hall
        by (rewrite append_assoc; reflexivity).
      now apply contains_app_l in Hall. }
  destruct Hy as (y & Ey & Hyc).
  set (x := p1' ++ String "}" p2).
  assert (Ex : p1' ++ String "}" ((p2 ++ r1) ++ String "{" q2')
               = x ++ String "{" y).
  { unfold x. rewrite <- Ey, ?append_assoc. cbn [append].
    now rewrite ?append_assoc. }
  assert (Hxo : contains x "{" = false).
  { unfold x. rewrite contains_append. cbn [contains].
    rewrite Ep, Ep1, !contains_append in Hpo. cbn [contains] in Hpo.
    repeat match goal with
           | H : _ || _ = false |- _ => apply orb_false_elim in H as [? ?]
           end.
    repeat match goal with H : _ = false |- _ => rewrite H; clear H end.
    reflexivity. }
  destruct (last_occurrence "}" x) as (xa & xp & Exa & Hxp).
  { unfold x. rewrite contains_append. cbn [contains].
    rewrite Ascii.eqb_refl. apply orb_true_r. }
  rewrite Ex. unfold find, rfind.
  rewrite find_from_first by assumption.
  replace (x ++ String "{" y) with (xa ++ String "}" (xp ++ String "{" y))
    by (rewrite Exa, append_assoc; reflexivity).
  rewrite rfind_from_last.
  2: lia.
  2:{ rewrite contains_append, Hxp. cbn [contains]. exact Hyc. }
  assert (Hl : len x = len xa + 1 + len xp).
  { rewrite Exa. unfold len. rewrite length_append. cbn [String.length]. lia. }
  repeat split; try (unfold len in *; lia).
  apply slice_empty.
  - unfold len in *. lia.
  - rewrite Hl. unfold len. rewrite !length_append. cbn [String.length].
    rewrite length_append. lia.
Qed.

(** ** The slice of the code is the recovery text of the specification *)

Lemma after_first_found (c : ascii) (pre rest : string) :
  contains pre c = false ->
  Recovery.after_first c (pre ++ String c rest) = String c rest.
Proof.
  induction pre as [|x pre IH]; intros H; cbn [append Recovery.after_first].
  - now rewrite Ascii.eqb_refl.
  - simpl in H. apply orb_false_elim in H as [Hx Hp].
    rewrite Ascii.eqb_sym, Hx. now apply IH.
Qed.

Lemma upto_last_absent (c : ascii) (s : string) :
  contains s c = false -> Recovery.upto_last c s = "".
Proof.
  destruct s as [|x s]; [reflexivity|]. simpl. intros H.
  apply orb_false_elim in H as [Hx Hs].
  now rewrite Hs, Ascii.eqb_sym, Hx.
Qed.

Lemma upto_last_found (c : ascii) (a post : string) :
  contains post c = false ->
  Recovery.upto_last c (a ++ String c post) = a ++ String c "".
Proof.
  intros H. induction a as [|x a IH]; cbn [append Recovery.upto_last].
  - now rewrite H, Ascii.eqb_refl.
  - rewrite contains_append. cbn [contains].
    rewrite Ascii.eqb_refl, orb_true_r. now rewrite IH.
Qed.

Lemma recovery_general (content : string) :
  contains content "{" = true ->
  contains content "}" = true ->
  let s := strip content in
  find s "{" <> -1 /\ rfind s "}" <> -1 /\
  slice s (find s "{") (rfind s "}" + 1)
  = Recovery.upto_last "}" (Recovery.after_first "{" content).
Proof.
  intros Ho Hc.
  destruct (first_occurrence "{" content Ho) as (pre & rest & -> & Hpre).
  rewrite after_first_found by assumption.
  destruct (contains rest "}") eqn:Hr.
  - destruct (last_occurrence "}" rest Hr) as (mid & post & -> & Hpost).
    replace (String "{" (mid ++ String "}" post))
      with (String "{" mid ++ String "}" post) by reflexivity.
    rewrite upto_last_found by assumption.
    apply (recovery_slice pre mid post Hpre Hpost).
  - rewrite upto_last_absent by (simpl; exact Hr).
    apply recovery_crossing; try assumption.
    rewrite contains_append in Hc. cbn [contains] in Hc.
    rewrite Hr in Hc. cbn in Hc. now rewrite orb_false_r in Hc.
Qed.

End StrFacts.

(* ===================================================================== *)
(** * Facts about [json.loads] *)
(* ===================================================================== *)

Module JsonFacts.
Import Json.

Local Abbreviation slen := String.length.

(** Case analysis on what a successful parsing step went through. *)
Ltac break_in H :=
  repeat match type of H with
         | (if ?b then _ else _) = _ => destruct b eqn:?
         | match ?x with _ => _ end = _ => destruct x eqn:?
         | (let '(_, _) := ?x in _) = _ => destruct x eqn:?
         | Some _ = Some _ => inversion H; subst; clear H
         | Ok _ = Ok _ => inversion H; subst; clear H
         | (_, _) = (_, _) => inversion H; subst; clear H
         | None = Some _ => discriminate
         | Raise _ = Ok _ => discriminate
         end.

Lemma eat_length (c : ascii) (s rest : string) :
  Str.eat c s = Some rest -> slen s = S (slen rest).
Proof. unfold Str.eat. intros H. now break_in H. Qed.

Lemma skip_ws_length (s : string) : (slen (skip_ws s) <= slen s)%nat.
Proof.
  induction s as [|c s IH]; simpl; [lia|].
  destruct (is_ws c); simpl; lia.
Qed.

Lemma take_digits_length (s : string) (acc cnt a c : Z) (rest : string) :
  Float.take_digits s acc cnt = (a, c, rest) -> (slen rest <= slen s)%nat.
Proof.
  revert acc cnt. induction s as [|x s IH]; intros acc cnt;
    cbn [Float.take_digits]; intros H.
  - now inversion H.
  - destruct (Str.is_digit x).
    + apply IH in H. cbn [String.length]. lia.
    + now inversion H.
Qed.

Lemma take_sign_length (s : string) (neg : bool) (rest : string) :
  Float.take_sign s = (neg, rest) -> (slen rest <= slen s)%nat.
Proof.
  unfold Float.take_sign. intros H. break_in H;
    repeat match goal with
           | E : Str.eat _ _ = Some _ |- _ => apply eat_length in E
           end; lia.
Qed.

Ltac lengths :=
  repeat match goal with
         | E : Float.take_digits _ _ _ = _ |- _ => apply take_digits_length in E
         | E : Float.take_sign _ = _ |- _ => apply take_sign_length in E
         | E : Str.eat _ _ = Some _ |- _ => apply eat_length in E
         end;
  cbn [String.length] in *.

Lemma take_fraction_length (s : string) (ip M nf : Z) (rest : string) :
  take_fraction s ip = Some (M, nf, rest) -> (slen rest < slen s)%nat.
Proof. unfold take_fraction. intros H. break_in H. lengths. lia. Qed.

Lemma take_exponent_length (s : string) (x : Z) (rest : string) :
  take_exponent s = Some (x, rest) -> (slen rest < slen s)%nat.
Proof. unfold take_exponent. intros H. break_in H; lengths; lia. Qed.

Lemma take_int_part_length (s : string) (ip ni : Z) (rest : string) :
  take_int_part s = Some (ip, ni, rest) -> (slen rest < slen s)%nat.
Proof.
  unfold take_int_part. intros H. break_in H; [cbn; lia|].
  match goal with
  | E : _ = (_, _, _), D : Str.is_digit _ = true |- _ => rewrite D in E
  end.
  lengths. lia.
Qed.

Lemma match_number_length (s : string) (r : result pyval) (rest : string) :
  match_number s = Some (r, rest) -> (slen rest < slen s)%nat.
Proof.
  unfold match_number. intros H.
  break_in H;
    repeat match goal with
           | E : match ?x with _ => _ end = (_, _) |- _ =>
               destruct x eqn:?; inversion E; subst; clear E
           end;
    repeat match goal with
           | E : take_int_part _ = Some _ |- _ => apply take_int_part_length in E
           | E : take_fraction _ _ = Some _ |- _ => apply take_fraction_length in E
           | E : take_exponent _ = Some _ |- _ => apply take_exponent_length in E
           end;
    lengths; lia.
Qed.

Lemma drop_length (n : nat) (s : string) : slen (Str.drop n s) = (slen s - n)%nat.
Proof.
  revert s. induction n as [|n IH]; intros s; simpl; [lia|].
  destruct s; simpl; [reflexivity | apply IH].
Qed.

Lemma strip_prefix_length (p s rest : string) :
  strip_prefix p s = Some rest -> slen s = (slen p + slen rest)%nat.
Proof.
  unfold strip_prefix. destruct (prefix p s) eqn:E; [|discriminate].
  intros H. inversion H; subst.
  destruct (StrFacts.prefix_split p s E) as [t ->].
  now rewrite StrFacts.drop_append, StrFacts.length_append.
Qed.

Lemma literal_length (s : string) (v : pyval) (rest : string) :
  literal s = Some (v, rest) -> (slen rest < slen s)%nat.
Proof.
  unfold literal. intros H. break_in H;
    match goal with
    | E : strip_prefix _ _ = Some _ |- _ => apply strip_prefix_length in E
    end; cbn [String.length] in *; lia.
Qed.

Lemma constant_length (s : string) (v : pyval) (rest : string) :
  constant s = Some (v, rest) -> (slen rest < slen s)%nat.
Proof.
  unfold constant. intros H. break_in H;
    match goal with
    | E : strip_prefix _ _ = Some _ |- _ => apply strip_prefix_length in E
    end; cbn [String.length] in *; lia.
Qed.

Lemma cons_chunk_ok (chunk : string) (r : result (string * string))
    (body rest : string) :
  cons_chunk chunk r = Ok (body, rest) ->
  exists body', r = Ok (body', rest).
Proof.
  destruct r as [[b r']|e]; simpl; intros H; [|discriminate].
  inversion H; subst. now exists b.
Qed.

(** A string scan consumes at least the closing quote. *)
Lemma scanstring_length_lt (n : nat) :
  forall s body rest,
    (slen s < n)%nat ->
    scanstring s = Ok (body, rest) -> (slen rest < slen s)%nat.
Proof.
  induction n as [|n IH]; intros s body rest Hn H; [lia|].
  destruct s as [|c s1]; [discriminate|].
  cbn [scanstring] in H.
  repeat match type of H with
         | (if ?b then _ else _) = _ => destruct b
         | match ?x with _ => _ end = _ => destruct x
         | Ok _ = Ok _ => inversion H; subst; clear H
         | Raise _ = _ => discriminate
         | cons_chunk _ (scanstring ?t) = Ok _ =>
             let b := fresh "b" in
             let E := fresh "E" in
             destruct (cons_chunk_ok _ _ _ _ H) as [b E];
             apply IH in E; [|cbn [String.length] in *; lia]; clear H
         end;
    cbn [String.length] in *; lia.
Qed.

Lemma scanstring_length (s body rest : string) :
  scanstring s = Ok (body, rest) -> (slen rest < slen s)%nat.
Proof. apply (scanstring_length_lt (S (slen s))). lia. Qed.

(** A string scan fails with a decode error only. *)
Lemma scanstring_error (s : string) (e : exn) :
  scanstring s = Raise e -> e = JSONDecodeError.
Proof.
  assert (H : forall n s e, (slen s < n)%nat ->
                            scanstring s = Raise e -> e = JSONDecodeError).
  { clear s e. induction n as [|n IH]; intros s e Hn H; [lia|].
    destruct s as [|c s1]; [now inversion H|].
    cbn [scanstring] in H.
    repeat match type of H with
           | (if ?b then _ else _) = _ => destruct b
           | match ?x with _ => _ end = _ => destruct x
           | Ok _ = Raise _ => discriminate
           | Raise JSONDecodeError = Raise _ => now inversion H
           | cons_chunk _ (scanstring ?t) = Raise _ =>
               let E := fresh "E" in
               destruct (scanstring t) as [[? ?]|?] eqn:E; cbn [cons_chunk] in H;
               [discriminate|];
               inversion H; subst; clear H;
               apply IH in E; [exact E | cbn [String.length] in *; lia]
           end. }
  apply (H (S (slen s))). lia.
Qed.

Lemma match_number_error (s rest : string) (e : exn) :
  match_number s = Some (Raise e, rest) -> e = ValueError.
Proof. unfold match_number. intros H. now break_in H. Qed.

Lemma fails_properly_ok {A : Type} (a : A) : fails_properly (Ok a).
Proof. intros e H. discriminate H. Qed.

Lemma fails_properly_decode {A : Type} :
  fails_properly (@Raise A JSONDecodeError).
Proof. intros e H. inversion H. now left. Qed.

Lemma consumes_raise {A : Type} (e : exn) (s : string) :
  consumes (@Raise (A * string) e) s.
Proof. intros a rest H. discriminate H. Qed.

Create HintDb json.
#[local] Hint Resolve fails_properly_ok fails_properly_decode consumes_raise
  : json.

(** With fuel beyond twice the length of the text, parsing does not run
    out of fuel: it fails with the errors of [json.loads] only.  And a
    successful step consumes some of the text. *)
Lemma fuel_suffices (fuel : nat) :
  (forall s,
      consumes (scan_once fuel s) s
      /\ ((2 * slen s + 1 <= fuel)%nat -> fails_properly (scan_once fuel s)))
  /\ (forall s acc,
         consumes (parse_elements fuel s acc) s
         /\ ((2 * slen s + 2 <= fuel)%nat ->
             fails_properly (parse_elements fuel s acc)))
  /\ (forall s acc,
         consumes (parse_members fuel s acc) s
         /\ ((2 * slen s + 2 <= fuel)%nat ->
             fails_properly (parse_members fuel s acc))).
Proof.
  induction fuel as [|fuel (IHs & IHe & IHm)].
  { repeat split; intros; cbn [scan_once parse_elements parse_members];
      auto with json; exfalso; lia. }
  split; [|split].
  - (* scan_once *)
    intros s. destruct s as [|c s1]; cbn [scan_once]; [split; auto with json|].
    pose proof (skip_ws_length s1) as Hws.
    destruct (Ascii.eqb c Str.dquote).
    { destruct (scanstring s1) as [[b r]|e] eqn:E; cbn [bind fst snd].
      - apply scanstring_length in E. split; auto with json.
        intros a rest H. inversion H; subst. cbn [String.length]. lia.
      - apply scanstring_error in E. subst. split; auto with json. }
    destruct (Ascii.eqb c "{").
    { destruct (Str.eat "}" (skip_ws s1)) as [s2|] eqn:E.
      - apply eat_length in E. split; auto with json.
        intros a rest H. inversion H; subst. cbn [String.length]. lia.
      - destruct (IHm (skip_ws s1) []) as [Hc Hn].
        destruct (parse_members fuel (skip_ws s1) []) as [[d r]|e] eqn:Em;
          cbn [bind fst snd].
        + specialize (Hc d r eq_refl). split; auto with json.
          intros a rest H. inversion H; subst. cbn [String.length]. lia.
        + split; auto with json.
          cbn [String.length]. intros Hf e' H. inversion H; subst.
          apply (Hn ltac:(lia) e' eq_refl). }
    destruct (Ascii.eqb c "[").
    { destruct (Str.eat "]" (skip_ws s1)) as [s2|] eqn:E.
      - apply eat_length in E. split; auto with json.
        intros a rest H. inversion H; subst. cbn [String.length]. lia.
      - destruct (IHe (skip_ws s1) []) as [Hc Hn].
        destruct (parse_elements fuel (skip_ws s1) []) as [[d r]|e] eqn:Em;
          cbn [bind fst snd].
        + specialize (Hc d r eq_refl). split; auto with json.
          intros a rest H. inversion H; subst. cbn [String.length]. lia.
        + split; auto with json.
          cbn [String.length]. intros Hf e' H. inversion H; subst.
          apply (Hn ltac:(lia) e' eq_refl). }
    destruct (literal (String c s1)) as [[v r]|] eqn:El.
    { apply literal_length in El. split; auto with json.
      intros a rest H. now inversion H; subst. }
    destruct (constant (String c s1)) as [[v r]|] eqn:Ec.
    { apply constant_length in Ec. split; auto with json.
      intros a rest H. now inversion H; subst. }
    destruct (match_number (String c s1)) as [[[v|e] r]|] eqn:En.
    + apply match_number_length in En. split; auto with json.
      intros a rest H. now inversion H; subst.
    + apply match_number_error in En. subst. split; auto with json.
      intros _ e' H. inversion H. now right.
    + split; auto with json.
  - (* parse_elements *)
    intros s acc. cbn [parse_elements].
    destruct (IHs s) as [Hc Hn].
    destruct (scan_once fuel s) as [[v r]|e] eqn:E; cbn [bind fst snd].
    + specialize (Hc v r eq_refl).
      pose proof (skip_ws_length r) as Hws.
      destruct (Str.eat "]" (skip_ws r)) as [s2|] eqn:E1.
      { apply eat_length in E1. split; auto with json.
        intros a rest H. inversion H; subst. lia. }
      destruct (Str.eat "," (skip_ws r)) as [s2|] eqn:E2; [|split; auto with json].
      apply eat_length in E2.
      pose proof (skip_ws_length s2) as Hws2.
      destruct (IHe (skip_ws s2) (v :: acc)) as [Hc' Hn'].
      split.
      * intros a rest H. specialize (Hc' a rest H). lia.
      * intros Hf. apply Hn'. lia.
    + split; auto with json.
      intros Hf e' H. inversion H; subst. apply (Hn ltac:(lia) e' eq_refl).
  - (* parse_members *)
    intros s acc. cbn [parse_members].
    destruct (Str.eat Str.dquote s) as [s1|] eqn:E0; [|split; auto with json].
    apply eat_length in E0.
    destruct (scanstring s1) as [[k r0]|e] eqn:Ek; cbn [bind fst snd].
    2:{ apply scanstring_error in Ek. subst. split; auto with json. }
    apply scanstring_length in Ek.
    pose proof (skip_ws_length r0) as Hws0.
    destruct (Str.eat ":" (skip_ws r0)) as [s2|] eqn:E1; [|split; auto with json].
    apply eat_length in E1.
    pose proof (skip_ws_length s2) as Hws2.
    destruct (IHs (skip_ws s2)) as [Hc Hn].
    destruct (scan_once fuel (skip_ws s2)) as [[v r]|e] eqn:E; cbn [bind fst snd].
    + specialize (Hc v r eq_refl).
      pose proof (skip_ws_length r) as Hws.
      destruct (Str.eat "}" (skip_ws r)) as [s3|] eqn:E3.
      { apply eat_length in E3. split; auto with json.
        intros a rest H. inversion H; subst. lia. }
      destruct (Str.eat "," (skip_ws r)) as [s3|] eqn:E4; [|split; auto with json].
      apply eat_length in E4.
      pose proof (skip_ws_length s3) as Hws3.
      destruct (IHm (skip_ws s3) (Py.set acc k v)) as [Hc' Hn'].
      split.
      * intros a rest H. specialize (Hc' a rest H). lia.
      * intros Hf. apply Hn'. lia.
    + split; auto with json.
      intros Hf e' H. inversion H; subst. apply (Hn ltac:(lia) e' eq_refl).
Qed.

(** [json.loads] returns a value or raises one of its two errors; it does
    not run out of fuel. *)
Theorem loads_errors (s : string) (e : exn) :
  loads s = Raise e -> e = JSONDecodeError \/ e = ValueError.
Proof.
  unfold loads.
  destruct (prefix _ s); [intros H; inversion H; now left|].
  pose proof (skip_ws_length s) as Hws.
  destruct (fuel_suffices (2 * slen s + 2)) as [Hs _].
  destruct (Hs (skip_ws s)) as [_ Hn].
  destruct (scan_once (2 * slen s + 2) (skip_ws s)) as [[v r]|e'] eqn:E;
    cbn [bind fst snd].
  - destruct (skip_ws r); intros H; inversion H. now left.
  - intros H. inversion H; subst. apply (Hn ltac:(lia) e eq_refl).
Qed.

End JsonFacts.

(* ===================================================================== *)
(** * Field normalisation: prices *)
(* ===================================================================== *)

Module PriceFacts.
Import App Fields.

Lemma price_of_eq (p : pydict) :
  price_of p = normalize_price (Py.get p "preco_brl") (price_text_of p).
Proof. reflexivity. Qed.

Lemma of_ratio_not_nan (neg : bool) (n d : Z) :
  Float.of_ratio neg n d <> Float.FNan.
Proof.
  unfold Float.of_ratio. destruct (n =? 0); [discriminate|].
  destruct (Float.round_pos n d) as [[m e]|]; [|discriminate].
  destruct (m =? 0); discriminate.
Qed.

Lemma of_int_finite (z : Z) (f : Float.pyfloat) :
  Float.of_int z = Ok f -> Float.is_finite f = true.
Proof.
  unfold Float.of_int.
  pose proof (of_ratio_not_nan (z <? 0) (Z.abs z) 1) as Hn.
  destruct (Float.of_ratio (z <? 0) (Z.abs z) 1); intros H.
  - now inversion H.
  - discriminate.
  - now elim Hn.
Qed.

(** An absent or null price field is no failed coercion: the price is
    None, whatever the textual price. *)
Lemma price_absent_when_field_absent (p : pydict) :
  Py.get p "preco_brl" = PNone -> price_of p = PNone.
Proof. intros H. rewrite price_of_eq. now rewrite H. Qed.

(** ** Replacing a single character *)

Lemma replace_char_aux (c : ascii) (new s : string) :
  Str.replace_aux (String c "") new s O
  = match s with
    | EmptyString => EmptyString
    | String x s' =>
        (if Ascii.eqb c x then new else String x "")
          ++ Str.replace_aux (String c "") new s' O
    end.
Proof.
  destruct s as [|x s]; [reflexivity|].
  cbn [Str.replace_aux]. rewrite StrFacts.prefix_char.
  now destruct (Ascii.eqb c x).
Qed.

Lemma replace_char_removes (c : ascii) (new s : string) :
  Str.contains new c = false ->
  Str.contains (Str.replace s (String c "") new) c = false.
Proof.
  intros Hnew. unfold Str.replace.
  induction s as [|x s IH]; [reflexivity|].
  rewrite replace_char_aux, StrFacts.contains_append, IH, orb_false_r.
  destruct (Ascii.eqb c x) eqn:E; [exact Hnew|].
  simpl. now rewrite E.
Qed.

Lemma replace_char_keeps_absent (c y : ascii) (new s : string) :
  Str.contains new y = false ->
  Str.contains s y = false ->
  Str.contains (Str.replace s (String c "") new) y = false.
Proof.
  intros Hnew. unfold Str.replace.
  induction s as [|x s IH]; intros Hs; [reflexivity|].
  simpl in Hs. apply orb_false_elim in Hs as [Hx Hs].
  rewrite replace_char_aux, StrFacts.contains_append, IH, orb_false_r by assumption.
  destruct (Ascii.eqb c x); [exact Hnew|].
  simpl. now rewrite Hx.
Qed.

(** The cleaned text has neither a space nor a comma. *)
Lemma locale_cleanup_clean (s : string) :
  Str.contains (locale_cleanup s) " " = false
  /\ Str.contains (locale_cleanup s) "," = false.
Proof.
  unfold locale_cleanup. split.
  - apply replace_char_keeps_absent; [reflexivity|].
    apply replace_char_keeps_absent; [reflexivity|].
    now apply replace_char_removes.
  - now apply replace_char_removes.
Qed.

End PriceFacts.

(** ** Price coercion *)

(** C3. A raw price field equal to the string "R$ 29,90" yields the price
    29.90, the string "R$ 1.234,56" yields 1234.56, and a price field that
    is already the number 19.9 (or any other float) is kept unchanged; the
    two strings are cleaned to "29.90" and "1234.56" on the way, and the
    same three values come out of a whole response text. *)
Theorem price_coercion_examples :
  App.locale_cleanup "R$ 29,90" = "29.90"
  /\ App.locale_cleanup "R$ 1.234,56" = "1234.56"
  /\ Fields.price_of [("preco_brl", PStr "R$ 29,90")]
  = PFloat (Float.of_decimal false 2990 (-2))
  /\ Fields.price_of [("preco_brl", PStr "R$ 1.234,56")]
     = PFloat (Float.of_decimal false 123456 (-2))
  /\ Fields.price_of [("preco_brl", PFloat (Float.of_decimal false 199 (-1)))]
     = PFloat (Float.of_decimal false 199 (-1))
  /\ (forall f, Fields.price_of [("preco_brl", PFloat f)] = PFloat f)
  /\ option_map (map (fun r => Py.str (Py.field r "preco_brl")))
       (match App.products_of_content
                (Str.dq "{'products': [{'preco_brl': 'R$ 29,90'},
                                       {'preco_brl': 'R$ 1.234,56'},
                                       {'preco_brl': 19.9}]}")
        with Ok l => Some l | Raise _ => None end)
     = Some ["29.9"; "1234.56"; "19.9"].
Proof.
  repeat split; try (vm_compute; reflexivity).
Qed.

(** C4, the claim as stated fails: the cleanup does not strip whitespace,
    it removes the space character and no other.  A tab after the marker
    is still in the cleaned text, and a tab between the groups of a price
    leaves a text that is no number, so that the price is None where the
    same price written with spaces is read. *)
Lemma cleanup_keeps_other_whitespace :
  App.locale_cleanup ("R$" ++ String Prices.tab "29,90")
  = String Prices.tab "29.90"
  /\ Str.contains (App.locale_cleanup ("R$" ++ String Prices.tab "29,90"))
                  Prices.tab = true
  /\ App.direct_price
       (PStr ("R$" ++ String Prices.tab ("1" ++ String Prices.tab "234,56")))
     = Raise ValueError
  /\ App.locale_cleanup
       ("R$" ++ String Prices.tab ("1" ++ String Prices.tab "234,56"))
     = String Prices.tab ("1" ++ String Prices.tab "234.56")
  /\ Fields.price_of
       [("preco_brl",
         PStr ("R$" ++ String Prices.tab ("1" ++ String Prices.tab "234,56")))]
     = PNone
  /\ Fields.price_of [("preco_brl", PStr "R$ 1 234,56")]
     = PFloat (Float.of_decimal false 123456 (-2)).
Proof. repeat split; vm_compute; reflexivity. Qed.

(** C4, amended. When the direct coercion of the price field raises, the
    price is what the cleanup gives: the text of the price field if it is
    truthy and of the textual price otherwise, without the marker R$,
    without space characters (other whitespace stays) and without dots,
    and with each comma turned into a dot, read as a float.  When that
    text is no number either the price is None, and in every case the
    product is produced with that price. *)
Theorem price_fallback (p : pydict) (e : exn) :
  App.direct_price (Py.get p "preco_brl") = Raise e ->
  let source := if Py.truthy (Py.get p "preco_brl")
                then Py.get p "preco_brl" else Fields.price_text_of p in
  let cleaned :=
    Str.replace
      (Str.replace (Str.replace (Str.replace (Py.str source) "R$" "") " " "")
                   "." "") "," "." in
  Str.contains cleaned " " = false
  /\ Str.contains cleaned "," = false
  /\ (forall f, Float.of_string cleaned = Ok f ->
                Fields.price_of p = PFloat f)
  /\ (forall e', Float.of_string cleaned = Raise e' ->
                 Fields.price_of p = PNone)
  /\ exists marca_nome marca produto condicoes,
       App.normalize_product p
       = PDict [ ("marca_nome", marca_nome); ("marca", marca);
                 ("produto", produto);
                 ("preco_brl", Fields.price_of p);
                 ("preco_brl_texto", Fields.price_text_of p);
                 ("condicoes", condicoes) ].
Proof.
  intros Hd source cleaned.
  assert (Hsrc : Py.or (Py.or (Py.get p "preco_brl") (Fields.price_text_of p))
                       (PStr "") = source).
  { unfold source, Py.or, Fields.price_text_of.
    destruct (Py.truthy (Py.get p "preco_brl")) eqn:Ht; [now rewrite Ht|].
    unfold Py.or.
    repeat match goal with
           | |- context [if Py.truthy ?v then _ else _] =>
               destruct (Py.truthy v) eqn:?
           end; congruence. }
  assert (Hp : Fields.price_of p
               = match Float.of_string cleaned with
                 | Ok f => PFloat f
                 | Raise _ => PNone
                 end).
  { rewrite PriceFacts.price_of_eq. unfold App.normalize_price.
    rewrite Hd. unfold App.fallback_price. now rewrite Hsrc. }
  pose proof (PriceFacts.locale_cleanup_clean (Py.str source)) as [Hs Hc].
  repeat split.
  - exact Hs.
  - exact Hc.
  - intros f Hf. now rewrite Hp, Hf.
  - intros e' He. now rewrite Hp, He.
  - now eexists _, _, _, _.
Qed.

Lemma price_fallback_witness :
  Fields.price_of [("preco_brl", PStr "a combinar")] = PNone
  /\ Fields.price_of [("preco_brl", PStr ""); ("preco_texto", PStr "R$ 5,00")]
     = PFloat (Float.of_decimal false 5 0).
Proof.
  split.
  - refine (proj1 (proj2 (proj2 (proj2
      (price_fallback [("preco_brl", PStr "a combinar")] ValueError _)))) ValueError _);
      vm_compute; reflexivity.
  - refine (proj1 (proj2 (proj2
      (price_fallback [("preco_brl", PStr ""); ("preco_texto", PStr "R$ 5,00")]
                      ValueError _))) _ _);
      vm_compute; reflexivity.
Defined.

(** C7, the claim as stated fails: the price field "nan" gives a price that
    is present and is not a finite number, and so does "inf". *)
Lemma price_not_finite :
  Fields.price_of [("preco_brl", PStr "nan")] = PFloat Float.FNan
  /\ Float.is_finite Float.FNan = false
  /\ Fields.price_of [("preco_brl", PStr "inf")] = PFloat (Float.FInf false)
  /\ Float.is_finite (Float.FInf false) = false.
Proof. repeat split; vm_compute; reflexivity. Qed.

(** C7, amended. The price of a produced record is None or a float, and
    nothing else; it is the float itself when the price field is a float,
    and a finite float when the price field is an integer within the range
    of floats. *)
Theorem price_is_float_or_absent (p : pydict) :
  (Fields.price_of p = PNone \/ exists f, Fields.price_of p = PFloat f)
  /\ (forall f, Py.get p "preco_brl" = PFloat f ->
                Fields.price_of p = PFloat f)
  /\ (forall z f, Py.get p "preco_brl" = PInt z -> Float.of_int z = Ok f ->
                  Fields.price_of p = PFloat f /\ Float.is_finite f = true).
Proof.
  rewrite PriceFacts.price_of_eq. unfold App.normalize_price.
  split; [|split].
  - destruct (App.direct_price (Py.get p "preco_brl")) as [v|e] eqn:Hd.
    + unfold App.direct_price in Hd.
      destruct (Py.get p "preco_brl") eqn:Hv;
        try (inversion Hd; now left);
        (destruct (Py.float _) as [x|] in Hd; simpl in Hd;
         [inversion Hd; right; now exists x | discriminate]).
    + unfold App.fallback_price.
      destruct (Float.of_string _) as [f|]; [right; now exists f | now left].
  - intros f ->. reflexivity.
  - intros z f Hz Hf. split.
    + rewrite Hz. unfold App.direct_price. simpl. now rewrite Hf.
    + now apply PriceFacts.of_int_finite in Hf.
Qed.

Lemma price_is_float_or_absent_witness :
  Fields.price_of [("preco_brl", PInt 7)] = PFloat (Float.of_decimal false 7 0)
  /\ Float.is_finite (Float.of_decimal false 7 0) = true.
Proof.
  refine (proj2 (proj2 (price_is_float_or_absent [("preco_brl", PInt 7)])) 7 _ _ _);
    vm_compute; reflexivity.
Defined.

(* ===================================================================== *)
(** * Field normalisation and rendering: conditions *)
(* ===================================================================== *)

Module ConditionFacts.
Import App Fields.

Lemma conditions_of_eq (p : pydict) :
  conditions_of p = normalize_condicoes (Py.get p "condicoes").
Proof. reflexivity. Qed.

Lemma render_conditions_mappings (l : list pyval) :
  render_conditions l = map render_condition (mappings l).
Proof.
  induction l as [|v l IH]; [reflexivity|].
  destruct v; simpl; now rewrite IH.
Qed.

Lemma condicoes_str_list (product : pydict) (l : list pyval) :
  Py.get product "condicoes" = PList l ->
  condicoes_str product = Str.join "; " (map render_condition (mappings l)).
Proof.
  intros H. unfold condicoes_str. rewrite H.
  destruct l as [|v l]; [reflexivity|].
  unfold Py.or. cbn [Py.truthy]. now rewrite render_conditions_mappings.
Qed.

(** The table holds one record per row, with all seven columns. *)
Lemma build_dataframe_records (rows : list (string * pydict)) :
  records (build_dataframe rows) = map build_record rows.
Proof.
  unfold build_dataframe. cbn [records from_records columns].
  destruct rows as [|[f p] rows]; [reflexivity|].
  cbn [map build_record fst filter desired existsb String.eqb Ascii.eqb
       Bool.eqb orb].
  rewrite map_map. apply f_equal2; [reflexivity|].
  apply map_ext. intros [f' p']. reflexivity.
Qed.

Lemma build_dataframe_columns (rows : list (string * pydict)) :
  columns (build_dataframe rows)
  = match rows with [] => [] | _ :: _ => desired end.
Proof. destruct rows as [|[f p] rows]; reflexivity. Qed.

End ConditionFacts.

(** C5, the claim as stated fails: a single mapping that is empty is not
    wrapped into a one-element sequence, it becomes the empty sequence. *)
Lemma empty_mapping_not_wrapped :
  Fields.conditions_of [("condicoes", PDict [])] = PList []
  /\ Fields.conditions_of [("condicoes", PDict [])] <> PList [PDict []].
Proof. split; [reflexivity | discriminate]. Qed.

(** C5, amended. A single mapping that is not empty is wrapped into a
    one-element sequence with the same content; a sequence is kept as it
    is; any other shape, including null, absence, a string and the empty
    mapping, becomes the empty sequence. *)
Theorem conditions_shape (p : pydict) :
  (forall d, Py.get p "condicoes" = PDict d -> d <> [] ->
             Fields.conditions_of p = PList [PDict d])
  /\ (forall l, Py.get p "condicoes" = PList l ->
                Fields.conditions_of p = PList l)
  /\ (Py.get p "condicoes" = PDict [] ->
      Fields.conditions_of p = PList [])
  /\ (Py.is_dict (Py.get p "condicoes") = false ->
      Py.is_list (Py.get p "condicoes") = false ->
      Fields.conditions_of p = PList [])
  /\ (Py.lookup p "condicoes" = None ->
      Fields.conditions_of p = PList []).
Proof.
  rewrite ConditionFacts.conditions_of_eq.
  unfold App.normalize_condicoes, Py.or.
  split; [|split; [|split; [|split]]].
  - intros d -> Hd. destruct d; [now elim Hd | reflexivity].
  - intros l ->. now destruct l.
  - intros ->. reflexivity.
  - intros Hd Hl.
    destruct (Py.get p "condicoes"); try discriminate;
      try reflexivity; now destruct (Py.truthy _).
  - intros H. unfold Py.get. now rewrite H.
Qed.

Lemma conditions_shape_witness :
  Fields.conditions_of
    [("condicoes", PDict [("tipo", PStr "desconto"); ("valor", PStr "10%")])]
  = PList [PDict [("tipo", PStr "desconto"); ("valor", PStr "10%")]]
  /\ Fields.conditions_of [("condicoes", PNone)] = PList []
  /\ Fields.conditions_of [("condicoes", PStr "10% off")] = PList []
  /\ Fields.conditions_of [("marca", PStr "Omo")] = PList [].
Proof.
  split; [|split; [|split]].
  - refine (proj1 (conditions_shape _) _ _ _); [reflexivity | discriminate].
  - refine (proj1 (proj2 (proj2 (proj2 (conditions_shape _)))) _ _); reflexivity.
  - refine (proj1 (proj2 (proj2 (proj2 (conditions_shape _)))) _ _); reflexivity.
  - refine (proj2 (proj2 (proj2 (proj2 (conditions_shape _)))) _); reflexivity.
Defined.

(** C6, the claim as stated fails: the record produced for a conditions
    sequence with an element that is no mapping still holds that element. *)
Lemma non_mapping_kept_by_normalizer :
  Fields.conditions_of
    [("condicoes", PList [PStr "leve 3"; PDict [("tipo", PStr "data")]])]
  = PList [PStr "leve 3"; PDict [("tipo", PStr "data")]]
  /\ Fields.all_mappings
       [PStr "leve 3"; PDict [("tipo", PStr "data")]] = false.
Proof. split; reflexivity. Qed.

(** C6, amended. The record produced for a raw conditions sequence holds
    the sequence unchanged, elements that are no mappings included; these
    are dropped, without failure, when the conditions column of the table
    is rendered: the column joins the renderings of the mappings only. *)
Theorem non_mappings_dropped_at_rendering
    (filename : string) (p : pydict) (l : list pyval) :
  Py.get p "condicoes" = PList l ->
  Fields.conditions_of p = PList l
  /\ exists r,
       App.normalize_product p = PDict r
       /\ App.condicoes_str r
          = Str.join "; " (map App.render_condition (Fields.mappings l))
       /\ App.records (App.build_dataframe [(filename, r)])
          = [App.build_record (filename, r)]
       /\ Py.get (App.build_record (filename, r)) "condicoes"
          = PStr (Str.join "; " (map App.render_condition
                                     (Fields.mappings l))).
Proof.
  intros H.
  assert (Hc : Fields.conditions_of p = PList l).
  { rewrite ConditionFacts.conditions_of_eq, H.
    unfold App.normalize_condicoes, Py.or. now destruct l. }
  split; [exact Hc|].
  unfold Fields.conditions_of in Hc.
  unfold App.normalize_product in *. cbv zeta in *.
  eexists. split; [reflexivity|].
  match goal with
  | |- App.condicoes_str ?r = _ /\ _ =>
      assert (Hs : App.condicoes_str r
                   = Str.join "; " (map App.render_condition
                                        (Fields.mappings l)))
        by (apply ConditionFacts.condicoes_str_list; exact Hc)
  end.
  split; [exact Hs|]. split.
  - now rewrite ConditionFacts.build_dataframe_records.
  - cbn [App.build_record]. unfold Py.get at 1. cbn [Py.lookup String.eqb
      Ascii.eqb Bool.eqb]. now rewrite Hs.
Qed.

Lemma non_mappings_dropped_at_rendering_witness :
  Fields.conditions_of
    [("condicoes", PList [PStr "leve 3";
                          PDict [("tipo", PStr "data"); ("valor", PStr "ate 5/1")]])]
  = PList [PStr "leve 3";
           PDict [("tipo", PStr "data"); ("valor", PStr "ate 5/1")]].
Proof.
  refine (proj1 (non_mappings_dropped_at_rendering "a.png" _ _ _)).
  reflexivity.
Defined.

(** C8, the claim as stated fails: the conditions of the claim render as
    "outro: ; outro: ", because the keys read are tipo and valor; and with
    these keys they render as "discount: 10%; outro: until 5/1", because the
    word put for a missing or empty kind is outro. *)
Lemma conditions_rendering_counterexample :
  App.condicoes_str
    [("condicoes",
      PList [PDict [("kind", PStr "discount"); ("value", PStr "10%")];
             PDict [("kind", PStr ""); ("value", PStr "until 5/1")]])]
  = "outro: ; outro: "
  /\ App.condicoes_str
       [("condicoes",
         PList [PDict [("tipo", PStr "discount"); ("valor", PStr "10%")];
                PDict [("tipo", PStr ""); ("valor", PStr "until 5/1")]])]
     = "discount: 10%; outro: until 5/1"
  /\ "outro: ; outro: " <> "discount: 10%; other: until 5/1"
  /\ "discount: 10%; outro: until 5/1" <> "discount: 10%; other: until 5/1".
Proof. repeat split; try reflexivity; discriminate. Qed.

(** C8, amended. The conditions column of a row joins, with "; " between
    them, the renderings of the conditions that are mappings; a condition
    renders as its tipo, or outro when tipo is missing or empty, then ": ",
    then its valor, or nothing when valor is missing or empty.  The
    conditions tipo discount, valor 10% and tipo empty, valor until 5/1
    render as "discount: 10%; outro: until 5/1". *)
Theorem conditions_rendering :
  (forall filename product l,
      Py.get product "condicoes" = PList l ->
      Py.get (App.build_record (filename, product)) "condicoes"
      = PStr (Str.join "; " (map App.render_condition
                                 (Fields.mappings l))))
  /\ (forall rows, App.records (App.build_dataframe rows)
                   = map App.build_record rows)
  /\ (forall c, App.render_condition c
                = Py.str (if Py.truthy (Py.get c "tipo")
                          then Py.get c "tipo" else PStr "outro")
                  ++ ": "
                  ++ Py.str (if Py.truthy (Py.get c "valor")
                             then Py.get c "valor" else PStr ""))
  /\ (forall c kind value,
        Py.get c "tipo" = PStr kind -> Py.get c "valor" = PStr value ->
        App.render_condition c
        = (if String.eqb kind "" then "outro" else kind) ++ ": " ++ value)
  /\ (forall c value,
        Py.lookup c "tipo" = None -> Py.get c "valor" = PStr value ->
        App.render_condition c = "outro: " ++ value)
  /\ Py.get (App.build_record
               ("a.png",
                [("condicoes",
                  PList [PDict [("tipo", PStr "discount"); ("valor", PStr "10%")];
                         PDict [("tipo", PStr ""); ("valor", PStr "until 5/1")]])]))
            "condicoes"
     = PStr "discount: 10%; outro: until 5/1".
Proof.
  split; [|split; [|split; [|split; [|split]]]].
  - intros filename product l H. cbn [App.build_record].
    unfold Py.get at 1. cbn [Py.lookup String.eqb Ascii.eqb Bool.eqb].
    now rewrite (ConditionFacts.condicoes_str_list product l H).
  - exact ConditionFacts.build_dataframe_records.
  - reflexivity.
  - intros c kind value Hk Hv. unfold App.render_condition, Py.or.
    rewrite Hk, Hv. cbn [Py.truthy].
    destruct (String.eqb kind "") eqn:E; cbn [negb Py.str].
    + f_equal. f_equal. now destruct (String.eqb value "") eqn:E2;
        [apply String.eqb_eq in E2; subst|].
    + f_equal. f_equal. now destruct (String.eqb value "") eqn:E2;
        [apply String.eqb_eq in E2; subst|].
  - intros c value Hk Hv. unfold App.render_condition, Py.or.
    unfold Py.get at 1 2. rewrite Hk, Hv. cbn [Py.truthy Py.str].
    simpl. f_equal. f_equal. f_equal. f_equal. f_equal. f_equal. f_equal.
    now destruct (String.eqb value "") eqn:E2;
      [apply String.eqb_eq in E2; subst|].
  - reflexivity.
Qed.

Lemma conditions_rendering_witness :
  App.render_condition [("tipo", PStr "desconto"); ("valor", PStr "10%")]
  = "desconto: 10%"
  /\ App.render_condition [("valor", PStr "ate 5/1")] = "outro: ate 5/1".
Proof.
  split.
  - exact (proj1 (proj2 (proj2 (proj2 conditions_rendering)))
             [("tipo", PStr "desconto"); ("valor", PStr "10%")]
             "desconto" "10%" eq_refl eq_refl).
  - exact (proj1 (proj2 (proj2 (proj2 (proj2 conditions_rendering))))
             [("valor", PStr "ate 5/1")] "ate 5/1" eq_refl eq_refl).
Defined.

(* ===================================================================== *)
(** * Response parsing *)
(* ===================================================================== *)

Module ParserFacts.
Import App.

(** A text that starts with an opening and ends with a closing brace is
    its own recovery text: the retry parses the same text again. *)
Lemma load_payload_object (mid : string) :
  load_payload (String "{" (mid ++ "}")) = Json.loads (String "{" (mid ++ "}")).
Proof.
  unfold load_payload.
  destruct (Json.loads (String "{" (mid ++ "}"))) as [payload|e] eqn:E;
    [reflexivity|].
  destruct e; try reflexivity.
  destruct (StrFacts.recovery_slice "" mid "" eq_refl eq_refl) as (Hf & Hr & Hs).
  cbn [append] in Hf, Hr, Hs.
  apply Z.eqb_neq in Hf, Hr. rewrite Hf, Hr, Hs. exact E.
Qed.

(** When strict parsing fails, the retry parses the text from the first
    opening to the last closing brace. *)
Lemma load_payload_recovered (pre mid post : string) :
  Str.contains pre "{" = false ->
  Str.contains post "}" = false ->
  Json.loads (pre ++ String "{" (mid ++ String "}" post)) = Raise JSONDecodeError ->
  load_payload (pre ++ String "{" (mid ++ String "}" post))
  = Json.loads (String "{" (mid ++ "}")).
Proof.
  intros Hpre Hpost E. unfold load_payload. rewrite E.
  destruct (StrFacts.recovery_slice pre mid post Hpre Hpost) as (Hf & Hr & Hs).
  apply Z.eqb_neq in Hf, Hr. now rewrite Hf, Hr, Hs.
Qed.

Lemma load_payload_no_braces (content : string) :
  Json.loads content = Raise JSONDecodeError ->
  Str.contains content "{" = false \/ Str.contains content "}" = false ->
  load_payload content = Ok (PDict [("products", PList [])]).
Proof.
  intros E H. unfold load_payload. rewrite E.
  now rewrite (StrFacts.recovery_absent content H).
Qed.

(** The [try] block, with the recovery text in place of the index
    arithmetic. *)
Lemma load_payload_spec (content : string) :
  load_payload content
  = match Json.loads content with
    | Ok payload => Ok payload
    | Raise JSONDecodeError =>
        match Recovery.recovery_text content with
        | Some text => Json.loads text
        | None => Ok (PDict [("products", PList [])])
        end
    | Raise e => Raise e
    end.
Proof.
  unfold load_payload, Recovery.recovery_text.
  destruct (Json.loads content) as [payload|e]; [reflexivity|].
  destruct e; try reflexivity.
  destruct (Str.contains content "{") eqn:Ho;
    [destruct (Str.contains content "}") eqn:Hc|]; cbn [andb].
  - destruct (StrFacts.recovery_general content Ho Hc) as (Hf & Hr & Hs).
    apply Z.eqb_neq in Hf, Hr. now rewrite Hf, Hr, Hs.
  - now rewrite (StrFacts.recovery_absent content (or_intror Hc)).
  - now rewrite (StrFacts.recovery_absent content (or_introl Ho)).
Qed.

Lemma recovery_text_between (pre mid post : string) :
  Str.contains pre "{" = false ->
  Str.contains post "}" = false ->
  Recovery.recovery_text (pre ++ String "{" (mid ++ String "}" post))
  = Some (String "{" (mid ++ "}")).
Proof.
  intros Hpre Hpost. unfold Recovery.recovery_text.
  assert (Ho : Str.contains (pre ++ String "{" (mid ++ String "}" post)) "{"
               = true).
  { rewrite StrFacts.contains_append. cbn [Str.contains].
    now rewrite Ascii.eqb_refl, orb_true_r. }
  assert (Hc : Str.contains (pre ++ String "{" (mid ++ String "}" post)) "}"
               = true).
  { rewrite StrFacts.contains_append. cbn [Str.contains].
    rewrite StrFacts.contains_append. cbn [Str.contains].
    now rewrite Ascii.eqb_refl, !orb_true_r. }
  rewrite Ho, Hc. cbn [andb].
  rewrite StrFacts.after_first_found by assumption.
  replace (String "{" (mid ++ String "}" post))
    with (String "{" mid ++ String "}" post) by reflexivity.
  now rewrite StrFacts.upto_last_found.
Qed.

Lemma load_payload_strict (content : string) (payload : pyval) :
  Json.loads content = Ok payload -> load_payload content = Ok payload.
Proof. intros E. unfold load_payload. now rewrite E. Qed.

(** A payload whose [products] is missing or falsy has no products. *)
Lemma products_of_payload_falsy (d : pydict) :
  Py.truthy (Py.get_default d "products" (PList [])) = false ->
  products_of_payload (PDict d) = Ok [].
Proof.
  intros H. unfold products_of_payload, get_products, Py.or.
  now rewrite H.
Qed.

(** The exceptions the parser can raise: those of [json.loads], on the
    strict parse or on the retry, and those of a payload, a products value
    or a product of the wrong type. *)
Lemma normalize_all_error (items : list pyval) (e : exn) :
  normalize_all items = Raise e -> e = AttributeError.
Proof.
  induction items as [|v items IH]; cbn [normalize_all]; [discriminate|].
  destruct v; try (intros H; now inversion H).
  destruct (normalize_all items); cbn [bind]; [discriminate | exact IH].
Qed.

Lemma products_of_payload_error (payload : pyval) (e : exn) :
  products_of_payload payload = Raise e ->
  e = AttributeError \/ e = TypeError.
Proof.
  unfold products_of_payload.
  destruct (get_products payload) as [products|e'] eqn:Eg; cbn [bind].
  - destruct (iterate products) as [items|e'] eqn:Ei; cbn [bind].
    + intros H. left. now apply normalize_all_error in H.
    + intros H. inversion H; subst. right.
      destruct products; inversion Ei; reflexivity.
  - intros H. inversion H; subst. left.
    destruct payload; inversion Eg; reflexivity.
Qed.

Lemma products_of_content_errors (content : string) (e : exn) :
  products_of_content content = Raise e ->
  e = JSONDecodeError \/ e = ValueError \/ e = AttributeError \/ e = TypeError.
Proof.
  unfold products_of_content.
  destruct (load_payload content) as [payload|e'] eqn:El; cbn [bind].
  - intros H. apply products_of_payload_error in H. tauto.
  - intros H. inversion H; subst. unfold load_payload in El.
    destruct (Json.loads content) as [p|e0] eqn:E0; [discriminate|].
    destruct (JsonFacts.loads_errors content e0 E0) as [-> | ->].
    + destruct (_ && _) in El; [|discriminate].
      destruct (JsonFacts.loads_errors _ _ El); tauto.
    + inversion El. tauto.
Qed.

End ParserFacts.

(** C1, the claim as stated fails: on the text "{a}" strict parsing fails,
    the retry on the same text fails too, and the decode error of the retry
    is raised to the caller; on the text "[1, 2]" strict parsing succeeds
    with a list, which has no get, and the parser raises as well. *)
Lemma response_parser_raises :
  Json.loads "{a}" = Raise JSONDecodeError
  /\ Recovery.recovery_text "{a}" = Some "{a}"
  /\ App.products_of_content "{a}" = Raise JSONDecodeError
  /\ Json.loads "[1, 2]" = Ok (PList [PInt 1; PInt 2])
  /\ App.products_of_content "[1, 2]" = Raise AttributeError.
Proof. repeat split; vm_compute; reflexivity. Qed.

(** C1, amended. When strict parsing succeeds its payload is used.  When it
    fails with a decode error, the parser retries on the substring from the
    first opening to the last closing brace, both included, if the text has
    both, and returns zero products if it has not; the payload of the retry
    is used, and an error of the retry is raised to the caller.  A payload
    that is a mapping without the key products gives zero products. *)
Theorem response_parser_recovery (content : string) :
  App.products_of_content content
  = match Json.loads content with
    | Ok payload => App.products_of_payload payload
    | Raise JSONDecodeError =>
        match Recovery.recovery_text content with
        | Some text =>
            payload <- Json.loads text ;; App.products_of_payload payload
        | None => Ok []
        end
    | Raise e => Raise e
    end
  /\ (forall pre mid post,
        content = pre ++ String "{" (mid ++ String "}" post) ->
        Str.contains pre "{" = false ->
        Str.contains post "}" = false ->
        Recovery.recovery_text content = Some (String "{" (mid ++ "}")))
  /\ (Str.contains content "{" = false \/ Str.contains content "}" = false ->
      Recovery.recovery_text content = None)
  /\ (forall d, Py.lookup d "products" = None ->
                App.products_of_payload (PDict d) = Ok []).
Proof.
  split; [|split; [|split]].
  - unfold App.products_of_content.
    rewrite ParserFacts.load_payload_spec.
    destruct (Json.loads content) as [payload|e]; [reflexivity|].
    destruct e; try reflexivity.
    now destruct (Recovery.recovery_text content).
  - intros pre mid post -> Hpre Hpost.
    now apply ParserFacts.recovery_text_between.
  - unfold Recovery.recovery_text. intros [H|H]; rewrite H;
      [reflexivity | now rewrite andb_false_r].
  - intros d H. apply ParserFacts.products_of_payload_falsy.
    unfold Py.get_default. now rewrite H.
Qed.

Lemma response_parser_recovery_witness :
  Recovery.recovery_text (Str.dq "Segue: {'items': [{}]} fim")
  = Some (Str.dq "{'items': [{}]}")
  /\ Recovery.recovery_text "Nenhuma oferta encontrada." = None
  /\ App.products_of_payload (PDict [("items", PList [PDict []])]) = Ok [].
Proof.
  split; [|split].
  - exact (proj1 (proj2 (response_parser_recovery _))
             "Segue: " (Str.dq "'items': [{}]") " fim" eq_refl eq_refl eq_refl).
  - exact (proj1 (proj2 (proj2
             (response_parser_recovery "Nenhuma oferta encontrada.")))
             (or_introl eq_refl)).
  - exact (proj2 (proj2 (proj2 (response_parser_recovery "")))
             [("items", PList [PDict []])] eq_refl).
Defined.

(** C2, the claim as stated fails: an object wrapped in "[" and "]", which
    hold no brace, is a JSON array; strict parsing succeeds, the payload is
    a list, and the parser raises instead of giving the products of the
    bare object. *)
Lemma embedded_in_brackets_raises :
  Str.contains "[" "{" = false /\ Str.contains "[" "}" = false
  /\ Str.contains "]" "{" = false /\ Str.contains "]" "}" = false
  /\ Json.loads "[" = Raise JSONDecodeError
  /\ Json.loads "]" = Raise JSONDecodeError
  /\ App.products_of_content
       ("[" ++ Str.dq "{'products': [{'nome': 'Arroz 5kg'}]}" ++ "]")
     = Raise AttributeError
  /\ is_ok (App.products_of_content
              (Str.dq "{'products': [{'nome': 'Arroz 5kg'}]}")) = true.
Proof. repeat split; vm_compute; reflexivity. Qed.

(** C2, amended. An object, a text from an opening to a closing brace,
    stands between a leading text without opening brace and a trailing
    text without closing brace.  When the whole response is not itself a
    JSON document, the parser gives for it what it gives for the bare
    object; for an object that maps products to a list, both give the
    normalised records of that list.  When the whole response is a JSON
    document, its own payload is used. *)
Theorem embedded_object_recovered (pre mid post : string) :
  Str.contains pre "{" = false ->
  Str.contains post "}" = false ->
  let whole := pre ++ String "{" (mid ++ String "}" post) in
  let object := String "{" (mid ++ "}") in
  App.products_of_content whole
  = match Json.loads whole with
    | Ok payload => App.products_of_payload payload
    | Raise JSONDecodeError => App.products_of_content object
    | Raise e => Raise e
    end
  /\ (Json.loads whole = Raise JSONDecodeError ->
      App.products_of_content whole = App.products_of_content object)
  /\ (forall l,
        Json.loads whole = Raise JSONDecodeError ->
        Json.loads object = Ok (PDict [("products", PList l)]) ->
        App.products_of_content whole = App.normalize_all l
        /\ App.products_of_content object = App.normalize_all l).
Proof.
  intros Hpre Hpost whole object.
  assert (Ho : App.products_of_content object
               = (payload <- Json.loads object ;; App.products_of_payload payload)).
  { unfold App.products_of_content, object.
    now rewrite ParserFacts.load_payload_object. }
  assert (H : Json.loads whole = Raise JSONDecodeError ->
              App.products_of_content whole = App.products_of_content object).
  { intros E. rewrite Ho. unfold App.products_of_content, whole, object.
    now rewrite ParserFacts.load_payload_recovered. }
  split; [|split].
  - destruct (Json.loads whole) as [payload|e] eqn:E.
    + unfold App.products_of_content.
      now rewrite (ParserFacts.load_payload_strict whole payload E).
    + destruct e; try (now apply H);
        unfold App.products_of_content, App.load_payload; now rewrite E.
  - exact H.
  - intros l E El. rewrite (H E), Ho, El. cbn [bind].
    split; now destruct l.
Qed.

Lemma embedded_object_recovered_witness :
  App.products_of_content
    ("Aqui esta o resultado: "
       ++ String "{" (Str.dq "'products': [{'nome': 'Arroz 5kg'}]"
                        ++ String "}" " Espero ter ajudado!"))
  = App.products_of_content
      (String "{" (Str.dq "'products': [{'nome': 'Arroz 5kg'}]" ++ "}")).
Proof.
  refine (proj1 (proj2 (embedded_object_recovered _ _ _ _ _)) _);
    vm_compute; reflexivity.
Defined.

(** C10. When the payload, parsed strictly or recovered, maps the key
    products to a falsy value (null, false, zero, an empty string, list or
    object), the parser returns the empty product list. *)
Theorem falsy_products_empty (content : string) (d : pydict) (v : pyval) :
  App.load_payload content = Ok (PDict d) ->
  Py.lookup d "products" = Some v ->
  Py.truthy v = false ->
  App.products_of_content content = Ok [].
Proof.
  intros Hl Hk Hv. unfold App.products_of_content. rewrite Hl.
  apply ParserFacts.products_of_payload_falsy.
  unfold Py.get_default. now rewrite Hk.
Qed.

Lemma falsy_products_empty_witness :
  App.products_of_content (Str.dq "{'products': null}") = Ok []
  /\ App.products_of_content (Str.dq "{'products': {}}") = Ok []
  /\ App.products_of_content (Str.dq "ok {'products': 0} ok") = Ok [].
Proof.
  split; [|split].
  - refine (falsy_products_empty _ [("products", PNone)] PNone _ _ _);
      vm_compute; reflexivity.
  - refine (falsy_products_empty _ [("products", PDict [])] (PDict []) _ _ _);
      vm_compute; reflexivity.
  - refine (falsy_products_empty _ [("products", PInt 0)] (PInt 0) _ _ _);
      vm_compute; reflexivity.
Defined.

(* ===================================================================== *)
(** * The batch loop *)
(* ===================================================================== *)

Module BatchFacts.
Import App Batch.

Section Outcomes.

Variable World : Type.
Variable create : request -> World -> World * result response.
Variable model : string.

Lemma outcomes_length (images : list (string * string)) (w : World) :
  List.length (outcomes World create model images w) = List.length images.
Proof.
  revert w. induction images as [|[f b] images IH]; intros w; [reflexivity|].
  cbn [outcomes].
  destruct (extract_products_from_image World create model b f w) as [w' r].
  cbn [List.length]. now rewrite IH.
Qed.

(** Every image is processed: the loop collects the records of each image
    that succeeds and reports each image that fails. *)
Lemma process_images_outcomes (images : list (string * string)) (w : World)
    (acc : batch) :
  collected (snd (process_images World create model images w acc))
  = (collected acc
     ++ flat_map contribution (outcomes World create model images w))%list
  /\ reported (snd (process_images World create model images w acc))
     = (reported acc
        ++ flat_map failure (outcomes World create model images w))%list.
Proof.
  revert w acc.
  induction images as [|[f b] images IH]; intros w acc.
  - cbn. now rewrite !app_nil_r.
  - cbn [process_images outcomes].
    destruct (extract_products_from_image World create model b f w) as [w' [ps|ex]].
    + destruct (IH w' (Batch (collected acc ++ map (pair f) ps)%list (reported acc)))
        as [Hc Hr].
      rewrite Hc, Hr. cbn [collected reported flat_map contribution failure fst snd].
      now rewrite app_assoc.
    + destruct (IH w' (Batch (collected acc) (reported acc ++ [(f, ex)])%list))
        as [Hc Hr].
      rewrite Hc, Hr. cbn [collected reported flat_map contribution failure fst snd].
      now rewrite <- app_assoc.
Qed.

(** A model call that raises makes the processing of its image raise. *)
Lemma extract_raises (b f : string) (w w' : World) (ex : exn) :
  create (Request model b f) w = (w', Raise ex) ->
  extract_products_from_image World create model b f w = (w', Raise ex).
Proof. intros H. unfold extract_products_from_image. now rewrite H. Qed.

End Outcomes.

End BatchFacts.

(** C9. In a batch of three images where the model call of the second one
    raises while the first and the third are processed, the loop collects
    the records of the first image followed by those of the third, each
    with its file name, reports the second, and the number of records is
    the sum of the product counts of the first and the third image.  In
    any batch every image is processed, and the records collected are
    those of the images that succeed, in order. *)
Theorem batch_continues_after_failure
    (World : Type) (create : App.request -> World -> World * result App.response)
    (model f1 b1 f2 b2 f3 b3 : string) (w0 w1 w2 w3 : World)
    (ps1 ps3 : list pyval) (ex : exn) :
  App.extract_products_from_image World create model b1 f1 w0 = (w1, Ok ps1) ->
  create (App.Request model b2 f2) w1 = (w2, Raise ex) ->
  App.extract_products_from_image World create model b3 f3 w2 = (w3, Ok ps3) ->
  App.run_batch World create model [(f1, b1); (f2, b2); (f3, b3)] w0
  = (w3, App.Batch (map (pair f1) ps1 ++ map (pair f3) ps3)%list [(f2, ex)])
  /\ List.length
       (App.collected
          (snd (App.run_batch World create model
                  [(f1, b1); (f2, b2); (f3, b3)] w0)))
     = (List.length ps1 + List.length ps3)%nat
  /\ (forall images w,
        App.collected (snd (App.run_batch World create model images w))
        = flat_map Batch.contribution (Batch.outcomes World create model images w)
        /\ List.length (Batch.outcomes World create model images w)
           = List.length images).
Proof.
  intros H1 H2 H3.
  apply (BatchFacts.extract_raises World create model) in H2.
  assert (H : App.run_batch World create model [(f1, b1); (f2, b2); (f3, b3)] w0
              = (w3, App.Batch (map (pair f1) ps1 ++ map (pair f3) ps3)%list
                               [(f2, ex)])).
  { unfold App.run_batch. cbn [App.process_images].
    rewrite H1. cbn [App.collected App.reported app].
    rewrite H2. cbn [App.collected App.reported app].
    rewrite H3. cbn [App.collected App.reported app]. reflexivity. }
  split; [exact H|]. split.
  - rewrite H. cbn [snd App.collected].
    now rewrite length_app, !length_map.
  - intros images w. split.
    + unfold App.run_batch.
      now rewrite (proj1 (BatchFacts.process_images_outcomes
                            World create model images w (App.Batch [] []))).
    + apply BatchFacts.outcomes_length.
Qed.

Lemma batch_continues_after_failure_witness :
  List.length
    (App.collected
       (snd (App.run_batch nat Batch.sample_create "gpt-4o-mini"
               [("a.png", "A"); ("b.png", "B"); ("c.png", "C")] 0%nat)))
  = (2 + 1)%nat.
Proof.
  refine (eq_trans
    (proj1 (proj2 (batch_continues_after_failure nat Batch.sample_create
              "gpt-4o-mini" "a.png" "A" "b.png" "B" "c.png" "C"
              0%nat 1%nat 2%nat 3%nat
              [App.normalize_product [("nome", PStr "Arroz")];
               App.normalize_product [("nome", PStr "Feijao")]]
              [App.normalize_product [("nome", PStr "Cafe")]]
              (APIError "timeout") _ _ _))) _);
    vm_compute; reflexivity.
Defined.

(* ===================================================================== *)
(** * Images: the data URL *)
(* ===================================================================== *)

Module ImageFacts.
Import Base64 Images.

Ltac euclid := zify; Z.to_euclidean_division_equations; lia.

Lemma value_digit (n : nat) : (n < 64)%nat -> value (digit n) = Some n.
Proof.
  intros H.
  assert (A : forallb (fun k => match value (digit k) with
                                | Some m => Nat.eqb m k
                                | None => false
                                end) (seq 0 64) = true)
    by (vm_compute; reflexivity).
  rewrite forallb_forall in A.
  specialize (A n). rewrite in_seq in A.
  assert (Hn : (0 <= n < 0 + 64)%nat) by lia.
  specialize (A Hn).
  destruct (value (digit n)) as [m|]; [|discriminate].
  apply Nat.eqb_eq in A. now subst.
Qed.

Lemma byte_bound (a : ascii) : (nat_of_ascii a < 256)%nat.
Proof. apply nat_ascii_bounded. Qed.

Lemma byte_of (a : ascii) (n : nat) : n = nat_of_ascii a -> ascii_of_nat n = a.
Proof. intros ->. apply ascii_nat_embedding. Qed.

(** The last group of one byte. *)
Lemma decode_one (a : ascii) :
  b64decode (b64encode (String a "")) = Some (String a "").
Proof.
  pose proof (byte_bound a) as Ha.
  cbn [b64encode b64decode].
  rewrite (value_digit (nat_of_ascii a / 4)),
          (value_digit (nat_of_ascii a mod 4 * 16)) by euclid.
  change (value "=") with (@None nat).
  cbn [Ascii.eqb Bool.eqb String.eqb andb].
  f_equal. f_equal. apply byte_of. euclid.
Qed.

Lemma decode_two (a b : ascii) :
  b64decode (b64encode (String a (String b ""))) = Some (String a (String b "")).
Proof.
  pose proof (byte_bound a) as Ha. pose proof (byte_bound b) as Hb.
  cbn [b64encode b64decode].
  rewrite (value_digit (nat_of_ascii a / 4)),
          (value_digit (nat_of_ascii a mod 4 * 16 + nat_of_ascii b / 16)),
          (value_digit (nat_of_ascii b mod 16 * 4)) by euclid.
  change (value "=") with (@None nat).
  cbn [Ascii.eqb Bool.eqb String.eqb andb].
  f_equal. f_equal; [|f_equal]; apply byte_of; euclid.
Qed.

Lemma decode_three (a b c : ascii) (rest : string) :
  b64decode (b64encode (String a (String b (String c rest))))
  = option_map (fun t => String a (String b (String c t)))
               (b64decode (b64encode rest)).
Proof.
  pose proof (byte_bound a) as Ha. pose proof (byte_bound b) as Hb.
  pose proof (byte_bound c) as Hc.
  cbn [b64encode b64decode].
  rewrite (value_digit (nat_of_ascii a / 4)),
          (value_digit (nat_of_ascii a mod 4 * 16 + nat_of_ascii b / 16)),
          (value_digit (nat_of_ascii b mod 16 * 4 + nat_of_ascii c / 64)),
          (value_digit (nat_of_ascii c mod 64)) by euclid.
  assert (E1 : ascii_of_nat
                 (nat_of_ascii a / 4 * 4
                  + (nat_of_ascii a mod 4 * 16 + nat_of_ascii b / 16) / 16) = a)
    by (apply byte_of; euclid).
  assert (E2 : ascii_of_nat
                 ((nat_of_ascii a mod 4 * 16 + nat_of_ascii b / 16) mod 16 * 16
                  + (nat_of_ascii b mod 16 * 4 + nat_of_ascii c / 64) / 4) = b)
    by (apply byte_of; euclid).
  assert (E3 : ascii_of_nat
                 ((nat_of_ascii b mod 16 * 4 + nat_of_ascii c / 64) mod 4 * 64
                  + nat_of_ascii c mod 64) = c)
    by (apply byte_of; euclid).
  rewrite E1, E2, E3. reflexivity.
Qed.

(** Decoding undoes encoding. *)
Lemma b64_round_trip (s : string) : b64decode (b64encode s) = Some s.
Proof.
  enough (H : b64decode (b64encode s) = Some s
              /\ (forall a, b64decode (b64encode (String a s)) = Some (String a s))
              /\ (forall a b, b64decode (b64encode (String a (String b s)))
                              = Some (String a (String b s))))
    by apply H.
  induction s as [|c s [IH0 [IH1 IH2]]].
  - split; [reflexivity|]. split; [apply decode_one | apply decode_two].
  - split; [apply IH1|]. split; [intros a; apply IH2|].
    intros a b. rewrite decode_three, IH0. reflexivity.
Qed.

Lemma length_b64encode (s : string) :
  String.length (b64encode s) = (4 * ((String.length s + 2) / 3))%nat.
Proof.
  enough (H : String.length (b64encode s) = (4 * ((String.length s + 2) / 3))%nat
              /\ (forall a, String.length (b64encode (String a s))
                            = (4 * ((String.length (String a s) + 2) / 3))%nat)
              /\ (forall a b, String.length (b64encode (String a (String b s)))
                              = (4 * ((String.length (String a (String b s)) + 2) / 3))%nat))
    by apply H.
  induction s as [|c s [IH0 [IH1 IH2]]].
  - split; [reflexivity|]. split; reflexivity.
  - split; [apply IH1|]. split; [intros a; apply IH2|].
    intros a b. cbn [b64encode String.length]. rewrite IH0. euclid.
Qed.

Lemma digit_symbol (n : nat) : (n < 64)%nat -> is_symbol (digit n) = true.
Proof.
  intros H.
  assert (A : forallb (fun k => is_symbol (digit k)) (seq 0 64) = true)
    by (vm_compute; reflexivity).
  rewrite forallb_forall in A. apply A. rewrite in_seq. lia.
Qed.

Lemma b64encode_symbols (s : string) : all_in is_symbol (b64encode s) = true.
Proof.
  enough (H : all_in is_symbol (b64encode s) = true
              /\ (forall a, all_in is_symbol (b64encode (String a s)) = true)
              /\ (forall a b, all_in is_symbol
                                (b64encode (String a (String b s))) = true))
    by apply H.
  induction s as [|c s [IH0 [IH1 IH2]]].
  - split; [reflexivity|]. split.
    + intros a. pose proof (byte_bound a).
      cbn [b64encode all_in]. rewrite !digit_symbol by euclid. reflexivity.
    + intros a b. pose proof (byte_bound a). pose proof (byte_bound b).
      cbn [b64encode all_in]. rewrite !digit_symbol by euclid. reflexivity.
  - split; [apply IH1|]. split; [intros a; apply IH2|].
    intros a b. pose proof (byte_bound a). pose proof (byte_bound b).
    pose proof (byte_bound c).
    cbn [b64encode all_in]. rewrite !digit_symbol by euclid. exact IH0.
Qed.

Lemma after_prefix_append (p s : string) : after_prefix p (p ++ s) = Some s.
Proof.
  induction p as [|c p IH]; [reflexivity|].
  cbn [append after_prefix]. now rewrite Ascii.eqb_refl.
Qed.

End ImageFacts.

(** X1. The data URL of an image can be read back: it is the text data:,
    the type, the text ;base64, and a base64 payload whose decoding gives
    the bytes of the image, whatever they are.  The type is never empty:
    it is the type guessed from the file name when there is one, and
    image/jpeg otherwise. *)
Theorem data_url_round_trip
    (guess_type : string -> option string) (image_bytes filename : string) :
  Images.decode_data_url
    (snd (Images.encode_image_to_data_url guess_type image_bytes filename))
    (fst (Images.encode_image_to_data_url guess_type image_bytes filename))
  = Some image_bytes
  /\ snd (Images.encode_image_to_data_url guess_type image_bytes filename) <> ""
  /\ snd (Images.encode_image_to_data_url guess_type image_bytes filename)
     = match guess_type filename with
       | Some "" | None => "image/jpeg"
       | Some mime => mime
       end.
Proof.
  unfold Images.encode_image_to_data_url, Images.decode_data_url.
  cbn [fst snd].
  split; [|split].
  - rewrite <- !StrFacts.append_assoc, ImageFacts.after_prefix_append.
    apply ImageFacts.b64_round_trip.
  - unfold Images.falsy. destruct (guess_type filename) as [m|]; [|discriminate].
    destruct (String.eqb_spec m ""); [discriminate | assumption].
  - unfold Images.falsy. destruct (guess_type filename) as [m|]; [|reflexivity].
    destruct (String.eqb_spec m "") as [->|Hne]; [reflexivity|].
    destruct m; [congruence | reflexivity].
Qed.

(** X2. The payload of the data URL is made of base64 characters only and
    has four characters for every three bytes of the image, the last
    group filled up: the URL is 13 characters, the type and
    4 * ceil(n / 3) characters long for an image of n bytes. *)
Theorem data_url_size
    (guess_type : string -> option string) (image_bytes filename : string) :
  exists payload,
    fst (Images.encode_image_to_data_url guess_type image_bytes filename)
    = "data:"
        ++ snd (Images.encode_image_to_data_url guess_type image_bytes filename)
        ++ ";base64," ++ payload
    /\ all_in Base64.is_symbol payload = true
    /\ String.length payload
       = (4 * ((String.length image_bytes + 2) / 3))%nat
    /\ String.length
         (fst (Images.encode_image_to_data_url guess_type image_bytes filename))
       = (13 + String.length
                 (snd (Images.encode_image_to_data_url guess_type image_bytes
                         filename))
          + 4 * ((String.length image_bytes + 2) / 3))%nat.
Proof.
  exists (Base64.b64encode image_bytes).
  unfold Images.encode_image_to_data_url. cbn [fst snd].
  split; [reflexivity|].
  split; [apply ImageFacts.b64encode_symbols|].
  split; [apply ImageFacts.length_b64encode|].
  cbn [append String.length].
  rewrite StrFacts.length_append. cbn [append String.length].
  rewrite ImageFacts.length_b64encode. lia.
Qed.

(* ===================================================================== *)
(** * Sample images *)
(* ===================================================================== *)

Module SampleFacts.
Import Samples.

(** ** The order of strings *)

Lemma ascii_compare_refl (a : ascii) : Ascii.compare a a = Eq.
Proof. unfold Ascii.compare. apply N.compare_refl. Qed.

Lemma ascii_compare_lt_trans (a b c : ascii) :
  Ascii.compare a b = Lt -> Ascii.compare b c = Lt -> Ascii.compare a c = Lt.
Proof.
  unfold Ascii.compare. rewrite !N.compare_lt_iff. apply N.lt_trans.
Qed.

Lemma compare_lt_trans (a b c : string) :
  String.compare a b = Lt -> String.compare b c = Lt -> String.compare a c = Lt.
Proof.
  revert b c. induction a as [|x a IH]; intros [|y b] [|z c]; simpl;
    try discriminate; try reflexivity.
  destruct (Ascii.compare x y) eqn:Exy; try discriminate;
    destruct (Ascii.compare y z) eqn:Eyz; try discriminate; intros H1 H2.
  - apply Ascii.compare_eq_iff in Exy, Eyz. subst.
    rewrite ascii_compare_refl. now apply (IH b c).
  - apply Ascii.compare_eq_iff in Exy. subst. now rewrite Eyz.
  - apply Ascii.compare_eq_iff in Eyz. subst. now rewrite Exy.
  - now rewrite (ascii_compare_lt_trans x y z).
Qed.

Lemma le_trans (a b c : string) : le a b -> le b c -> le a c.
Proof.
  unfold le, String.leb. intros H1 H2.
  destruct (String.compare a b) eqn:Eab; try discriminate.
  - apply String.compare_eq_iff in Eab. now subst.
  - destruct (String.compare b c) eqn:Ebc; try discriminate.
    + apply String.compare_eq_iff in Ebc. subst. now rewrite Eab.
    + now rewrite (compare_lt_trans a b c).
Qed.

Lemma le_total (a b : string) : le a b \/ le b a.
Proof. apply String.leb_total. Qed.

Lemma le_antisym (a b : string) : le a b -> le b a -> a = b.
Proof. apply String.leb_antisym. Qed.

(** ** Sorting *)

Lemma insert_perm (x : string) (l : list string) :
  Permutation (insert x l) (x :: l).
Proof.
  induction l as [|y l IH]; simpl; [reflexivity|].
  destruct (String.leb x y); [reflexivity|].
  rewrite IH. apply perm_swap.
Qed.

Lemma sort_perm (l : list string) : Permutation (sort l) l.
Proof.
  induction l as [|x l IH]; simpl; [reflexivity|].
  rewrite insert_perm. now constructor.
Qed.

Lemma insert_sorted (x : string) (l : list string) :
  StronglySorted Samples.le l -> StronglySorted Samples.le (insert x l).
Proof.
  induction 1 as [|y l Hs IH Hy]; simpl.
  - repeat constructor.
  - destruct (String.leb x y) eqn:E.
    + constructor; [now constructor|].
      constructor; [exact E|].
      eapply Forall_impl; [|exact Hy]. intros z Hz. now apply (le_trans x y z).
    + constructor; [exact IH|].
      assert (Hyx : le y x) by (destruct (le_total x y) as [H|H]; [unfold le in H; congruence | exact H]).
      eapply Permutation_Forall; [symmetry; apply insert_perm|].
      now constructor.
Qed.

Lemma sort_sorted (l : list string) : StronglySorted Samples.le (sort l).
Proof.
  induction l as [|x l IH]; simpl; [constructor | now apply insert_sorted].
Qed.

(** A list has one sorted arrangement. *)
Lemma sorted_unique (l1 l2 : list string) :
  StronglySorted Samples.le l1 -> StronglySorted Samples.le l2 -> Permutation l1 l2 -> l1 = l2.
Proof.
  intros H1. revert l2. induction H1 as [|x l1 Hs1 IH Hx]; intros l2 H2 Hp.
  - apply Permutation_nil in Hp. now subst.
  - destruct H2 as [|y l2 Hs2 Hy].
    + symmetry in Hp. now apply Permutation_nil in Hp.
    + assert (Hxy : le x y).
      { assert (Hin : In y (x :: l1))
          by (eapply Permutation_in; [symmetry; exact Hp | now left]).
        destruct Hin as [->|Hin]; [unfold le; destruct (le_total y y); assumption|].
        rewrite Forall_forall in Hx. now apply Hx. }
      assert (Hyx : le y x).
      { assert (Hin : In x (y :: l2))
          by (eapply Permutation_in; [exact Hp | now left]).
        destruct Hin as [->|Hin]; [unfold le; destruct (le_total x x); assumption|].
        rewrite Forall_forall in Hy. now apply Hy. }
      assert (x = y) by now apply le_antisym. subst y.
      f_equal. apply IH; [exact Hs2|].
      now apply Permutation_cons_inv in Hp.
Qed.

Lemma sort_permuted (l1 l2 : list string) :
  Permutation l1 l2 -> sort l1 = sort l2.
Proof.
  intros Hp. apply sorted_unique; try apply sort_sorted.
  now rewrite !sort_perm.
Qed.

(** ** The loop *)

Lemma image_paths_filter (sample_dir : string) (names : list string) :
  image_paths sample_dir names
  = map (path_join sample_dir) (filter is_image_name names).
Proof.
  induction names as [|n names IH]; [reflexivity|].
  simpl. destruct (is_image_name n); simpl; now rewrite IH.
Qed.

Lemma filter_perm {A : Type} (f : A -> bool) (l1 l2 : list A) :
  Permutation l1 l2 -> Permutation (filter f l1) (filter f l2).
Proof.
  induction 1 as [|x l1 l2 Hp IH|x y l|l1 l2 l3 H12 IH12 H23 IH23]; simpl.
  - constructor.
  - destruct (f x); [now constructor | exact IH].
  - destruct (f x), (f y); try reflexivity. apply perm_swap.
  - now transitivity (filter f l2).
Qed.

(** ** Suffixes *)

Lemma prefix_append (p q : string) : prefix p (p ++ q) = true.
Proof.
  induction p as [|c p IH]; simpl; [now destruct q|].
  destruct (ascii_dec c c); [exact IH | congruence].
Qed.

Lemma endswith_append (a suffix : string) : endswith (a ++ suffix) suffix = true.
Proof. unfold endswith. rewrite StrFacts.rev_append. apply prefix_append. Qed.

Lemma endswith_split (s suffix : string) :
  endswith s suffix = true -> exists a, s = a ++ suffix.
Proof.
  unfold endswith. intros H. apply StrFacts.prefix_split in H as [t Ht].
  exists (Str.rev t).
  rewrite <- (StrFacts.rev_involutive s), Ht, StrFacts.rev_append.
  now rewrite StrFacts.rev_involutive.
Qed.

Lemma lower_append (a b : string) :
  Str.lower (a ++ b) = Str.lower a ++ Str.lower b.
Proof. induction a as [|c a IH]; simpl; [reflexivity | now rewrite IH]. Qed.

Lemma lower_split (s x y : string) :
  Str.lower s = x ++ y ->
  exists a b, s = a ++ b /\ Str.lower a = x /\ Str.lower b = y.
Proof.
  revert s. induction x as [|c x IH]; intros s H.
  - exists "", s. auto.
  - destruct s as [|d s]; [discriminate|].
    simpl in H. inversion H as [[Hc Hs]].
    destruct (IH s Hs) as (a & b & -> & Ha & Hb).
    exists (String d a), b. simpl. rewrite Ha. auto.
Qed.

(** ** Paths *)

Lemma basename_after_slash (a name : string) :
  Str.contains name "/" = false ->
  basename (a ++ String "/" name) = name.
Proof.
  intros H. unfold basename, Str.rfind.
  rewrite StrFacts.rfind_from_last by (assumption || lia).
  replace (a ++ String "/" name) with ((a ++ "/") ++ name ++ "")
    by (now rewrite StrFacts.append_assoc, StrFacts.append_nil_r).
  replace (0 + Str.len a + 1) with (Str.len (a ++ "/"))
    by (unfold Str.len; rewrite StrFacts.length_append; simpl; lia).
  replace (Str.len ((a ++ "/") ++ name ++ ""))
    with (Str.len (a ++ "/") + Str.len name)
    by (unfold Str.len; rewrite !StrFacts.length_append; simpl; lia).
  apply StrFacts.slice_middle.
Qed.

Lemma basename_plain (name : string) :
  Str.contains name "/" = false -> basename name = name.
Proof.
  intros H. unfold basename, Str.rfind.
  rewrite StrFacts.rfind_from_absent by assumption.
  change (-1 + 1) with 0. unfold Str.slice, Str.clamp, Str.len.
  change (0 <? 0) with false. cbv iota.
  destruct (Z.ltb_spec (Z.of_nat (String.length name)) 0); [lia|].
  rewrite Z.min_l, Z.min_id by lia.
  change (Z.to_nat 0) with O. rewrite Z.sub_0_r, Nat2Z.id.
  apply StrFacts.substring_full.
Qed.

(** A path made of a directory and a name is the directory, a slash unless
    the directory is empty or ends with one, and the name. *)
Lemma path_join_relative (path name : string) :
  Str.contains name "/" = false ->
  path_join path name = name /\ path = ""
  \/ exists a, path_join path name = a ++ String "/" name
               /\ (path = a \/ path = a ++ "/").
Proof.
  intros H. unfold path_join.
  assert (Hp : prefix "/" name = false).
  { rewrite StrFacts.prefix_char. destruct name as [|x name]; [reflexivity|].
    simpl in H. now apply orb_false_elim in H as [H _]. }
  rewrite Hp.
  destruct (String.eqb_spec path "") as [->|Hne]; [now left|].
  right. cbn [orb].
  destruct (endswith path "/") eqn:E.
  - apply endswith_split in E as [a ->]. exists a.
    rewrite StrFacts.append_assoc. auto.
  - exists path. auto.
Qed.

Lemma basename_path_join (path name : string) :
  Str.contains name "/" = false ->
  basename (path_join path name) = name.
Proof.
  intros H.
  destruct (path_join_relative path name H) as [[-> _]|(a & -> & _)].
  - now apply basename_plain.
  - now apply basename_after_slash.
Qed.

Lemma filter_map {A B : Type} (f : A -> B) (ok : B -> bool) (l : list A) :
  filter ok (map f l) = map f (filter (fun x => ok (f x)) l).
Proof.
  induction l as [|x l IH]; [reflexivity|].
  simpl. destruct (ok (f x)); simpl; now rewrite IH.
Qed.

Lemma filter_filter {A : Type} (f g : A -> bool) (l : list A) :
  filter g (filter f l) = filter (fun x => f x && g x) l.
Proof.
  induction l as [|x l IH]; [reflexivity|].
  simpl. destruct (f x); simpl; [destruct (g x)|]; now rewrite IH.
Qed.

(** The names that the loop of main gives to the samples. *)
Lemma load_samples_names (load : string -> option string)
    (paths : list string) :
  map fst (load_samples load paths)
  = map basename (filter (loads load) paths).
Proof.
  induction paths as [|path paths IH]; [reflexivity|].
  cbn [load_samples filter]. unfold loads at 1.
  destruct (load path); cbn [map fst]; now rewrite IH.
Qed.

Lemma list_sample_images_entries (fs : string -> directory)
    (sample_dir : string) (names : list string) :
  fs sample_dir = Entries names ->
  list_sample_images fs sample_dir
  = Some (sort (map (path_join sample_dir) (filter is_image_name names))).
Proof.
  intros H. unfold list_sample_images. now rewrite H, image_paths_filter.
Qed.

End SampleFacts.

(** X3. For a directory that can be read, the sample images are the paths
    of its entries whose name ends with .jpg, .jpeg or .png, each once for
    each entry, in ascending order; what is no directory has no sample
    images. *)
Theorem sample_images_sorted_and_exact
    (fs : string -> Samples.directory) (sample_dir : string) :
  match fs sample_dir with
  | Samples.Entries names =>
      exists paths,
        Samples.list_sample_images fs sample_dir = Some paths
        /\ StronglySorted Samples.le paths
        /\ Permutation paths
             (map (Samples.path_join sample_dir)
                  (filter Samples.is_image_name names))
  | Samples.NotADirectory =>
      Samples.list_sample_images fs sample_dir = Some []
  | Samples.Unreadable => Samples.list_sample_images fs sample_dir = None
  end.
Proof.
  destruct (fs sample_dir) as [| |names] eqn:E;
    try (unfold Samples.list_sample_images; now rewrite E).
  eexists. split; [exact (SampleFacts.list_sample_images_entries _ _ _ E)|].
  split; [apply SampleFacts.sort_sorted | apply SampleFacts.sort_perm].
Qed.

(** X4. The sample images do not depend on the order in which the
    directory is listed: two listings of the same entries give the same
    list of paths. *)
Theorem sample_images_order_independent
    (fs1 fs2 : string -> Samples.directory) (sample_dir : string)
    (names1 names2 : list string) :
  fs1 sample_dir = Samples.Entries names1 ->
  fs2 sample_dir = Samples.Entries names2 ->
  Permutation names1 names2 ->
  Samples.list_sample_images fs1 sample_dir
  = Samples.list_sample_images fs2 sample_dir.
Proof.
  intros H1 H2 Hp.
  rewrite (SampleFacts.list_sample_images_entries fs1 _ _ H1),
          (SampleFacts.list_sample_images_entries fs2 _ _ H2).
  f_equal. apply SampleFacts.sort_permuted.
  now apply Permutation_map, SampleFacts.filter_perm.
Qed.

Lemma sample_images_order_independent_witness :
  Samples.list_sample_images
    (fun _ => Samples.Entries ["b.PNG"; "notes.txt"; "a.jpg"]) "/data"
  = Samples.list_sample_images
      (fun _ => Samples.Entries ["a.jpg"; "b.PNG"; "notes.txt"]) "/data".
Proof.
  refine (sample_images_order_independent _ _ "/data"
            ["b.PNG"; "notes.txt"; "a.jpg"] ["a.jpg"; "b.PNG"; "notes.txt"]
            eq_refl eq_refl _).
  apply (perm_trans (l' := ["b.PNG"; "a.jpg"; "notes.txt"]));
    [apply perm_skip, perm_swap | apply perm_swap].
Defined.

(** X5. A file is taken for a sample image exactly when its name ends with
    .jpg, .jpeg or .png in any capitalisation. *)
Theorem image_suffix_any_case (name : string) :
  Samples.is_image_name name = true
  <-> exists stem ext,
        name = stem ++ ext /\ In (Str.lower ext) Samples.suffixes.
Proof.
  unfold Samples.is_image_name, Samples.suffixes. split.
  - intros H. apply orb_true_iff in H as [H|H];
      [apply orb_true_iff in H as [H|H]|];
      apply SampleFacts.endswith_split in H as [x Hx];
      apply SampleFacts.lower_split in Hx as (a & b & -> & _ & Hb);
      exists a, b; rewrite Hb; simpl; auto.
  - intros (stem & ext & -> & Hin). rewrite SampleFacts.lower_append.
    destruct Hin as [<-|[<-|[<-|[]]]]; rewrite SampleFacts.endswith_append;
      now rewrite ?orb_true_r.
Qed.

(** X6. The samples are processed under the names of their directory
    entries.  For a name without a slash, the last component of the path
    joined from the directory and the name is the name.  The loop of main
    passes over each sample that cannot be opened or converted, and gives
    every other one the last component of its path as file name: the
    names to process are those of the uploaded files, followed by the
    names of the image entries of the directory that can be loaded, in
    the order of their paths. *)
Theorem sample_name_round_trip
    (fs : string -> Samples.directory) (load : string -> option string)
    (uploaded_files : list (string * string)) (sample_dir : string)
    (names paths : list string) :
  fs sample_dir = Samples.Entries names ->
  Forall (fun name => Str.contains name "/" = false) names ->
  Samples.list_sample_images fs sample_dir = Some paths ->
  (forall name, Str.contains name "/" = false ->
                Samples.basename (Samples.path_join sample_dir name) = name)
  /\ map fst (Samples.images_to_process uploaded_files true load paths)
     = (map fst uploaded_files
        ++ map Samples.basename (filter (Samples.loads load) paths))%list
  /\ Samples.images_to_process uploaded_files false load paths
     = uploaded_files
  /\ Permutation
       (map fst (Samples.load_samples load paths))
       (filter (fun name =>
                  Samples.is_image_name name
                  && Samples.loads load (Samples.path_join sample_dir name))
               names).
Proof.
  intros Hfs Hnames Hl.
  split; [intros name; apply SampleFacts.basename_path_join|].
  split.
  { unfold Samples.images_to_process.
    now rewrite map_app, SampleFacts.load_samples_names. }
  split; [unfold Samples.images_to_process; apply app_nil_r|].
  rewrite (SampleFacts.list_sample_images_entries fs _ _ Hfs) in Hl.
  inversion Hl as [Hp]. clear Hl Hp.
  rewrite SampleFacts.load_samples_names.
  rewrite (SampleFacts.filter_perm (Samples.loads load) _ _
             (SampleFacts.sort_perm _)).
  rewrite SampleFacts.filter_map, map_map, SampleFacts.filter_filter.
  replace (map (fun x => Samples.basename (Samples.path_join sample_dir x))
               (filter (fun name =>
                          Samples.is_image_name name
                          && Samples.loads load
                               (Samples.path_join sample_dir name)) names))
    with (map (fun x : string => x)
              (filter (fun name =>
                         Samples.is_image_name name
                         && Samples.loads load
                              (Samples.path_join sample_dir name)) names)).
  - now rewrite map_id.
  - apply map_ext_in. intros name Hin. symmetry.
    apply SampleFacts.basename_path_join.
    apply filter_In in Hin as [Hin _].
    rewrite Forall_forall in Hnames. now apply Hnames.
Qed.

Lemma sample_name_round_trip_witness :
  Permutation
    (map fst
       (Samples.load_samples
          (fun path => if String.eqb path "/data/sample-data/b.PNG"
                       then None else Some "bytes")
          ["/data/sample-data/a.jpg"; "/data/sample-data/b.PNG";
           "/data/sample-data/c.jpeg"]))
    ["c.jpeg"; "a.jpg"].
Proof.
  refine (proj2 (proj2 (proj2 (sample_name_round_trip
            (fun _ => Samples.Entries ["b.PNG"; "c.jpeg"; "notes.txt"; "a.jpg"])
            (fun path => if String.eqb path "/data/sample-data/b.PNG"
                         then None else Some "bytes")
            [] "/data/sample-data" ["b.PNG"; "c.jpeg"; "notes.txt"; "a.jpg"]
            ["/data/sample-data/a.jpg"; "/data/sample-data/b.PNG";
             "/data/sample-data/c.jpeg"]
            eq_refl _ eq_refl)))).
  repeat (constructor; [reflexivity|]). constructor.
Defined.

(* ===================================================================== *)
(** * Records *)
(* ===================================================================== *)

Module RecordFacts.
Import App Fields.

(** What [x or ""] can be. *)
Lemma or_empty (v : pyval) :
  Py.or v (PStr "") = PStr "" \/ Py.truthy (Py.or v (PStr "")) = true.
Proof. unfold Py.or. destruct (Py.truthy v) eqn:E; [now right | now left]. Qed.

(** Falling back a second time changes nothing. *)
Lemma or_empty_again (v : pyval) :
  Py.or (Py.or v (PStr "")) (PStr "") = Py.or v (PStr "").
Proof. unfold Py.or. destruct (Py.truthy v) eqn:E; [now rewrite E | reflexivity]. Qed.

Lemma or_none (v : pyval) : Py.or (Py.or v PNone) (PStr "") = Py.or v (PStr "").
Proof. unfold Py.or. destruct (Py.truthy v) eqn:E; [now rewrite E | reflexivity]. Qed.

Lemma normalize_price_cases (val texto : pyval) :
  normalize_price val texto = PNone
  \/ exists f, normalize_price val texto = PFloat f.
Proof.
  unfold normalize_price.
  destruct (direct_price val) as [v|e] eqn:Hd.
  - unfold direct_price in Hd.
    destruct val; try (inversion Hd; now left);
      (destruct (Py.float _) as [x|] in Hd; simpl in Hd;
       [inversion Hd; right; now exists x | discriminate]).
  - unfold fallback_price.
    destruct (Float.of_string _) as [f|]; [right; now exists f | now left].
Qed.

Lemma normalize_price_again (val texto texto' : pyval) :
  normalize_price (normalize_price val texto) texto' = normalize_price val texto.
Proof.
  destruct (normalize_price_cases val texto) as [->|[f ->]]; reflexivity.
Qed.

Lemma normalize_condicoes_list (raw : pyval) :
  exists l, normalize_condicoes raw = PList l.
Proof.
  unfold normalize_condicoes, Py.or.
  destruct (Py.truthy raw) eqn:E; [|now exists []].
  destruct raw; simpl; eauto.
Qed.

Lemma normalize_condicoes_again (raw : pyval) :
  normalize_condicoes (normalize_condicoes raw) = normalize_condicoes raw.
Proof.
  destruct (normalize_condicoes_list raw) as [l ->].
  now destruct l.
Qed.

(** The loop gives one record for each product, or fails. *)
Lemma normalize_all_mappings (items : list pyval) :
  normalize_all items
  = if all_mappings items then Ok (map normalize_product (mappings items))
    else Raise AttributeError.
Proof.
  induction items as [|v items IH]; [reflexivity|].
  destruct v; try reflexivity.
  cbn [normalize_all all_mappings forallb Py.is_dict andb mappings map].
  rewrite IH. unfold all_mappings. now destruct (forallb Py.is_dict items).
Qed.

Lemma length_mappings (items : list pyval) :
  all_mappings items = true -> List.length (mappings items) = List.length items.
Proof.
  induction items as [|v items IH]; [reflexivity|].
  destruct v; try discriminate. simpl. intros H. now rewrite IH.
Qed.

End RecordFacts.

(** X7. A response that parses to an object whose products are a list gives
    one record per element, in the order of the list, when every element
    is an object; a single element that is not (a string, a number, null)
    makes the processing of the whole response fail. *)
Theorem one_record_per_product (content : string) (d : pydict) (l : list pyval) :
  Json.loads content = Ok (PDict d) ->
  Py.lookup d "products" = Some (PList l) ->
  (Fields.all_mappings l = true ->
   App.products_of_content content
   = Ok (map App.normalize_product (Fields.mappings l))
   /\ List.length (map App.normalize_product (Fields.mappings l))
      = List.length l)
  /\ (Fields.all_mappings l = false ->
      App.products_of_content content = Raise AttributeError).
Proof.
  intros Hl Hk.
  assert (H : App.products_of_content content = App.normalize_all l).
  { unfold App.products_of_content.
    rewrite (ParserFacts.load_payload_strict content _ Hl). cbn [bind].
    unfold App.products_of_payload, App.get_products, Py.get_default.
    rewrite Hk. now destruct l. }
  rewrite H, RecordFacts.normalize_all_mappings.
  split; intros Ha; rewrite Ha; [|reflexivity].
  split; [reflexivity|].
  rewrite length_map. now apply RecordFacts.length_mappings.
Qed.

Lemma one_record_per_product_witness :
  App.products_of_content
    (Str.dq "{'products': [{'nome': 'Arroz'}, {}, {'marca': 'Tio'}], 'n': 3}")
  = Ok [ App.normalize_product [("nome", PStr "Arroz")];
         App.normalize_product [];
         App.normalize_product [("marca", PStr "Tio")] ]
  /\ App.products_of_content (Str.dq "{'products': [{'nome': 'Arroz'}, 'Feijao']}")
     = Raise AttributeError.
Proof.
  split.
  - refine (proj1 (proj1 (one_record_per_product _
              [("products", PList [PDict [("nome", PStr "Arroz")]; PDict [];
                                   PDict [("marca", PStr "Tio")]]);
               ("n", PInt 3)]
              [PDict [("nome", PStr "Arroz")]; PDict [];
               PDict [("marca", PStr "Tio")]] _ _) _));
      vm_compute; reflexivity.
  - refine (proj2 (one_record_per_product _
              [("products", PList [PDict [("nome", PStr "Arroz")]; PStr "Feijao"])]
              [PDict [("nome", PStr "Arroz")]; PStr "Feijao"] _ _) _);
      vm_compute; reflexivity.
Defined.

(** X8. Every record the normaliser produces has the same six fields in the
    same order.  Its name, brand, product and price text are never None:
    each is the empty string or a truthy value; its conditions are always
    a list; its price is None or a float. *)
Theorem record_schema (p : pydict) :
  exists marca_nome marca produto preco_brl preco_brl_texto condicoes,
    App.normalize_product p
    = PDict [ ("marca_nome", marca_nome); ("marca", marca);
              ("produto", produto); ("preco_brl", preco_brl);
              ("preco_brl_texto", preco_brl_texto);
              ("condicoes", PList condicoes) ]
    /\ (marca_nome = PStr "" \/ Py.truthy marca_nome = true)
    /\ (marca = PStr "" \/ Py.truthy marca = true)
    /\ (produto = PStr "" \/ Py.truthy produto = true)
    /\ (preco_brl_texto = PStr "" \/ Py.truthy preco_brl_texto = true)
    /\ (preco_brl = PNone \/ exists f, preco_brl = PFloat f).
Proof.
  unfold App.normalize_product.
  destruct (RecordFacts.normalize_condicoes_list (Py.get p "condicoes"))
    as [l Hl].
  rewrite Hl. do 6 eexists.
  split; [reflexivity|].
  split; [apply RecordFacts.or_empty|].
  split; [apply RecordFacts.or_empty|].
  split; [apply RecordFacts.or_empty|].
  split; [apply RecordFacts.or_empty|].
  apply RecordFacts.normalize_price_cases.
Qed.

(** X9. Normalising is idempotent: a record that the normaliser produced is
    left as it is when it is normalised again. *)
Theorem normalization_idempotent (p : pydict) :
  exists record,
    App.normalize_product p = PDict record
    /\ App.normalize_product record = PDict record.
Proof.
  eexists. split; [reflexivity|].
  unfold App.normalize_product at 1.
  cbn [Py.get Py.lookup String.eqb Ascii.eqb Bool.eqb].
  rewrite !RecordFacts.or_none, !RecordFacts.or_empty_again,
          RecordFacts.normalize_price_again,
          RecordFacts.normalize_condicoes_again.
  reflexivity.
Qed.

(* ===================================================================== *)
(** * Prices in the Brazilian format *)
(* ===================================================================== *)

Module PriceTextFacts.
Import App Fields Prices.

(** ** Characters *)

Lemma all_in_impl (ok1 ok2 : ascii -> bool) (s : string) :
  (forall c, ok1 c = true -> ok2 c = true) ->
  all_in ok1 s = true -> all_in ok2 s = true.
Proof.
  intros Hi. induction s as [|c s IH]; [reflexivity|].
  simpl. intros H. apply andb_true_iff in H as [Hc Hs].
  now rewrite (Hi c Hc), IH.
Qed.

Lemma all_in_append (ok : ascii -> bool) (a b : string) :
  all_in ok (a ++ b) = all_in ok a && all_in ok b.
Proof.
  induction a as [|c a IH]; [reflexivity|].
  simpl. now rewrite IH, andb_assoc.
Qed.

Lemma all_in_rev (ok : ascii -> bool) (s : string) :
  all_in ok (Str.rev s) = all_in ok s.
Proof.
  induction s as [|c s IH]; [reflexivity|].
  rewrite StrFacts.rev_cons, all_in_append, IH. simpl.
  rewrite andb_true_r. apply andb_comm.
Qed.

Lemma all_in_contains (ok : ascii -> bool) (s : string) (c : ascii) :
  all_in ok s = true -> ok c = false -> Str.contains s c = false.
Proof.
  intros Hs Hc. induction s as [|x s IH]; [reflexivity|].
  simpl in Hs. apply andb_true_iff in Hs as [Hx Hs].
  simpl. rewrite (IH Hs), orb_false_r.
  destruct (Ascii.eqb_spec c x) as [->|]; [congruence | reflexivity].
Qed.

Lemma digit_cases (c : ascii) :
  Str.is_digit c = true ->
  In c ["0"; "1"; "2"; "3"; "4"; "5"; "6"; "7"; "8"; "9"]%char.
Proof.
  intros H. destruct c as [[] [] [] [] [] [] [] []];
    cbv in H; try discriminate; simpl; tauto.
Qed.

(** What holds of a digit holds of the characters of a text of digits. *)
Lemma digits_all (ok : ascii -> bool) (s : string) :
  forallb ok ["0"; "1"; "2"; "3"; "4"; "5"; "6"; "7"; "8"; "9"]%char = true ->
  all_in Str.is_digit s = true -> all_in ok s = true.
Proof.
  intros Hok. apply all_in_impl. intros c Hc.
  rewrite forallb_forall in Hok. apply Hok. now apply digit_cases.
Qed.

Lemma digit_ok (ok : ascii -> bool) (c : ascii) :
  forallb ok ["0"; "1"; "2"; "3"; "4"; "5"; "6"; "7"; "8"; "9"]%char = true ->
  Str.is_digit c = true -> ok c = true.
Proof.
  intros Hok Hc. rewrite forallb_forall in Hok. apply Hok. now apply digit_cases.
Qed.

(** ** The cleanup *)

Lemma without_append (c : ascii) (a b : string) :
  without c (a ++ b) = without c a ++ without c b.
Proof.
  induction a as [|x a IH]; [reflexivity|].
  simpl. destruct (Ascii.eqb c x); simpl; now rewrite IH.
Qed.

Lemma without_absent (c : ascii) (s : string) :
  Str.contains s c = false -> without c s = s.
Proof.
  induction s as [|x s IH]; [reflexivity|].
  simpl. intros H. apply orb_false_elim in H as [Hx Hs].
  now rewrite Hx, IH.
Qed.

Lemma without_digits (s : string) :
  all_in digit_or_dot s = true -> all_in Str.is_digit (without "." s) = true.
Proof.
  induction s as [|x s IH]; [reflexivity|].
  cbn [all_in without]. intros H. apply andb_true_iff in H as [Hx Hs].
  destruct (Ascii.eqb "." x) eqn:E; [now apply IH|].
  cbn [all_in]. rewrite (IH Hs), andb_true_r.
  unfold digit_or_dot in Hx. rewrite Ascii.eqb_sym, E, orb_false_r in Hx.
  exact Hx.
Qed.

Lemma replace_absent (c : ascii) (old new s : string) :
  Str.contains s c = false -> Str.replace s (String c old) new = s.
Proof.
  unfold Str.replace. induction s as [|x s IH]; [reflexivity|].
  simpl. intros H. apply orb_false_elim in H as [Hx Hs].
  destruct (ascii_dec c x) as [->|Hne]; [now rewrite Ascii.eqb_refl in Hx|].
  now rewrite IH.
Qed.

Lemma replace_without (c : ascii) (s : string) :
  Str.replace s (String c "") "" = without c s.
Proof.
  unfold Str.replace. induction s as [|x s IH]; [reflexivity|].
  rewrite PriceFacts.replace_char_aux, IH. simpl.
  now destruct (Ascii.eqb c x).
Qed.

Lemma replace_one (c : ascii) (new a b : string) :
  Str.contains a c = false -> Str.contains b c = false ->
  Str.replace (a ++ String c b) (String c "") new = a ++ new ++ b.
Proof.
  intros Ha Hb. unfold Str.replace.
  induction a as [|x a IH].
  - cbn [append]. rewrite PriceFacts.replace_char_aux, Ascii.eqb_refl.
    f_equal. now apply (replace_absent c "" new b).
  - simpl in Ha. apply orb_false_elim in Ha as [Hx Ha].
    cbn [append]. rewrite PriceFacts.replace_char_aux, Hx, (IH Ha).
    reflexivity.
Qed.

(** The marker at the head of a text that has no other [R]. *)
Lemma replace_marker (s : string) :
  Str.contains s "R" = false -> Str.replace ("R$" ++ s) "R$" "" = s.
Proof.
  intros H. unfold Str.replace. cbn [append Str.replace_aux].
  change (prefix "R$" (String "R" (String "$" s))) with (prefix "" s).
  replace (prefix "" s) with true by (now destruct s).
  cbn [String.length Nat.pred append].
  now apply (replace_absent "R" "$" "" s).
Qed.

(** ** Reading a decimal *)

Lemma to_ascii_plain (s : string) :
  all_in (fun c => (nat_of_ascii c <? 128)%nat) s = true ->
  Float.to_ascii s O = s.
Proof.
  induction s as [|c s IH]; [reflexivity|].
  cbn [all_in Float.to_ascii]. intros H. apply andb_true_iff in H as [Hc Hs].
  now rewrite Hc, IH.
Qed.

Lemma strip_underscores_plain (prev : ascii) (s : string) :
  Ascii.eqb prev "_" = false ->
  all_in (fun c => negb (Ascii.eqb c "_")) s = true ->
  Float.strip_underscores prev s = Some s.
Proof.
  revert prev. induction s as [|c s IH]; intros prev Hp H.
  - cbn [Float.strip_underscores]. now rewrite Hp.
  - cbn [all_in] in H. apply andb_true_iff in H as [Hc Hs].
    apply negb_true_iff in Hc.
    cbn [Float.strip_underscores]. rewrite Hc, Hp. cbn [andb].
    now rewrite (IH c Hc Hs).
Qed.

Lemma c_lstrip_plain (s : string) :
  all_in (fun c => negb (Float.c_isspace c)) s = true -> Float.c_lstrip s = s.
Proof.
  destruct s as [|c s]; [reflexivity|].
  cbn [all_in Float.c_lstrip]. intros H. apply andb_true_iff in H as [Hc _].
  apply negb_true_iff in Hc. now rewrite Hc.
Qed.

Lemma c_strip_plain (s : string) :
  all_in (fun c => negb (Float.c_isspace c)) s = true -> Float.c_strip s = s.
Proof.
  intros H. unfold Float.c_strip.
  rewrite (c_lstrip_plain s H), c_lstrip_plain by now rewrite all_in_rev.
  apply StrFacts.rev_involutive.
Qed.

Lemma number_append (a b : string) (acc : Z) :
  number (a ++ b) acc = number b (number a acc).
Proof. revert acc. induction a as [|c a IH]; intros acc; simpl; auto. Qed.

Lemma take_digits_append (x r : string) (acc cnt : Z) :
  all_in Str.is_digit x = true ->
  match r with String c _ => Str.is_digit c = false | EmptyString => True end ->
  Float.take_digits (x ++ r) acc cnt = (number x acc, cnt + Str.len x, r).
Proof.
  intros Hx Hr. revert acc cnt. induction x as [|c x IH]; intros acc cnt.
  - cbn [append number]. unfold Str.len. cbn [String.length Z.of_nat].
    rewrite Z.add_0_r. destruct r as [|c r]; [reflexivity|].
    cbn [Float.take_digits]. now rewrite Hr.
  - cbn [all_in] in Hx. apply andb_true_iff in Hx as [Hc Hx].
    cbn [append Float.take_digits number]. rewrite Hc, (IH Hx).
    f_equal. f_equal. unfold Str.len. cbn [String.length]. lia.
Qed.

Lemma take_digits_all (x : string) (acc cnt : Z) :
  all_in Str.is_digit x = true ->
  Float.take_digits x acc cnt = (number x acc, cnt + Str.len x, "").
Proof.
  intros Hx. rewrite <- (StrFacts.append_nil_r x) at 1.
  now apply take_digits_append.
Qed.

Lemma len_nonneg (s : string) : 0 <= Str.len s.
Proof. unfold Str.len. lia. Qed.

(** A text that starts with a digit is no sign, no infinity and no NaN. *)
Lemma parse_stripped_digit (d : ascii) (s : string) :
  Str.is_digit d = true ->
  Float.parse_stripped (String d s) = Float.parse_number false (String d s).
Proof.
  intros Hd.
  assert (E1 : Ascii.eqb d "-" = false)
    by (apply negb_true_iff;
        apply (digit_ok (fun c => negb (Ascii.eqb c "-")) d); [reflexivity|exact Hd]).
  assert (E2 : Ascii.eqb d "+" = false)
    by (apply negb_true_iff;
        apply (digit_ok (fun c => negb (Ascii.eqb c "+")) d); [reflexivity|exact Hd]).
  assert (E3 : Ascii.eqb (Str.lower_ascii d) "i" = false)
    by (apply negb_true_iff;
        apply (digit_ok (fun c => negb (Ascii.eqb (Str.lower_ascii c) "i")) d);
        [reflexivity|exact Hd]).
  assert (E4 : Ascii.eqb (Str.lower_ascii d) "n" = false)
    by (apply negb_true_iff;
        apply (digit_ok (fun c => negb (Ascii.eqb (Str.lower_ascii c) "n")) d);
        [reflexivity|exact Hd]).
  unfold Float.parse_stripped, Float.take_sign.
  cbn [Str.eat]. rewrite E1, E2.
  cbn [Str.lower String.eqb]. rewrite E3, E4. reflexivity.
Qed.

Lemma decimal_all (ok : ascii -> bool) (d : ascii) (a b : string) :
  forallb ok ["0"; "1"; "2"; "3"; "4"; "5"; "6"; "7"; "8"; "9"]%char = true ->
  ok "."%char = true ->
  Str.is_digit d = true ->
  all_in Str.is_digit a = true -> all_in Str.is_digit b = true ->
  all_in ok (String d a ++ String "." b) = true.
Proof.
  intros Hok Hdot Hd Ha Hb.
  rewrite all_in_append. cbn [all_in].
  now rewrite (digit_ok ok d Hok Hd), (digits_all ok a Hok Ha), Hdot,
              (digits_all ok b Hok Hb).
Qed.

(** [float] of digits, a point and digits. *)
Lemma of_string_decimal (d : ascii) (a b : string) :
  Str.is_digit d = true ->
  all_in Str.is_digit a = true -> all_in Str.is_digit b = true ->
  Float.of_string (String d a ++ String "." b)
  = Ok (Float.of_decimal false (number (String d a ++ b) 0) (- Str.len b)).
Proof.
  intros Hd Ha Hb. unfold Float.of_string.
  rewrite to_ascii_plain by (now apply decimal_all).
  rewrite strip_underscores_plain by (reflexivity || now apply decimal_all).
  rewrite c_strip_plain by (now apply decimal_all).
  change (String d a ++ String "." b) with (String d (a ++ String "." b)).
  rewrite (parse_stripped_digit d _ Hd).
  change (String d (a ++ String "." b)) with (String d a ++ String "." b).
  unfold Float.parse_number.
  rewrite take_digits_append; [|cbn [all_in]; now rewrite Hd, Ha|reflexivity].
  cbn [Str.eat]. rewrite Ascii.eqb_refl.
  rewrite (take_digits_all b _ 0 Hb).
  assert (Hpos : (0 <? 0 + Str.len (String d a) + (0 + Str.len b)) = true).
  { apply Z.ltb_lt. pose proof (len_nonneg b). unfold Str.len in *.
    cbn [String.length]. lia. }
  rewrite Hpos. cbn [Float.parse_exponent].
  rewrite number_append.
  replace (0 - (0 + Str.len b)) with (- Str.len b) by lia. reflexivity.
Qed.

(** [float] of digits. *)
Lemma of_string_integer (d : ascii) (a : string) :
  Str.is_digit d = true -> all_in Str.is_digit a = true ->
  Float.of_string (String d a)
  = Ok (Float.of_decimal false (number (String d a) 0) 0).
Proof.
  intros Hd Ha.
  assert (Hall : forall ok,
             forallb ok ["0"; "1"; "2"; "3"; "4"; "5"; "6"; "7"; "8"; "9"]%char
             = true -> all_in ok (String d a) = true).
  { intros ok Hok. cbn [all_in].
    now rewrite (digit_ok ok d Hok Hd), (digits_all ok a Hok Ha). }
  unfold Float.of_string.
  rewrite to_ascii_plain by (now apply Hall).
  rewrite strip_underscores_plain by (reflexivity || now apply Hall).
  rewrite c_strip_plain by (now apply Hall).
  rewrite (parse_stripped_digit d _ Hd).
  unfold Float.parse_number.
  rewrite take_digits_all by (now apply Hall).
  cbn [Str.eat].
  assert (Hpos : (0 <? 0 + Str.len (String d a) + 0) = true).
  { apply Z.ltb_lt. pose proof (len_nonneg a). unfold Str.len in *.
    cbn [String.length]. lia. }
  rewrite Hpos. cbn [Float.parse_exponent]. reflexivity.
Qed.

Lemma c_lstrip_keeps (x z : string) (c : ascii) :
  Float.c_isspace c = false ->
  exists y, Float.c_lstrip (x ++ String c z) = y ++ String c z.
Proof.
  intros Hc. induction x as [|a x [y IH]].
  - exists "". cbn [append Float.c_lstrip]. now rewrite Hc.
  - cbn [append Float.c_lstrip]. destruct (Float.c_isspace a).
    + now exists y.
    + now exists (String a x).
Qed.

Lemma c_strip_head (c : ascii) (t : string) :
  Float.c_isspace c = false ->
  exists u, Float.c_strip (String c t) = String c u.
Proof.
  intros Hc. unfold Float.c_strip. cbn [Float.c_lstrip]. rewrite Hc.
  rewrite StrFacts.rev_cons.
  destruct (c_lstrip_keeps (Str.rev t) "" c Hc) as [y ->].
  exists (Str.rev y). now rewrite StrFacts.rev_append.
Qed.

(** [float] of a text that starts with the marker raises. *)
Lemma of_string_marker (s : string) :
  Float.of_string (String "R" s) = Raise ValueError.
Proof.
  unfold Float.of_string. cbn [Float.to_ascii].
  change (nat_of_ascii "R" <? 128)%nat with true. cbv iota.
  cbn [Float.strip_underscores].
  change (Ascii.eqb "R" "_") with false.
  change (Ascii.eqb "000" "_") with false. cbn [andb]. cbv iota.
  destruct (Float.strip_underscores "R" (Float.to_ascii s 0)) as [t|];
    [|reflexivity].
  cbn [option_map].
  destruct (c_strip_head "R" t eq_refl) as [u ->].
  reflexivity.
Qed.

(** ** The cleanup of a price in the Brazilian format *)

Lemma without_spaces (sp : string) :
  all_in (Ascii.eqb " ") sp = true -> without " " sp = "".
Proof.
  induction sp as [|c sp IH]; [reflexivity|].
  cbn [all_in without]. intros H. apply andb_true_iff in H as [Hc Hs].
  now rewrite Hc, IH.
Qed.

Lemma spaces_no_marker (sp : string) :
  all_in (Ascii.eqb " ") sp = true -> Str.contains sp "R" = false.
Proof.
  intros H. apply (all_in_contains (Ascii.eqb " ")); [exact H | reflexivity].
Qed.

Lemma grouped_absent (a : string) (c : ascii) :
  all_in digit_or_dot a = true -> digit_or_dot c = false ->
  Str.contains a c = false.
Proof. apply all_in_contains. Qed.

Lemma digits_absent (b : string) (c : ascii) :
  all_in Str.is_digit b = true -> Str.is_digit c = false ->
  Str.contains b c = false.
Proof. apply all_in_contains. Qed.

Lemma digit_absent (d c : ascii) :
  Str.is_digit d = true -> Str.is_digit c = false -> Ascii.eqb c d = false.
Proof.
  intros Hd Hc. destruct (Ascii.eqb_spec c d) as [->|]; [congruence | reflexivity].
Qed.

(** After the marker and spaces, digits in groups, a comma and digits: the
    cleanup leaves the digits, with a point for the comma. *)
Lemma cleanup_brazilian (sp : string) (d : ascii) (a b : string) :
  all_in (Ascii.eqb " ") sp = true ->
  Str.is_digit d = true ->
  all_in digit_or_dot a = true -> all_in Str.is_digit b = true ->
  locale_cleanup ("R$" ++ sp ++ String d a ++ String "," b)
  = String d (without "." a) ++ String "." b.
Proof.
  intros Hsp Hd Ha Hb. unfold locale_cleanup.
  rewrite replace_marker.
  2:{ rewrite !StrFacts.contains_append. cbn [Str.contains].
      now rewrite (spaces_no_marker sp Hsp), (digit_absent d "R" Hd eq_refl),
                  (grouped_absent a "R" Ha eq_refl),
                  (digits_absent b "R" Hb eq_refl). }
  rewrite (replace_without " "), !without_append, (without_spaces sp Hsp).
  cbn [without append].
  rewrite (digit_absent d " " Hd eq_refl).
  change (Ascii.eqb " " ",") with false. cbv iota.
  rewrite (without_absent " " a (grouped_absent a " " Ha eq_refl)),
          (without_absent " " b (digits_absent b " " Hb eq_refl)).
  rewrite (replace_without "."), without_append. cbn [without append].
  rewrite (digit_absent d "." Hd eq_refl).
  change (Ascii.eqb "." ",") with false. cbv iota.
  rewrite (without_absent "." b (digits_absent b "." Hb eq_refl)).
  change (String d (without "." a ++ String "," b))
    with (String d (without "." a) ++ String "," b).
  apply (replace_one "," "." (String d (without "." a)) b).
  - cbn [Str.contains]. rewrite (digit_absent d "," Hd eq_refl).
    apply (digits_absent _ "," (without_digits a Ha) eq_refl).
  - apply (digits_absent b "," Hb eq_refl).
Qed.

(** The same without a comma: every point goes. *)
Lemma cleanup_points (sp : string) (d : ascii) (a : string) :
  all_in (Ascii.eqb " ") sp = true ->
  Str.is_digit d = true -> all_in digit_or_dot a = true ->
  locale_cleanup ("R$" ++ sp ++ String d a) = String d (without "." a).
Proof.
  intros Hsp Hd Ha. unfold locale_cleanup.
  rewrite replace_marker.
  2:{ rewrite !StrFacts.contains_append. cbn [Str.contains].
      now rewrite (spaces_no_marker sp Hsp), (digit_absent d "R" Hd eq_refl),
                  (grouped_absent a "R" Ha eq_refl). }
  rewrite (replace_without " "), !without_append, (without_spaces sp Hsp).
  cbn [without append].
  rewrite (digit_absent d " " Hd eq_refl).
  rewrite (without_absent " " a (grouped_absent a " " Ha eq_refl)).
  rewrite (replace_without "."). cbn [without].
  rewrite (digit_absent d "." Hd eq_refl).
  apply replace_absent. cbn [Str.contains].
  rewrite (digit_absent d "," Hd eq_refl).
  apply (digits_absent _ "," (without_digits a Ha) eq_refl).
Qed.

(** A price field that starts with the marker is no number as it stands:
    the price comes from its cleanup. *)
Lemma price_of_marked (p : pydict) (s : string) :
  Py.get p "preco_brl" = PStr (String "R" s) ->
  price_of p = match Float.of_string (locale_cleanup (String "R" s)) with
               | Ok f => PFloat f
               | Raise _ => PNone
               end.
Proof.
  intros H. rewrite PriceFacts.price_of_eq, H.
  unfold normalize_price, direct_price. cbn [Py.float].
  rewrite of_string_marker. cbn [bind]. reflexivity.
Qed.

End PriceTextFacts.

(** X10. A price field in the Brazilian format - the marker R$, spaces,
    digits in groups set off by points, a comma, digits - gives the number
    it writes: the digits before the comma are its integer part, whatever
    the points between them, and the digits after the comma its decimals,
    rounded to the nearest float. *)
Theorem brazilian_price_read
    (p : pydict) (sp : string) (d : ascii) (a b : string) :
  all_in (Ascii.eqb " ") sp = true ->
  Str.is_digit d = true ->
  all_in Prices.digit_or_dot a = true ->
  all_in Str.is_digit b = true ->
  Py.get p "preco_brl" = PStr ("R$" ++ sp ++ String d a ++ String "," b) ->
  App.locale_cleanup ("R$" ++ sp ++ String d a ++ String "," b)
  = String d (Prices.without "." a) ++ String "." b
  /\ Fields.price_of p
     = PFloat (Float.of_decimal false
                 (Prices.number (String d (Prices.without "." a) ++ b) 0)
                 (- Str.len b)).
Proof.
  intros Hsp Hd Ha Hb Hp.
  pose proof (PriceTextFacts.cleanup_brazilian sp d a b Hsp Hd Ha Hb) as Hc.
  split; [exact Hc|].
  pose proof (PriceTextFacts.price_of_marked
                p ("$" ++ sp ++ String d a ++ String "," b) Hp) as Hm.
  change (String "R" ("$" ++ sp ++ String d a ++ String "," b))
    with ("R$" ++ sp ++ String d a ++ String "," b) in Hm.
  rewrite Hm, Hc, PriceTextFacts.of_string_decimal;
    auto using PriceTextFacts.without_digits.
Qed.

Lemma brazilian_price_read_witness :
  Fields.price_of [("produto", PStr "TV"); ("preco_brl", PStr "R$  12.345.678,9")]
  = PFloat (Float.of_decimal false 123456789 (-1)).
Proof.
  exact (proj2 (brazilian_price_read
                  [("produto", PStr "TV"); ("preco_brl", PStr "R$  12.345.678,9")]
                  "  " "1" "2.345.678" "9" eq_refl eq_refl eq_refl eq_refl eq_refl)).
Defined.

(** X11. A price field with the marker and no comma loses its points: they
    count as separators of groups, so that a price written with a decimal
    point, as in "R$ 29.90", is read a hundred times too large. *)
Theorem decimal_point_dropped (p : pydict) (sp : string) (d : ascii) (a : string) :
  all_in (Ascii.eqb " ") sp = true ->
  Str.is_digit d = true ->
  all_in Prices.digit_or_dot a = true ->
  Py.get p "preco_brl" = PStr ("R$" ++ sp ++ String d a) ->
  Fields.price_of p
  = PFloat (Float.of_decimal false
              (Prices.number (String d (Prices.without "." a)) 0) 0).
Proof.
  intros Hsp Hd Ha Hp.
  pose proof (PriceTextFacts.price_of_marked
                p ("$" ++ sp ++ String d a) Hp) as Hm.
  change (String "R" ("$" ++ sp ++ String d a))
    with ("R$" ++ sp ++ String d a) in Hm.
  rewrite Hm, PriceTextFacts.cleanup_points, PriceTextFacts.of_string_integer;
    auto using PriceTextFacts.without_digits.
Qed.

Lemma decimal_point_dropped_witness :
  Fields.price_of [("preco_brl", PStr "R$ 29.90")]
  = PFloat (Float.of_decimal false 2990 0).
Proof.
  exact (decimal_point_dropped [("preco_brl", PStr "R$ 29.90")]
           " " "2" "9.90" eq_refl eq_refl eq_refl eq_refl).
Defined.

(* ===================================================================== *)
(** * The run of main *)
(* ===================================================================== *)

Module RunFacts.
Import App Batch Client.

Lemma normalize_all_normalized (items l : list pyval) :
  normalize_all items = Ok l -> Forall normalized l.
Proof.
  revert l. induction items as [|v items IH]; intros l H.
  - inversion H. constructor.
  - destruct v; try discriminate. cbn [normalize_all] in H.
    destruct (normalize_all items) as [l'|]; [|discriminate].
    inversion H. constructor; [now exists d | now apply IH].
Qed.

Lemma products_of_content_normalized (content : string) (l : list pyval) :
  products_of_content content = Ok l -> Forall normalized l.
Proof.
  unfold products_of_content, products_of_payload.
  destruct (load_payload content) as [payload|]; [|discriminate]. cbn [bind].
  destruct (get_products payload) as [products|]; [|discriminate]. cbn [bind].
  destruct (iterate products) as [items|]; [|discriminate]. cbn [bind].
  apply normalize_all_normalized.
Qed.

Section Batch.

Variable World : Type.
Variable create : request -> World -> World * result response.
Variable model : string.

Lemma extract_normalized (b f : string) (w w' : World) (l : list pyval) :
  extract_products_from_image World create model b f w = (w', Ok l) ->
  Forall normalized l.
Proof.
  unfold extract_products_from_image.
  destruct (create (Request model b f) w) as [w1 r]. intros H.
  inversion H as [[Hw Hr]]. clear H Hw.
  destruct r as [resp|]; [|discriminate]. cbn [bind] in Hr.
  destruct (choices resp) as [|c cs]; [discriminate|]. cbn [bind] in Hr.
  destruct c as [text|]; [|discriminate].
  now apply products_of_content_normalized in Hr.
Qed.

Lemma contributions_rows (images : list (string * string)) (w : World) :
  Forall (row_of images)
         (flat_map contribution (outcomes World create model images w)).
Proof.
  revert w. induction images as [|[f b] images IH]; intros w; [constructor|].
  cbn [outcomes].
  destruct (extract_products_from_image World create model b f w)
    as [w' r] eqn:E.
  cbn [flat_map]. apply Forall_app. split.
  - unfold contribution. cbn [fst snd].
    destruct r as [l|]; [|constructor].
    apply extract_normalized in E.
    apply Forall_map. eapply Forall_impl; [|exact E].
    intros v Hv. split; [now left | exact Hv].
  - eapply Forall_impl; [|apply IH].
    intros row [Hin Hn]. split; [now right | exact Hn].
Qed.

Lemma collected_rows (images : list (string * string)) (w : World) :
  Forall (row_of images)
         (collected (snd (run_batch World create model images w))).
Proof.
  unfold run_batch.
  rewrite (proj1 (BatchFacts.process_images_outcomes
                    World create model images w (Batch [] []))).
  apply contributions_rows.
Qed.

End Batch.

(** Rows that the normaliser made are rows for the table. *)
Lemma rows_of_normalized (rows : list (string * pyval)) :
  Forall (fun row => normalized (snd row)) rows ->
  exists table_rows,
    rows_of rows = Ok table_rows
    /\ map fst table_rows = map fst rows
    /\ map (fun r => PDict (snd r)) table_rows = map snd rows.
Proof.
  induction 1 as [|[f v] rows [p Hp] Hrows (t & Ht & Hf & Hs)].
  - now exists [].
  - cbn [snd] in Hp. subst v.
    destruct (normalize_product p) as [| | | | | | d] eqn:E;
      try (unfold normalize_product in E; discriminate).
    exists ((f, d) :: t). cbn [rows_of]. rewrite Ht. cbn [bind map fst snd].
    now rewrite Hf, Hs.
Qed.

(** The records made of rows of the normaliser: one for each row, under
    the file name of the row. *)
Lemma build_records_normalized (rows : list (string * pyval)) :
  Forall (fun row => normalized (snd row)) rows ->
  exists records,
    build_records rows = Ok records
    /\ List.length records = List.length rows
    /\ map (fun r => Py.get r "arquivo") records
       = map (fun row => PStr (fst row)) rows.
Proof.
  intros H. destruct (rows_of_normalized rows H) as (t & Ht & Hf & _).
  exists (map build_record t). unfold build_records. rewrite Ht.
  split; [reflexivity|]. split.
  - now rewrite length_map, <- (length_map fst t), Hf, length_map.
  - rewrite map_map, <- (map_map fst PStr rows), <- Hf, map_map.
    apply map_ext. now intros [f p].
Qed.

Lemma get_openai_client_error (installed : bool) (getenv api_key : option string) :
  installed = false \/ usable api_key = false /\ usable getenv = false ->
  exists e, get_openai_client installed getenv api_key = inl e.
Proof.
  unfold get_openai_client. intros [->|[Ha Hg]]; [now exists PackageMissing|].
  destruct installed; [|now exists PackageMissing]. cbn [negb].
  rewrite Ha. destruct getenv as [g|]; [|now exists KeyMissing].
  rewrite Hg. now exists KeyMissing.
Qed.

End RunFacts.

(** X12. A client is made exactly when the package could be imported and
    there is a key that is not empty; the key given in the interface is
    used when it is not empty, the one of the environment otherwise, and
    no client is ever made with an empty key. *)
Theorem client_key_choice
    (installed : bool) (getenv api_key : option string) (k : string) :
  Client.get_openai_client installed getenv api_key = inr k
  <-> installed = true /\ k <> ""
      /\ (api_key = Some k
          \/ Client.usable api_key = false /\ getenv = Some k).
Proof.
  unfold Client.get_openai_client. split.
  - destruct installed; [|discriminate]. cbn [negb].
    destruct (Client.usable api_key) eqn:Ea.
    + destruct api_key as [a|]; [|discriminate]. rewrite Ea.
      intros H. inversion H; subst. cbn [Client.usable] in Ea.
      apply negb_true_iff, String.eqb_neq in Ea. auto.
    + destruct getenv as [g|]; [|discriminate].
      destruct (Client.usable (Some g)) eqn:Eg; [|discriminate].
      intros H. inversion H; subst. cbn [Client.usable] in Eg.
      apply negb_true_iff, String.eqb_neq in Eg. auto.
  - intros (-> & Hk & [->|[Ha ->]]); cbn [negb].
    + assert (E : Client.usable (Some k) = true)
        by (cbn [Client.usable]; now apply negb_true_iff, String.eqb_neq).
      now rewrite E, E.
    + assert (E : Client.usable (Some k) = true)
        by (cbn [Client.usable]; now apply negb_true_iff, String.eqb_neq).
      now rewrite Ha, E.
Qed.

(** X13. The rows that a batch collects carry the file name of an image of
    the batch and a record made by the normaliser, whatever the model
    answers. *)
Theorem collected_rows_wellformed
    (World : Type) (create : App.request -> World -> World * result App.response)
    (model : string) (images : list (string * string)) (w : World) :
  Forall (Client.row_of images)
         (App.collected (snd (App.run_batch World create model images w))).
Proof. apply RunFacts.collected_rows. Qed.

(** X14. Without images, without the package or without a key the run ends
    before the loop: no call is made to the model, and the run ends with
    the warning or with the configuration error. *)
Theorem no_call_without_images_or_key
    (World : Type)
    (connect : string -> App.request -> World -> World * result App.response)
    (Frame : Type) (make_table : list pydict -> result Frame)
    (present : Frame -> result unit)
    (installed : bool) (getenv api_key : option string) (model : string)
    (images : list (string * string)) (w : World) :
  images = [] \/ installed = false
  \/ (Client.usable api_key = false /\ Client.usable getenv = false) ->
  fst (Client.run World connect Frame make_table present
         installed getenv api_key model images w) = w
  /\ (snd (Client.run World connect Frame make_table present
              installed getenv api_key model images w)
      = Client.Warned
      \/ exists e,
           snd (Client.run World connect Frame make_table present
                  installed getenv api_key model images w)
           = Client.Refused e).
Proof.
  intros H. unfold Client.run.
  destruct images as [|i images]; [now auto|].
  destruct H as [H|H]; [discriminate|].
  destruct (RunFacts.get_openai_client_error installed getenv api_key H)
    as [e ->].
  split; [reflexivity|]. right. now exists e.
Qed.

Lemma no_call_without_images_or_key_witness :
  fst (Client.run nat (fun _ => Batch.sample_create)
         (list pydict) (fun records => Ok records) (fun _ => Ok tt)
         true None (Some "") "gpt-4o-mini" [("a.png", "A")] 0%nat) = 0%nat.
Proof.
  exact (proj1 (no_call_without_images_or_key nat (fun _ => Batch.sample_create)
                  (list pydict) (fun records => Ok records) (fun _ => Ok tt)
                  true None (Some "") "gpt-4o-mini" [("a.png", "A")] 0%nat
                  (or_intror (or_intror (conj eq_refl eq_refl))))).
Defined.

(** X15. How a run ends.  It ends with the warning exactly when there are
    no images, with the configuration error when no client can be made,
    and with the note when the loop collected no row.  Otherwise the loop
    of the table builder goes through every collected row, each being a
    record of the normaliser: pandas is handed one record for each row,
    in order, under the file name of its image.  The run then ends with
    the table that pandas made, shown, or with the exception that pandas
    or the display raised on these records. *)
Theorem run_outcomes
    (World : Type)
    (connect : string -> App.request -> World -> World * result App.response)
    (Frame : Type) (make_table : list pydict -> result Frame)
    (present : Frame -> result unit)
    (installed : bool) (getenv api_key : option string) (model : string)
    (images : list (string * string)) (w : World) :
  let ended := Client.run World connect Frame make_table present
                 installed getenv api_key model images w in
  let looped key rows errors :=
    Client.get_openai_client installed getenv api_key = inr key
    /\ App.run_batch World (connect key) model images w
       = (fst ended, App.Batch rows errors) in
  let handed rows records :=
    rows <> []
    /\ Client.build_records rows = Ok records
    /\ List.length records = List.length rows
    /\ map (fun r => Py.get r "arquivo") records
       = map (fun row => PStr (fst row)) rows in
  match snd ended with
  | Client.Warned => images = []
  | Client.Refused e =>
      images <> []
      /\ Client.get_openai_client installed getenv api_key = inl e
  | Client.Nothing errors => exists key, looped key [] errors
  | Client.Shown df errors =>
      exists key rows records,
        looped key rows errors /\ handed rows records
        /\ make_table records = Ok df /\ present df = Ok tt
  | Client.Crashed e errors =>
      exists key rows records,
        looped key rows errors /\ handed rows records
        /\ (make_table records = Raise e
            \/ exists df, make_table records = Ok df /\ present df = Raise e)
  end.
Proof.
  cbv zeta. unfold Client.run.
  destruct images as [|i images]; [reflexivity|].
  destruct (Client.get_openai_client installed getenv api_key) as [e|key] eqn:Ek.
  - split; [discriminate | reflexivity].
  - pose proof (RunFacts.collected_rows World (connect key) model
                  (i :: images) w) as Hrows.
    destruct (App.run_batch World (connect key) model (i :: images) w)
      as [w' [rows errors]] eqn:Eb.
    cbn [snd App.collected App.reported] in *.
    destruct rows as [|row rows].
    + exists key. rewrite Eb. split; reflexivity.
    + destruct (RunFacts.build_records_normalized (row :: rows))
        as (records & Hr & Hl & Ha).
      { eapply Forall_impl; [|exact Hrows]. now intros r [_ Hn]. }
      assert (Hh : row :: rows <> []
                   /\ Client.build_records (row :: rows) = Ok records
                   /\ List.length records = List.length (row :: rows)
                   /\ map (fun r => Py.get r "arquivo") records
                      = map (fun r => PStr (fst r)) (row :: rows))
        by (split; [discriminate | auto]).
      unfold Client.build_dataframe. rewrite Hr. cbn [bind].
      destruct (make_table records) as [df|e] eqn:Em.
      * destruct (present df) as [[]|e] eqn:Ep; cbn [snd fst];
          exists key, (row :: rows), records; rewrite Eb;
          (split; [split; reflexivity|]); (split; [exact Hh|]).
        -- split; assumption.
        -- right. exists df. split; assumption.
      * cbn [snd fst]. exists key, (row :: rows), records. rewrite Eb.
        split; [split; reflexivity|]. split; [exact Hh|]. now left.
Qed.

(* ===================================================================== *)
(** * The loop *)
(* ===================================================================== *)

Module LoopFacts.
Import App Batch.

Section Loop.

Variable World : Type.
Variable create : request -> World -> World * result response.
Variable model : string.

(** The loop adds to what was collected and reported before it. *)
Lemma process_images_acc (images : list (string * string)) (w : World)
    (acc : batch) :
  process_images World create model images w acc
  = (fst (run_batch World create model images w),
     Batch (collected acc
            ++ collected (snd (run_batch World create model images w)))
           (reported acc
            ++ reported (snd (run_batch World create model images w))))%list.
Proof.
  unfold run_batch. revert w acc.
  induction images as [|[f b] images IH]; intros w acc.
  - cbn. rewrite !app_nil_r. now destruct acc.
  - cbn [process_images].
    destruct (extract_products_from_image World create model b f w)
      as [w' [ps|ex]].
    + cbn [collected reported app].
      rewrite (IH w' (Batch (collected acc ++ map (pair f) ps) (reported acc))),
              (IH w' (Batch (map (pair f) ps) [])).
      cbn [fst snd collected reported app]. now rewrite app_assoc.
    + cbn [collected reported app].
      rewrite (IH w' (Batch (collected acc) (reported acc ++ [(f, ex)]))),
              (IH w' (Batch [] [(f, ex)])).
      cbn [fst snd collected reported app]. now rewrite <- app_assoc.
Qed.

Lemma process_images_app (images1 images2 : list (string * string))
    (w : World) (acc : batch) :
  process_images World create model (images1 ++ images2) w acc
  = process_images World create model images2
      (fst (process_images World create model images1 w acc))
      (snd (process_images World create model images1 w acc)).
Proof.
  revert w acc. induction images1 as [|[f b] images1 IH]; intros w acc;
    [reflexivity|].
  cbn [app process_images].
  destruct (extract_products_from_image World create model b f w)
    as [w' [ps|ex]]; apply IH.
Qed.

Lemma failures_length (os : list (string * result (list pyval))) :
  (List.length (flat_map failure os)
   + List.length (filter (fun o => is_ok (snd o)) os))%nat
  = List.length os.
Proof.
  induction os as [|[f [ps|ex]] os IH]; [reflexivity| |];
    cbn [flat_map failure snd fst filter is_ok app List.length]; lia.
Qed.

Lemma failures_names (os : list (string * result (list pyval))) :
  map fst (flat_map failure os)
  = map fst (filter (fun o => negb (is_ok (snd o))) os).
Proof.
  induction os as [|[f [ps|ex]] os IH]; [reflexivity| |];
    cbn [flat_map failure snd fst filter is_ok negb app map];
    now rewrite IH.
Qed.

End Loop.

End LoopFacts.

(** X16. A batch can be cut in two: processing the images of a first list
    and then, from the state reached, those of a second list collects and
    reports what processing the two lists in one batch does, and ends in
    the same state. *)
Theorem batch_composes
    (World : Type) (create : App.request -> World -> World * result App.response)
    (model : string) (images1 images2 : list (string * string)) (w : World) :
  let first := App.run_batch World create model images1 w in
  let second := App.run_batch World create model images2 (fst first) in
  App.run_batch World create model (images1 ++ images2) w
  = (fst second,
     App.Batch (App.collected (snd first) ++ App.collected (snd second))
               (App.reported (snd first) ++ App.reported (snd second)))%list.
Proof.
  intros first second. unfold App.run_batch at 1.
  rewrite LoopFacts.process_images_app, LoopFacts.process_images_acc.
  reflexivity.
Qed.

(** X17. Every image of a batch is accounted for once: it is processed or it
    is reported, and the errors reported are those of the images that
    failed, in the order of the batch. *)
Theorem failures_reported_once
    (World : Type) (create : App.request -> World -> World * result App.response)
    (model : string) (images : list (string * string)) (w : World) :
  let outcomes := Batch.outcomes World create model images w in
  let b := snd (App.run_batch World create model images w) in
  (List.length (App.reported b)
   + List.length (filter (fun o => is_ok (snd o)) outcomes))%nat
  = List.length images
  /\ map fst (App.reported b)
     = map fst (filter (fun o => negb (is_ok (snd o))) outcomes)
  /\ map fst outcomes = map fst images.
Proof.
  intros outcomes b. unfold b, App.run_batch.
  rewrite (proj2 (BatchFacts.process_images_outcomes
                    World create model images w (App.Batch [] []))).
  cbn [App.reported app]. fold outcomes.
  split; [|split].
  - rewrite LoopFacts.failures_length. apply BatchFacts.outcomes_length.
  - apply LoopFacts.failures_names.
  - unfold outcomes. clear. revert w.
    induction images as [|[f bytes] images IH]; intros w; [reflexivity|].
    cbn [Batch.outcomes].
    destruct (App.extract_products_from_image World create model bytes f w)
      as [w' r].
    cbn [map fst]. now rewrite IH.
Qed.
